(** * cell-engine-ext: export pipeline, object-store gateway and
      statistics request builder.

    Shallow embedding of [src/s3.py], [src/client_ext.py] and [src/main.py].
    Stateful code is written in a state-and-exception monad over a [State]
    that holds the bucket, the local files, the gateway's pending-transfer
    queue and the trace of the calls that transfer or mutate. *)

From Stdlib Require Import ZArith List Bool Ascii String Lia.
From Stdlib Require Import Floats.SpecFloat.
From stdpp Require Import base decidable option list strings gmap.

Set Warnings "-register-all".
Local Open Scope string_scope.
Local Open Scope Z_scope.

(* ===================================================================== *)
(** ** Python [str] methods used by the sources *)
(* ===================================================================== *)
Module PyStr.

(** [s.startswith(p)] *)
Definition startswith (p s : string) : bool := String.prefix p s.

(** [s[n:]] *)
Fixpoint drop_chars (n : nat) (s : string) : string :=
  match n, s with
  | O, _ => s
  | S _, EmptyString => EmptyString
  | S k, String _ t => drop_chars k t
  end.

(** [s.removeprefix(p)]: [s[len(p):]] when [s] starts with [p], else [s]. *)
Definition removeprefix (p s : string) : string :=
  if startswith p s then drop_chars (String.length p) s else s.

(** [s[::-1]] *)
Fixpoint rev_string (s : string) : string :=
  match s with
  | EmptyString => EmptyString
  | String c t => rev_string t +:+ String c EmptyString
  end.

(** [s.endswith(x)] *)
Definition endswith (x s : string) : bool :=
  String.prefix (rev_string x) (rev_string s).

(** [s.removesuffix(x)]: [s[:-len(x)]] when [x] is not empty and [s] ends
    with it, else [s]. *)
Definition removesuffix (x s : string) : string :=
  match x with
  | EmptyString => s
  | _ => if endswith x s
         then String.substring 0 (String.length s - String.length x) s
         else s
  end.

(** The scan of [s.replace(old, new)] for a non-empty [old]: [skip] counts
    the characters of a match already replaced that are still to be passed
    over. *)
Fixpoint replace_scan (old new : string) (skip : nat) (s : string) : string :=
  match s with
  | EmptyString => EmptyString
  | String c t =>
      match skip with
      | S k => replace_scan old new k t
      | O => if String.prefix old s
             then new +:+ replace_scan old new (Nat.pred (String.length old)) t
             else String c (replace_scan old new O t)
      end
  end.

(** [new] in front of every character and at the end: what [replace] does
    for the empty [old]. *)
Fixpoint intersperse_all (new s : string) : string :=
  match s with
  | EmptyString => new
  | String c t => new +:+ String c (intersperse_all new t)
  end.

(** [s.replace(old, new)]: every non-overlapping occurrence, left to right. *)
Definition replace (old new s : string) : string :=
  match old with
  | EmptyString => intersperse_all new s
  | _ => replace_scan old new O s
  end.

(** [s.replace(old, new, 1)]: the leftmost occurrence only. *)
Fixpoint replace_first (old new s : string) : string :=
  if String.prefix old s then new +:+ drop_chars (String.length old) s
  else match s with
       | EmptyString => EmptyString
       | String c t => String c (replace_first old new t)
       end.

(** [x in s] for strings. *)
Fixpoint contains (x s : string) : bool :=
  String.prefix x s ||
  match s with
  | EmptyString => false
  | String _ t => contains x t
  end.

(** [c.lower()] on the ASCII letters. *)
Definition lower_ascii (c : ascii) : ascii :=
  let n := nat_of_ascii c in
  if (Nat.leb 65 n && Nat.leb n 90)%bool then ascii_of_nat (n + 32) else c.

(** [s.lower()] *)
Fixpoint lower (s : string) : string :=
  match s with
  | EmptyString => EmptyString
  | String c t => String (lower_ascii c) (lower t)
  end.

(** Split at the last ["/"]: [(head, tail)] with the slash left out, or
    [None] when there is no slash. *)
Fixpoint rsplit_slash (s : string) : option (string * string) :=
  match s with
  | EmptyString => None
  | String c t =>
      match rsplit_slash t with
      | Some (h, tl) => Some (String c h, tl)
      | None => if Ascii.eqb c "/"%char then Some (EmptyString, t) else None
      end
  end.

(** [os.path.basename(p)] (posixpath): what follows the last slash. *)
Definition basename (p : string) : string :=
  match rsplit_slash p with
  | Some (_, tl) => tl
  | None => p
  end.

(** Is the string made of slashes only? *)
Fixpoint all_slashes (s : string) : bool :=
  match s with
  | EmptyString => true
  | String c t => Ascii.eqb c "/"%char && all_slashes t
  end.

(** [head.rstrip("/")] *)
Definition rstrip_slash (s : string) : string :=
  rev_string ((fix go (r : string) : string :=
                 match r with
                 | String c t => if Ascii.eqb c "/"%char then go t else r
                 | EmptyString => EmptyString
                 end) (rev_string s)).

(** [os.path.dirname(p)] (posixpath): the part up to and with the last
    slash, its trailing slashes stripped unless it is slashes only. *)
Definition dirname (p : string) : string :=
  match rsplit_slash p with
  | Some (h, _) =>
      let head := h +:+ "/" in
      if all_slashes head then head else rstrip_slash head
  | None => EmptyString
  end.

End PyStr.

(* ===================================================================== *)
(** ** Exceptions, state and the monad of the stateful code *)
(* ===================================================================== *)

(** The exceptions the sources raise or let through. *)
Inductive exn : Type :=
| ValueError (msg : string)
| PyException (msg : string)          (* [raise Exception(...)] *)
| FileNotFoundError (path : string)   (* [os.makedirs("")] *)
| KeyError (key : string)
| TypeError (msg : string)
| TransferError (msg : string)        (* raised by [future.result()] *)
| ClientError (msg : string).         (* raised by an SDK or API call *)

Inductive result (A : Type) : Type :=
| Ok (a : A)
| Raise (e : exn).
Arguments Ok {A} a.
Arguments Raise {A} e.

(** One transfer handed to the transfer manager. *)
Inductive transfer : Type :=
| Upload (fileobj key : string)
| Download (key fileobj : string).

(** A [TransferFuture]: the transfer it stands for and what [result()]
    will raise, if anything. *)
Record future : Type := mkFuture {
  fut_transfer : transfer;
  fut_error : option exn
}.

(** Python values that reach the statistics request. *)
Inductive pyval : Type :=
| PNone
| PBool (b : bool)
| PInt (n : Z)
| PFloat (x : spec_float)
| PStr (s : string)
| PList (l : list pyval)
| PDict (d : list (string * pyval)).

(** The calls that transfer or mutate, in the order they are made. *)
Inductive event : Type :=
| EvSubmit (t : transfer)                      (* TransferManager.upload / download *)
| EvResult (t : transfer)                      (* future.result() *)
| EvCopyObject (from_key to_bucket to_key : string)
| EvDeleteObject (key : string)
| EvMakedirs (path : string)
| EvWrite (path : string)                      (* open(path, "w") ... write *)
| EvRemove (path : string)                     (* os.remove *)
| EvPost (url : string) (json : gmap string pyval)
| EvGet (url : string)
| EvDownloadFcs (exp_id fcs_id : string).

Record State : Type := mkState {
  objects : list string;        (* keys of the bucket, in listing order *)
  files : list string;          (* paths of the local files *)
  future_queue : list future;   (* S3FilesLoader.__future_queue *)
  trace : list event
}.

Definition M (A : Type) : Type := State -> result A * State.

Definition ret {A} (a : A) : M A := fun st => (Ok a, st).
Definition raise {A} (e : exn) : M A := fun st => (Raise e, st).
Definition bind {A B} (m : M A) (k : A -> M B) : M B :=
  fun st => match m st with
            | (Ok a, st') => k a st'
            | (Raise e, st') => (Raise e, st')
            end.

Notation "x <- m ;; k" := (bind m (fun x => k))
  (at level 100, m at next level, right associativity).
Notation "m ;; k" := (bind m (fun _ => k))
  (at level 100, right associativity).

(** [for x in l: body x] *)
Fixpoint for_each {A} (l : list A) (body : A -> M unit) : M unit :=
  match l with
  | [] => ret tt
  | x :: l' => body x ;; for_each l' body
  end.

Definition log (e : event) : M unit :=
  fun st => (Ok tt, mkState (objects st) (files st) (future_queue st) ((trace st ++ [e])%list)).

Definition set_objects (o : list string) (st : State) : State :=
  mkState o (files st) (future_queue st) (trace st).
Definition set_files (f : list string) (st : State) : State :=
  mkState (objects st) f (future_queue st) (trace st).
Definition set_queue (q : list future) (st : State) : State :=
  mkState (objects st) (files st) q (trace st).

(** Add a name to a listing unless it is there. *)
Definition put (k : string) (l : list string) : list string :=
  if decide (k ∈ l) then l else (l ++ [k])%list.

(** Take a name out of a listing. *)
Definition del (k : string) (l : list string) : list string :=
  filter (fun x => x ≠ k) l.

(* ===================================================================== *)
(** ** [pathlib]: [(Path(path) / f_name).as_posix()] *)
(* ===================================================================== *)
Module PyPath.

(** [s.split("/")] *)
Fixpoint split_slash (s : string) : list string :=
  match s with
  | EmptyString => [EmptyString]
  | String c t =>
      if Ascii.eqb c "/"%char then EmptyString :: split_slash t
      else match split_slash t with
           | h :: r => String c h :: r
           | [] => [String c EmptyString]
           end
  end.

(** The components a pure POSIX path keeps: not the empty ones, not ["."]. *)
Definition parts (s : string) : list string :=
  filter (fun x => x ≠ EmptyString ∧ x ≠ ".") (split_slash s).

(** The root of a POSIX path: exactly two leading slashes are kept, any
    other number of them is one slash. *)
Definition root (s : string) : string :=
  if String.prefix "///" s then "/"
  else if String.prefix "//" s then "//"
  else if String.prefix "/" s then "/"
  else "".

(** [(Path(path) / f_name).as_posix()] for a relative [f_name], as
    [os.walk] yields them. *)
Definition join_posix (path f_name : string) : string :=
  match root path, (parts path ++ parts f_name)%list with
  | EmptyString, [] => "."
  | r, ps => r +:+ String.concat "/" ps
  end.

End PyPath.

(* ===================================================================== *)
(** ** The local file system, as far as the sources touch it *)
(* ===================================================================== *)
Module Os.

(** [os.makedirs(path, exist_ok=True)]: the empty path is refused. *)
Definition makedirs (path : string) : M unit :=
  match path with
  | EmptyString => raise (FileNotFoundError path)
  | _ => log (EvMakedirs path)
  end.

(** [with open(path, mode) as f: f.write(...)]; the directory is taken to
    be there. *)
Definition write_file (path : string) : M unit :=
  log (EvWrite path) ;;
  fun st => (Ok tt, set_files (put path (files st)) st).

(** [os.remove(path)]: a missing file is an error. *)
Definition remove (path : string) : M unit :=
  fun st =>
    if decide (path ∈ files st)
    then (log (EvRemove path) ;;
          fun st' => (Ok tt, set_files (del path (files st')) st')) st
    else (Raise (FileNotFoundError path), st).

End Os.

(* ===================================================================== *)
(** ** [src/s3.py]: class [S3FilesLoader] *)
(* ===================================================================== *)
Module S3.

(** The fields of a gateway that the methods read.  The SDK objects are
    held by what they answer: the transfer manager by the exception a
    transfer ends in (if any), the client by the response of
    [copy_object] (an exception or the HTTP status code) and by the
    exception [delete_object] ends in (if any). *)
Record S3FilesLoader : Type := mkLoader {
  bucket_name : string;
  dry_run : bool;
  s3_transfer_manager : transfer -> option exn;
  s3_client_copy_object : string -> string -> string -> result Z;
  s3_client_delete_object : string -> option exn
}.

Definition is_not_dry_run (self : S3FilesLoader) : bool := negb (dry_run self).

(** [self.s3_transfer_manager.upload(...)] / [.download(...)]: the transfer
    is handed over and its future comes back. *)
Definition submit (self : S3FilesLoader) (t : transfer) : M future :=
  log (EvSubmit t) ;;
  ret (mkFuture t (s3_transfer_manager self t)).

(** What a transfer that succeeded leaves behind; it is there at the
    latest when [result()] returns, which is where the effect is placed. *)
Definition transfer_done (t : transfer) : M unit :=
  fun st =>
    match t with
    | Upload _ key => (Ok tt, set_objects (put key (objects st)) st)
    | Download _ fileobj => (Ok tt, set_files (put fileobj (files st)) st)
    end.

(** [future.result()]: block until the transfer is over; raise what it
    failed with. *)
Definition future_result (fut : future) : M unit :=
  log (EvResult (fut_transfer fut)) ;;
  match fut_error fut with
  | Some e => raise e
  | None => transfer_done (fut_transfer fut)
  end.

(** [self.__future_queue.append(fut)] *)
Definition queue_append (fut : future) : M unit :=
  fun st => (Ok tt, set_queue ((future_queue st ++ [fut])%list) st).

(** The loop of [result_all_futures], on the queue read from its end:
    [pending] is the reversed queue, its head the next future
    [self.__future_queue.pop()] takes out. *)
Fixpoint result_loop (n_futures : nat) (pending : list future) : M nat :=
  match pending with
  | [] => ret n_futures                           (* len(queue) > 0 fails *)
  | fut :: pending' =>
      (fun st => (Ok tt, set_queue (rev pending') st)) ;;   (* queue.pop() *)
      future_result fut ;;
      result_loop (S n_futures) pending'
  end.

Definition result_all_futures : M nat :=
  fun st => result_loop 0 (rev (future_queue st)) st.

Definition upload_file (self : S3FilesLoader) (from_filename to_f_key : string)
  : M unit :=
  if is_not_dry_run self then
    fut <- submit self (Upload from_filename to_f_key) ;;
    future_result fut
  else ret tt.

Definition add_to_upload_future (self : S3FilesLoader)
    (from_filename to_f_key : string) : M unit :=
  if is_not_dry_run self then
    fut <- submit self (Upload from_filename to_f_key) ;;
    queue_append fut
  else ret tt.

(** [walk] is what [os.walk(from_dir)] yields: per directory its path and
    the names of its files. *)
Definition upload_dir (self : S3FilesLoader)
    (walk : list (string * list string)) (from_dir to_dir_key : string)
  : M unit :=
  for_each walk (fun '(path, files) =>
    for_each files (fun f_name =>
      let loca_path := PyPath.join_posix path f_name in
      let relative_loca_path := PyStr.removeprefix from_dir loca_path in
      let to_f_key := to_dir_key +:+ relative_loca_path in
      add_to_upload_future self loca_path to_f_key)) ;;
  _ <- result_all_futures ;;
  ret tt.

(** [to_filename] is taken to be a file name (the [str] case). *)
Definition download_file (self : S3FilesLoader) (from_f_key to_filename : string)
  : M unit :=
  fut <- submit self (Download from_f_key to_filename) ;;
  future_result fut.

Definition add_to_download_future (self : S3FilesLoader)
    (from_f_key to_filename : string) : M unit :=
  fut <- submit self (Download from_f_key to_filename) ;;
  queue_append fut.

(** [list(self.bucket.objects.filter(Prefix=prefix))]: the keys. *)
Definition bucket_filter (prefix : string) : M (list string) :=
  fun st => (Ok (List.filter (PyStr.startswith prefix) (objects st)), st).

Definition download_dir (self : S3FilesLoader) (from_dir_key : string)
    (to_dir : option string) : M unit :=
  let to_dir := match to_dir with
                | None => PyStr.basename from_dir_key
                | Some d => d
                end in
  objs <- bucket_filter from_dir_key ;;
  for_each objs (fun key =>
    let to_filename := PyStr.replace from_dir_key to_dir key in
    Os.makedirs (PyStr.dirname to_filename) ;;
    add_to_download_future self key to_filename) ;;
  _ <- result_all_futures ;;
  ret tt.

(** [if not to_bucket: to_bucket = self.bucket_name] *)
Definition bucket_or_own (self : S3FilesLoader) (to_bucket : option string)
  : string :=
  match to_bucket with
  | None | Some EmptyString => bucket_name self
  | Some b => b
  end.

(** [self.s3_client.copy_object(...)]: the call, and the new object when it
    answers 200 into this bucket. *)
Definition copy_object (self : S3FilesLoader) (to_bucket from_f_key to_f_key : string)
  : M Z :=
  log (EvCopyObject from_f_key to_bucket to_f_key) ;;
  match s3_client_copy_object self from_f_key to_bucket to_f_key with
  | Raise e => raise e
  | Ok status =>
      (fun st =>
         if (status =? 200) && String.eqb to_bucket (bucket_name self)
         then (Ok status, set_objects (put to_f_key (objects st)) st)
         else (Ok status, st))
  end.

(** [self.s3_client.delete_object(Bucket=self.bucket_name, Key=key)] *)
Definition delete_object (self : S3FilesLoader) (key : string) : M unit :=
  log (EvDeleteObject key) ;;
  match s3_client_delete_object self key with
  | Some e => raise e
  | None => fun st => (Ok tt, set_objects (del key (objects st)) st)
  end.

Definition move_file (self : S3FilesLoader) (from_f_key to_f_key : string)
    (to_bucket : option string) : M unit :=
  let to_bucket := bucket_or_own self to_bucket in
  let original_path := bucket_name self +:+ "/" +:+ from_f_key in
  let destination_path := to_bucket +:+ "/" +:+ to_f_key in
  if String.eqb original_path destination_path then ret tt
  else if is_not_dry_run self then
    status <- copy_object self to_bucket from_f_key to_f_key ;;
    if status =? 200 then delete_object self from_f_key
    else raise (PyException "Unable to move file")
  else ret tt.

Definition copy_file (self : S3FilesLoader) (from_f_key to_f_key : string)
    (to_bucket : option string) : M unit :=
  let to_bucket := bucket_or_own self to_bucket in
  if is_not_dry_run self then
    _ <- copy_object self to_bucket from_f_key to_f_key ;;
    ret tt
  else ret tt.

Definition copy_dir (self : S3FilesLoader) (from_dir_key to_dir_key : string)
    (to_bucket : option string) : M unit :=
  let to_bucket := bucket_or_own self to_bucket in
  objs <- bucket_filter from_dir_key ;;
  for_each objs (fun key =>
    let new_key := PyStr.replace_first from_dir_key to_dir_key key in
    copy_file self key new_key (Some to_bucket)).

(** The default of [max_obj_count] in [move_dir]. *)
Definition move_dir_max_obj_count : Z := 100.

(** [max_obj_count] is [None] when the caller leaves it out. *)
Definition move_dir (self : S3FilesLoader) (from_dir_key to_dir_key : string)
    (to_bucket : option string) (max_obj_count : option Z) : M unit :=
  let max_obj_count := default move_dir_max_obj_count max_obj_count in
  let to_bucket := bucket_or_own self to_bucket in
  objs <- bucket_filter from_dir_key ;;
  let num_objs := Z.of_nat (length objs) in
  if max_obj_count <? num_objs then
    raise (PyException "num_objs > max_obj_count. Too much objects to move.")
  else
    for_each objs (fun key =>
      let new_key := PyStr.replace_first from_dir_key to_dir_key key in
      move_file self key new_key (Some to_bucket)).

Definition delete_file (self : S3FilesLoader) (f_key : string) : M unit :=
  if is_not_dry_run self then delete_object self f_key else ret tt.

(** The default of [max_obj_count] in [delete_dir]. *)
Definition delete_dir_max_obj_count : Z := 30.

Definition delete_dir (self : S3FilesLoader) (dir_key : string)
    (max_obj_count : option Z) : M unit :=
  let max_obj_count := default delete_dir_max_obj_count max_obj_count in
  if String.eqb dir_key "/" then
    raise (PyException "Deleting by root key='/' is prohibited.")
  else
    objs <- bucket_filter dir_key ;;
    let num_objs := Z.of_nat (length objs) in
    if max_obj_count <? num_objs then
      raise (PyException "num_objs > max_obj_count. Too much objects to delete.")
    else
      for_each objs (fun key => delete_file self key).

(** [self.s3_client.list_objects_v2(Bucket, Prefix, MaxKeys)["Contents"]]:
    absent when nothing matches. *)
Definition list_objects_v2 (prefix : string) (max_keys : nat)
  : M (option (list string)) :=
  fun st =>
    match List.filter (PyStr.startswith prefix) (objects st) with
    | [] => (Ok None, st)
    | l => (Ok (Some (firstn max_keys l)), st)
    end.

Definition check_exists (f_key : string) : M bool :=
  contents <- list_objects_v2 f_key 1 ;;
  ret (match contents with None => false | Some _ => true end).

End S3.

(* ===================================================================== *)
(** ** [src/client_ext.py]: [get_statistics] *)
(* ===================================================================== *)
Module ClientExt.

(** [cellengine.APIClient], held by what the remote API answers. *)
Record APIClient : Type := mkClient {
  base_url : string;
  client_post : string -> gmap string pyval -> result string;
  client_get : string -> result string;
  client_download_fcs_file : string -> string -> result string
}.

(** The library calls of the decoding step: [json.loads], [bytes.decode]
    and [pandas.DataFrame.from_dict]. *)
Record Decoders : Type := mkDecoders {
  json_loads : string -> result pyval;
  bytes_decode : string -> result string;
  frame_from_dict : pyval -> result pyval
}.

(** [cellengine.UNCOMPENSATED] *)
Definition UNCOMPENSATED : pyval := PInt 0.

(** The keyword arguments of [get_statistics]. *)
Record StatsArgs : Type := mkStatsArgs {
  statistics : pyval;
  channels : pyval;
  q : pyval;
  annotations : pyval;
  compensation_id : pyval;
  fcs_file_ids : pyval;
  format : string;
  layout : pyval;
  percent_of : pyval;
  population_ids : pyval;
  other_params : gmap string pyval
}.

(** The arguments when only [statistics] and [channels] are passed. *)
Definition default_args (statistics channels : pyval) : StatsArgs :=
  {| statistics := statistics; channels := channels; q := PNone;
     annotations := PBool false; compensation_id := UNCOMPENSATED;
     fcs_file_ids := PNone; format := "json"; layout := PNone;
     percent_of := PStr "PARENT"; population_ids := PNone;
     other_params := ∅ |}.

(** What [get_statistics] returns: [Dict], [str] or [DataFrame]. *)
Inductive stats_value : Type :=
| StatsJson (v : pyval)
| StatsText (s : string)
| StatsFrame (v : pyval).

(** ["quantile" == v]: a string equals a string of the same characters
    and nothing else. *)
Definition str_eq (s : string) (v : pyval) : bool :=
  match v with
  | PStr t => String.eqb s t
  | _ => false
  end.

(** [isinstance(v, float)] *)
Definition isinstance_float (v : pyval) : bool :=
  match v with
  | PFloat _ => true
  | _ => false
  end.

(** [v is None] *)
Definition is_none (v : pyval) : bool :=
  match v with
  | PNone => true
  | _ => false
  end.

(** The condition of the [raise] at the head of [get_statistics]. *)
Definition quantile_without_q (a : StatsArgs) : bool :=
  str_eq "quantile" (statistics a) && negb (isinstance_float (q a)).

(** The dict literal [params]. *)
Definition computed_params (a : StatsArgs) : gmap string pyval :=
  list_to_map
    [ ("statistics", statistics a);
      ("q", q a);
      ("channels", channels a);
      ("annotations", annotations a);
      ("compensationId", compensation_id a);
      ("fcsFileIds", fcs_file_ids a);
      ("format", PStr (if String.eqb (format a) "pandas" then "json" else format a));
      ("layout", layout a);
      ("percentOf", percent_of a);
      ("populationIds", population_ids a) ].

(** [params.update(other_params)] *)
Definition merged_params (a : StatsArgs) : gmap string pyval :=
  other_params a ∪ computed_params a.

(** [{key: val for key, val in params.items() if val is not None}] *)
Definition req_params (a : StatsArgs) : gmap string pyval :=
  filter (fun kv => is_none kv.2 = false) (merged_params a).

Definition bulkstatistics_url (client : APIClient) (experiment_id : string)
  : string :=
  base_url client +:+ "/api/v1/experiments/" +:+ experiment_id +:+ "/bulkstatistics".

(** An answer of the outside world, as a step of the monad. *)
Definition lift {A} (r : result A) : M A :=
  match r with
  | Ok a => ret a
  | Raise e => raise e
  end.

(** [client._post(url, json=..., raw=True)] *)
Definition _post (client : APIClient) (url : string) (json : gmap string pyval)
  : M string :=
  log (EvPost url json) ;;
  lift (client_post client url json).

(** [client._get(url=..., raw=True)] *)
Definition _get (client : APIClient) (url : string) : M string :=
  log (EvGet url) ;;
  lift (client_get client url).

(** [client.download_fcs_file(exp_id, fcs_id)] *)
Definition download_fcs_file (client : APIClient) (exp_id fcs_id : string)
  : M string :=
  log (EvDownloadFcs exp_id fcs_id) ;;
  lift (client_download_fcs_file client exp_id fcs_id).

Definition get_statistics (lib : Decoders) (client : APIClient)
    (experiment_id : string) (a : StatsArgs) : M stats_value :=
  if quantile_without_q a then
    raise (ValueError "'q' must be a number for 'quantile' statistic.")
  else
    raw_stats <- _post client (bulkstatistics_url client experiment_id) (req_params a) ;;
    let format := PyStr.lower (format a) in
    if String.eqb format "json" then
      v <- lift (json_loads lib raw_stats) ;;
      ret (StatsJson v)
    else if PyStr.contains "sv" format then
      match bytes_decode lib raw_stats with
      | Ok s => ret (StatsText s)
      | Raise _ => raise (ValueError "Invalid output format")
      end
    else if String.eqb format "pandas" then
      match json_loads lib raw_stats with
      | Ok v =>
          match frame_from_dict lib v with
          | Ok df => ret (StatsFrame df)
          | Raise _ => raise (ValueError "Invalid data format for pandas")
          end
      | Raise _ => raise (ValueError "Invalid data format for pandas")
      end
    else raise (ValueError "Invalid data format selected.").

End ClientExt.

(* ===================================================================== *)
(** ** Python objects as [main.py] reads the decoded statistics *)
(* ===================================================================== *)
Module PyObj.

(** A [dict] under construction: its items in insertion order.  A
    [PDict] holds each key once. *)
Definition pydict : Type := list (pyval * pyval).

(** [d.get(key)] on the items of a [PDict]. *)
Fixpoint dict_get (key : string) (d : list (string * pyval)) : option pyval :=
  match d with
  | [] => None
  | (k, v) :: d' => if String.eqb key k then Some v else dict_get key d'
  end.

(** [v[key]] for a string [key]: only a [dict] can be subscripted by a
    string, and the key has to be there. *)
Definition getitem (v : pyval) (key : string) : result pyval :=
  match v with
  | PDict d =>
      match dict_get key d with
      | Some x => Ok x
      | None => Raise (KeyError key)
      end
  | _ => Raise (TypeError "not subscriptable by a string")
  end.

(** [for x in v]: the elements of a list, the keys of a dict, the
    characters of a string; nothing else can be iterated. *)
Definition iterate (v : pyval) : result (list pyval) :=
  match v with
  | PList l => Ok l
  | PDict d => Ok (map (fun kv => PStr (fst kv)) d)
  | PStr s => Ok (map (fun c => PStr (String c EmptyString)) (list_ascii_of_string s))
  | _ => Raise (TypeError "object is not iterable")
  end.

(** Is [k] the string key [key]?  A string equals no key of another type. *)
Definition is_key (key : string) (k : pyval) : bool :=
  match k with
  | PStr s => String.eqb key s
  | _ => false
  end.

(** [d.get(key)] for a string [key]. *)
Fixpoint row_get (key : string) (d : pydict) : option pyval :=
  match d with
  | [] => None
  | (k, v) :: d' => if is_key key k then Some v else row_get key d'
  end.

(** [d[key] = v] for a string [key]: in place when the key is there, at
    the end otherwise. *)
Fixpoint row_set (key : string) (v : pyval) (d : pydict) : pydict :=
  match d with
  | [] => [(PStr key, v)]
  | (k, x) :: d' =>
      if is_key key k then (k, v) :: d' else (k, x) :: row_set key v d'
  end.

(** [d.update(other)]: the items of a [dict] are set one by one; what
    [update] does with an argument that is not a [dict] is [runtime]'s. *)
Definition update (runtime : pydict -> pyval -> result pydict)
    (d : pydict) (other : pyval) : result pydict :=
  match other with
  | PDict items => Ok (fold_left (fun acc kv => row_set (fst kv) (snd kv) acc) items d)
  | _ => runtime d other
  end.

End PyObj.

(* ===================================================================== *)
(** ** [src/main.py]: the export orchestrator *)
(* ===================================================================== *)
Module Main.
Import ClientExt.

Record FcsFile : Type := mkFcsFile {
  fcs_id : string;
  fcs_name : string
}.

Record Population : Type := mkPopulation {
  pop_id : string
}.

Record Experiment : Type := mkExperiment {
  exp_id : string;
  exp_name : string;
  exp_fcs_files : list FcsFile;
  exp_populations : list Population
}.

Section Orchestrator.

(** The module-level [client] and the SDK objects behind the module-level
    [s3_files_loader]. *)
Variable client : APIClient.
Variable lib : Decoders.
Variable transfer_manager : transfer -> option exn.
Variable sdk_copy_object : string -> string -> string -> result Z.
Variable sdk_delete_object : string -> option exn.

Definition s3_files_loader : S3.S3FilesLoader :=
  S3.mkLoader "rnd-immune-profiling" false
    transfer_manager sdk_copy_object sdk_delete_object.

Definition _check_s3_exists (f_path : string) : M bool :=
  S3.check_exists ("CellEngine/" +:+ f_path).

(** [remove_local] is [false] when the caller leaves it out. *)
Definition _upload_to_s3 (f_path : option string) (remove_local : bool) : M unit :=
  match f_path with
  | None => ret tt
  | Some f_path =>
      S3.upload_file s3_files_loader f_path ("CellEngine/" +:+ f_path) ;;
      if remove_local then Os.remove f_path else ret tt
  end.

Definition fcs_file_path (exp_root : string) (fcs_file : FcsFile) : string :=
  exp_root +:+ "/" +:+ fcs_name fcs_file.

Definition _download_file (exp : Experiment) (exp_root : string)
    (fcs_file : FcsFile) : M (option string) :=
  let fcs_file_path := fcs_file_path exp_root fcs_file in
  found <- _check_s3_exists fcs_file_path ;;
  if found then ret None
  else
    _ <- download_fcs_file client (exp_id exp) (fcs_id fcs_file) ;;
    Os.write_file fcs_file_path ;;
    ret (Some fcs_file_path).

Definition global_gatingml_url (exp : Experiment) : string :=
  base_url client +:+ "/api/v1/experiments/" +:+ exp_id exp +:+ ".gatingml".

Definition global_gatingml_path (exp : Experiment) (exp_root : string) : string :=
  exp_root +:+ "/" +:+ exp_name exp +:+ "_global.gatingml".

Definition _download_global_gating_ml (exp : Experiment) (exp_root : string)
  : M string :=
  _ <- _get client (global_gatingml_url exp) ;;
  let gatingml_file_path := global_gatingml_path exp exp_root in
  Os.write_file gatingml_file_path ;;
  ret gatingml_file_path.

Definition fcs_gatingml_url (exp : Experiment) (fcs_file : FcsFile) : string :=
  base_url client +:+ "/api/v1/experiments/" +:+ exp_id exp
    +:+ ".gatingml?fcsFileId=" +:+ fcs_id fcs_file.

Definition fcs_gatingml_path (exp_root : string) (fcs_file : FcsFile) : string :=
  let fcs_name := PyStr.removesuffix ".fcs" (fcs_name fcs_file) in
  exp_root +:+ "/" +:+ fcs_name +:+ ".gatingml".

Definition _download_fcs_gating_ml (exp : Experiment) (exp_root : string)
    (fcs_file : FcsFile) : M (option string) :=
  let gatingml_file_path := fcs_gatingml_path exp_root fcs_file in
  found <- _check_s3_exists gatingml_file_path ;;
  if found then ret None
  else
    _ <- _get client (fcs_gatingml_url exp fcs_file) ;;
    Os.write_file gatingml_file_path ;;
    ret (Some gatingml_file_path).

Definition statistics_path (exp_root : string) (fcs_file : FcsFile) : string :=
  let fcs_name := PyStr.removesuffix ".fcs" (fcs_name fcs_file) in
  exp_root +:+ "/" +:+ fcs_name +:+ "_statistics.tsv".

(** The keyword arguments of the call in [_download_statistics]. *)
Definition statistics_args (exp : Experiment) (fcs_file : FcsFile) : StatsArgs :=
  let all_populations :=
    (PStr "" :: map (fun pop => PStr (pop_id pop)) (exp_populations exp))%list in
  {| statistics := PList [PStr "eventcount"];
     channels := PList [];
     q := PNone;
     annotations := PBool false;
     compensation_id := UNCOMPENSATED;
     fcs_file_ids := PList [PStr (fcs_id fcs_file)];
     format := "TSV (with header)";
     layout := PStr "medium";
     percent_of := PStr "PARENT";
     population_ids := PList all_populations;
     other_params :=
       list_to_map [ ("ids", PBool true);
                     ("uniqueNames", PBool true);
                     ("fullPaths", PBool true) ] |}.

Definition _download_statistics (exp : Experiment) (exp_root : string)
    (fcs_file : FcsFile) : M (option string) :=
  let statistics_file_path := statistics_path exp_root fcs_file in
  found <- _check_s3_exists statistics_file_path ;;
  if found then ret None
  else
    statistics_tsv <- get_statistics lib client (exp_id exp) (statistics_args exp fcs_file) ;;
    match statistics_tsv with
    | StatsText _ =>
        Os.write_file statistics_file_path ;;
        ret (Some statistics_file_path)
    | _ => raise (TypeError "write() argument must be str")
    end.

(** The three steps of the loop body of [_download_experiment_files], each
    a download followed by its upload. *)
Definition raw_file_step (exp : Experiment) (exp_root : string)
    (fcs_file : FcsFile) : M unit :=
  fcs_f_path <- _download_file exp exp_root fcs_file ;;
  _upload_to_s3 fcs_f_path true.

Definition fcs_gating_step (exp : Experiment) (exp_root : string)
    (fcs_file : FcsFile) : M unit :=
  fcs_gating_ml_f_path <- _download_fcs_gating_ml exp exp_root fcs_file ;;
  _upload_to_s3 fcs_gating_ml_f_path true.

Definition statistics_step (exp : Experiment) (exp_root : string)
    (fcs_file : FcsFile) : M unit :=
  statistics_f_path <- _download_statistics exp exp_root fcs_file ;;
  _upload_to_s3 statistics_f_path true.

(** The head of [_download_experiment_files]: the global gating
    definition, uploaded with [remove_local] left out. *)
Definition global_gating_step (exp : Experiment) (exp_root : string) : M unit :=
  global_gating_ml_f_path <- _download_global_gating_ml exp exp_root ;;
  _upload_to_s3 (Some global_gating_ml_f_path) false.

Definition _download_experiment_files (exp : Experiment) : M unit :=
  let exp_root := "data/" +:+ exp_name exp in
  Os.makedirs exp_root ;;
  global_gating_step exp exp_root ;;
  for_each (exp_fcs_files exp) (fun fcs_file =>
    raw_file_step exp exp_root fcs_file ;;
    fcs_gating_step exp exp_root fcs_file ;;
    statistics_step exp exp_root fcs_file).

(** What the Python runtime and pandas do where the sources leave it to
    them: [dict.update] with an argument that is not a [dict], the
    exception [DataFrame.to_excel] ends in (if any), and the answer of
    [client.get_experiment(name=...)]. *)
Variable dict_update_runtime : PyObj.pydict -> pyval -> result PyObj.pydict.
Variable to_excel_error : list PyObj.pydict -> string -> option exn.
Variable get_experiment : string -> result Experiment.

(** The keyword arguments of the call in
    [_extract_experiment_annotations]. *)
Definition annotations_args : StatsArgs :=
  {| statistics := PList [];
     channels := PList [];
     q := PNone;
     annotations := PBool true;
     compensation_id := UNCOMPENSATED;
     fcs_file_ids := PNone;
     format := "json";
     layout := PNone;
     percent_of := PStr "PARENT";
     population_ids := PNone;
     other_params := ∅ |}.

(** The body of the loop of [_extract_experiment_annotations]: the row of
    one statistic. *)
Definition fcs_annotations (exp : Experiment) (statistic : pyval)
  : result PyObj.pydict :=
  match PyObj.getitem statistic "filename" with
  | Raise e => Raise e
  | Ok filename =>
      let fcs_annotations :=
        [ (PStr "experiment", PStr (exp_name exp));
          (PStr "filename", filename) ] in
      match PyObj.getitem statistic "annotations" with
      | Raise e => Raise e
      | Ok annotations =>
          PyObj.update dict_update_runtime fcs_annotations annotations
      end
  end.

(** The loop of [_extract_experiment_annotations] over the statistics. *)
Fixpoint exp_annotations (exp : Experiment) (statistics : list pyval)
  : result (list PyObj.pydict) :=
  match statistics with
  | [] => Ok []
  | statistic :: rest =>
      match fcs_annotations exp statistic with
      | Raise e => Raise e
      | Ok row =>
          match exp_annotations exp rest with
          | Raise e => Raise e
          | Ok rows => Ok (row :: rows)
          end
      end
  end.

(** A data frame is held by its rows.  The statistics come back as the
    decoded JSON, the format being ["json"]; text would be iterated by
    character, and a frame is not reached. *)
Definition _extract_experiment_annotations (exp : Experiment)
  : M (list PyObj.pydict) :=
  statistics_with_annotations <-
    get_statistics lib client (exp_id exp) annotations_args ;;
  let decoded :=
    match statistics_with_annotations with
    | StatsJson v => v
    | StatsText s => PStr s
    | StatsFrame v => v
    end in
  statistics <- lift (PyObj.iterate decoded) ;;
  lift (exp_annotations exp statistics).

(** The loop of [process_experiments]; [annotations_df] is the frame
    collected so far, [pd.concat] puts the new rows behind it. *)
Fixpoint process_loop (experiments : list Experiment)
    (annotations_df : list PyObj.pydict) : M (list PyObj.pydict) :=
  match experiments with
  | [] => ret annotations_df
  | exp :: rest =>
      _download_experiment_files exp ;;
      experiment_annotations_df <- _extract_experiment_annotations exp ;;
      process_loop rest (annotations_df ++ experiment_annotations_df)%list
  end.

(** [annotations_df.to_excel(path, index=False)] *)
Definition to_excel (annotations_df : list PyObj.pydict) (path : string) : M unit :=
  match to_excel_error annotations_df path with
  | Some e => raise e
  | None => Os.write_file path
  end.

Definition process_experiments (experiments : list Experiment) : M unit :=
  annotations_df <- process_loop experiments [] ;;
  let annotations_f_path := "data/Annotations.xlsx" in
  to_excel annotations_df annotations_f_path ;;
  _upload_to_s3 (Some annotations_f_path) true.

(** The loop of [process_experiments_by_names]. *)
Fixpoint get_experiments (experiment_names : list string)
  : result (list Experiment) :=
  match experiment_names with
  | [] => Ok []
  | exp_name :: rest =>
      match get_experiment exp_name with
      | Raise e => Raise e
      | Ok exp =>
          match get_experiments rest with
          | Raise e => Raise e
          | Ok experiments => Ok (exp :: experiments)
          end
      end
  end.

Definition process_experiments_by_names (experiment_names : list string)
  : M unit :=
  experiments <- lift (get_experiments experiment_names) ;;
  process_experiments experiments.

(** The experiment names in [main]. *)
Definition main_experiments : list string :=
  [ "PICI0001-MAHLER";
    "Phase2 data subset of the original 2902 (Phase1) dataset";
    "PICI_0002_5_Penn - PFG";
    "PICI0002-X50-Complete";
    "2902 PICI-0002 Ship_4108 (Spitzer Hierarchy) - pfg";
    "2902 PICI-0002 Ship_6216 (Spitzer Hierarchy) - pfg";
    "2902 PICI-0002 Ship_6410 (finalized Hierarchy) - pfg";
    "2902 PICI-0002 Ship_5687 (Spitzer Hierarchy) - pfg";
    "2902 Clinical Samples-Spitzer-complete (original)";
    "2902 (PICI-0002) Re-run Ship ID 6216  - pfg";
    "PICI_0002_6_Penn - pfg";
    "PICI_0002_Penn - pfg";
    "PICI_0002_2_Penn - pfg";
    "PICI_0002_3_Penn - pfg";
    "PICI_0002_4_Penn - pfg";
    "2902 PICI-0002 Ship_6410 (finalized Hierarchy) - pfg (DIANE COPY)";
    "2902 PICI-0002 Ship_5687 (Spitzer Hierarchy) - Diane copy";
    "2902 PICI-0002 Ship_4108 (Spitzer Hierarchy) - Diane copy";
    "2902 PICI-0002 Ship_6216 (Spitzer Hierarchy) - Diane copy" ].

Definition main : M unit := process_experiments_by_names main_experiments.

End Orchestrator.
End Main.

(* ===================================================================== *)
(** ** Vocabulary of the properties *)
(* ===================================================================== *)

(** The event a future leaves in the trace when it is resolved. *)
Definition resolved (fut : future) : event := EvResult (fut_transfer fut).

(** A future whose transfer succeeds. *)
Definition succeeds (fut : future) : Prop := fut_error fut = None.

(** The events a run [m] adds to the trace of [st]. *)
Definition events_of {A} (m : M A) (st : State) : list event :=
  drop (length (trace st)) (trace (snd (m st))).

(** The drain as the specification words it: a failure is propagated only
    after every queued transfer has been blocked on. *)
Definition blocks_on_all_before_raising (st : State) : Prop :=
  forall e st',
    S3.result_all_futures st = (Raise e, st') ->
    forall fut, fut ∈ future_queue st ->
                resolved fut ∈ events_of S3.result_all_futures st.


(** The keys [bucket.objects.filter(Prefix=prefix)] lists in [st]. *)
Definition listed (prefix : string) (st : State) : list string :=
  List.filter (PyStr.startswith prefix) (objects st).

(** The state after [log e]. *)
Definition logged (e : event) (st : State) : State :=
  mkState (objects st) (files st) (future_queue st) (trace st ++ [e])%list.

(** Does the bucket hold a key that starts with [prefix]?  This is what
    [check_exists] answers. *)
Definition has_key (prefix : string) (objs : list string) : bool :=
  match List.filter (PyStr.startswith prefix) objs with
  | [] => false
  | _ => true
  end.

(** The key an artifact is mirrored to, and its upload. *)
Definition mirror_key (f_path : string) : string := "CellEngine/" +:+ f_path.
Definition mirror_upload (f_path : string) : transfer :=
  Upload f_path (mirror_key f_path).

(** Is the artifact at its mirrored destination, as [_check_s3_exists]
    sees it? *)
Definition on_s3 (f_path : string) (st : State) : bool :=
  has_key (mirror_key f_path) (objects st).

(** The states along a write, an upload and a removal of [f_path]. *)
Definition written (f_path : string) (st : State) : State :=
  mkState (objects st) (put f_path (files st)) (future_queue st)
          (trace st ++ [EvWrite f_path])%list.

Definition upload_failed (f_path : string) (st : State) : State :=
  mkState (objects st) (files st) (future_queue st)
          (trace st ++ [EvSubmit (mirror_upload f_path);
                        EvResult (mirror_upload f_path)])%list.

Definition uploaded (f_path : string) (st : State) : State :=
  mkState (put (mirror_key f_path) (objects st)) (files st) (future_queue st)
          (trace st ++ [EvSubmit (mirror_upload f_path);
                        EvResult (mirror_upload f_path)])%list.

Definition removed (f_path : string) (st : State) : State :=
  mkState (objects st) (del f_path (files st)) (future_queue st)
          (trace st ++ [EvRemove f_path])%list.

(** The three artifacts of a raw-data file. *)
Inductive artifact : Type := RawFile | FcsGating | Statistics.

(** Where the loop body of [_download_experiment_files] puts an artifact. *)
Definition artifact_path (a : artifact) (exp_root : string)
    (fcs_file : Main.FcsFile) : string :=
  match a with
  | RawFile => Main.fcs_file_path exp_root fcs_file
  | FcsGating => Main.fcs_gatingml_path exp_root fcs_file
  | Statistics => Main.statistics_path exp_root fcs_file
  end.

(** The API call that fetches an artifact. *)
Definition artifact_request (client : ClientExt.APIClient) (a : artifact)
    (exp : Main.Experiment) (fcs_file : Main.FcsFile) : event :=
  match a with
  | RawFile => EvDownloadFcs (Main.exp_id exp) (Main.fcs_id fcs_file)
  | FcsGating => EvGet (Main.fcs_gatingml_url client exp fcs_file)
  | Statistics =>
      EvPost (ClientExt.bulkstatistics_url client (Main.exp_id exp))
             (ClientExt.req_params (Main.statistics_args exp fcs_file))
  end.

(** The step of the loop body that handles an artifact. *)
Definition artifact_step (client : ClientExt.APIClient) (lib : ClientExt.Decoders)
    (transfer_manager : transfer -> option exn)
    (sdk_copy_object : string -> string -> string -> result Z)
    (sdk_delete_object : string -> option exn)
    (a : artifact) (exp : Main.Experiment) (exp_root : string)
    (fcs_file : Main.FcsFile) : M unit :=
  match a with
  | RawFile =>
      Main.raw_file_step client transfer_manager sdk_copy_object
        sdk_delete_object exp exp_root fcs_file
  | FcsGating =>
      Main.fcs_gating_step client transfer_manager sdk_copy_object
        sdk_delete_object exp exp_root fcs_file
  | Statistics =>
      Main.statistics_step client lib transfer_manager sdk_copy_object
        sdk_delete_object exp exp_root fcs_file
  end.

(** The state after an artifact was fetched, written, uploaded and its
    local copy removed. *)
Definition mirrored (request : event) (f_path : string) (st : State) : State :=
  removed f_path (uploaded f_path (written f_path (logged request st))).

(** The root directory of an experiment and its global gating definition. *)
Definition exp_root (exp : Main.Experiment) : string :=
  "data/" +:+ Main.exp_name exp.

(** All three artifacts of every raw-data file of [exp] are on the store. *)
Definition all_mirrored (exp : Main.Experiment) (st : State) : Prop :=
  Forall (fun fcs_file =>
            forall a, on_s3 (artifact_path a (exp_root exp) fcs_file) st = true)
         (Main.exp_fcs_files exp).

(** Whatever the existence check finds in [st] it finds in [st']. *)
Definition retains (st st' : State) : Prop :=
  forall prefix, has_key prefix (objects st) = true ->
                 has_key prefix (objects st') = true.

(** The events of the global gating definition of [exp]. *)
Definition global_gating_events (client : ClientExt.APIClient)
    (exp : Main.Experiment) : list event :=
  let f_path := Main.global_gatingml_path exp (exp_root exp) in
  [ EvGet (Main.global_gatingml_url client exp);
    EvWrite f_path;
    EvSubmit (mirror_upload f_path);
    EvResult (mirror_upload f_path) ].


(** The skip as the specification words it: nothing is done for an
    artifact that is at its mirrored destination. *)
Definition skipped_when_mirrored (step : M unit) (f_path : string) (st : State)
  : Prop :=
  on_s3 f_path st = true -> events_of step st = [].

(** The body of the loop of [_download_experiment_files]. *)
Definition loop_body (client : ClientExt.APIClient) (lib : ClientExt.Decoders)
    (transfer_manager : transfer -> option exn)
    (sdk_copy_object : string -> string -> string -> result Z)
    (sdk_delete_object : string -> option exn)
    (exp : Main.Experiment) (root : string) (fcs_file : Main.FcsFile) : M unit :=
  Main.raw_file_step client transfer_manager sdk_copy_object sdk_delete_object
    exp root fcs_file ;;
  Main.fcs_gating_step client transfer_manager sdk_copy_object sdk_delete_object
    exp root fcs_file ;;
  Main.statistics_step client lib transfer_manager sdk_copy_object
    sdk_delete_object exp root fcs_file.

(** A run of [m] from any state ends, however it ends, in a state that [R]
    relates to the start. *)
Definition keeps {A} (R : State -> State -> Prop) (m : M A) : Prop :=
  forall st, R st (snd (m st)).

(** The bucket lost nothing, the queue is as it was, and the trace grew by
    events that satisfy [P]. *)
Definition grows_by (P : event -> Prop) (st st' : State) : Prop :=
  (forall k, k ∈ objects st -> k ∈ objects st') /\
  future_queue st' = future_queue st /\
  exists evs, trace st' = (trace st ++ evs)%list /\ Forall P evs.

(** The event is a server-side copy. *)
Definition is_copy (e : event) : Prop :=
  match e with
  | EvCopyObject _ _ _ => True
  | _ => False
  end.

(** The future the transfer manager of [self] gives for a transfer. *)
Definition queued (self : S3.S3FilesLoader) (t : transfer) : future :=
  mkFuture t (S3.s3_transfer_manager self t).

(** The state after the transfers [ts] were handed over and their futures
    put on the queue. *)
Definition enqueued (self : S3.S3FilesLoader) (ts : list transfer) (st : State)
  : State :=
  mkState (objects st) (files st)
          (future_queue st ++ map (queued self) ts)%list
          (trace st ++ map EvSubmit ts)%list.

(** The uploads [upload_dir] asks for, in the order of the walk. *)
Definition upload_plan (walk : list (string * list string))
    (from_dir to_dir_key : string) : list transfer :=
  flat_map (fun '(path, files) =>
              map (fun f_name =>
                     let loca_path := PyPath.join_posix path f_name in
                     Upload loca_path
                            (to_dir_key +:+ PyStr.removeprefix from_dir loca_path))
                  files)
           walk.

(** Where [download_dir] puts the object [key]. *)
Definition download_target (from_dir_key : string) (to_dir : option string)
    (key : string) : string :=
  PyStr.replace from_dir_key
    (match to_dir with
     | None => PyStr.basename from_dir_key
     | Some d => d
     end) key.

(** What [download_dir] does for the object [key] before the drain. *)
Definition download_request (from_dir_key : string) (to_dir : option string)
    (key : string) : list event :=
  let to_filename := download_target from_dir_key to_dir key in
  [EvMakedirs (PyStr.dirname to_filename); EvSubmit (Download key to_filename)].

(** The event is not a call that removes or copies an object of the
    bucket. *)
Definition leaves_objects (e : event) : Prop :=
  match e with
  | EvDeleteObject _ | EvCopyObject _ _ _ => False
  | _ => True
  end.

(** The request of [_extract_experiment_annotations] for [exp]. *)
Definition annotations_request (client : ClientExt.APIClient)
    (exp : Main.Experiment) : event :=
  EvPost (ClientExt.bulkstatistics_url client (Main.exp_id exp))
         (ClientExt.req_params Main.annotations_args).

(** The rows [_extract_experiment_annotations] gives for [exp], read off
    the answers of the API and of the decoders. *)
Definition annotation_rows (lib : ClientExt.Decoders)
    (client : ClientExt.APIClient)
    (dict_update_runtime : PyObj.pydict -> pyval -> result PyObj.pydict)
    (exp : Main.Experiment) : result (list PyObj.pydict) :=
  match ClientExt.client_post client
          (ClientExt.bulkstatistics_url client (Main.exp_id exp))
          (ClientExt.req_params Main.annotations_args) with
  | Raise e => Raise e
  | Ok raw =>
      match ClientExt.json_loads lib raw with
      | Raise e => Raise e
      | Ok v =>
          match PyObj.iterate v with
          | Raise e => Raise e
          | Ok statistics => Main.exp_annotations dict_update_runtime exp statistics
          end
      end
  end.

(** The path of the consolidated spreadsheet. *)
Definition annotations_xlsx : string := "data/Annotations.xlsx".

(** The future stands for a download. *)
Definition is_download (fut : future) : Prop :=
  match fut_transfer fut with
  | Download _ _ => True
  | Upload _ _ => False
  end.

(** Entered with downloads only on the queue, the run leaves the bucket
    as it was and downloads only on the queue. *)
Definition bucket_untouched (st st' : State) : Prop :=
  Forall is_download (future_queue st) ->
  objects st' = objects st /\ Forall is_download (future_queue st').

(** What a run over a store that holds every per-file artifact does for
    [exp]: its directory, its global gating definition, its annotations. *)
Definition rerun_events (client : ClientExt.APIClient) (exp : Main.Experiment)
  : list event :=
  (EvMakedirs (exp_root exp) :: global_gating_events client exp
   ++ [annotations_request client exp])%list.

(** The last steps of [process_experiments]. *)
Definition spreadsheet_events : list event :=
  [ EvWrite annotations_xlsx;
    EvSubmit (mirror_upload annotations_xlsx);
    EvResult (mirror_upload annotations_xlsx);
    EvRemove annotations_xlsx ].

(** The rows of [exp], none when the extraction fails. *)
Definition rows_or_none (lib : ClientExt.Decoders) (client : ClientExt.APIClient)
    (dict_update_runtime : PyObj.pydict -> pyval -> result PyObj.pydict)
    (exp : Main.Experiment) : list PyObj.pydict :=
  match annotation_rows lib client dict_update_runtime exp with
  | Ok rows => rows
  | Raise _ => []
  end.

(** What a run that got through tells about an experiment it handled: its
    global gating definition can be fetched and uploaded, its annotation
    rows can be read, and in [st] all its per-file artifacts are on the
    store. *)
Definition went_through (client : ClientExt.APIClient) (lib : ClientExt.Decoders)
    (transfer_manager : transfer -> option exn)
    (dict_update_runtime : PyObj.pydict -> pyval -> result PyObj.pydict)
    (st : State) (exp : Main.Experiment) : Prop :=
  (exists raw, ClientExt.client_get client (Main.global_gatingml_url client exp)
               = Ok raw) /\
  transfer_manager (mirror_upload (Main.global_gatingml_path exp (exp_root exp)))
    = None /\
  (exists rows, annotation_rows lib client dict_update_runtime exp = Ok rows) /\
  all_mirrored exp st.

(** Concrete gateways, queues and buckets. *)
Module Scenario.

Definition boom : exn := TransferError "connection reset".

Definition pending (name : string) (err : option exn) : future :=
  mkFuture (Upload ("data/" +:+ name) ("K/" +:+ name)) err.

(** Three queued uploads, the second of which fails. *)
Definition three_pending : State :=
  mkState [] [] [pending "1" None; pending "2" (Some boom); pending "3" None] [].

(** Three queued uploads that all succeed. *)
Definition three_good : list future :=
  [pending "1" None; pending "2" None; pending "3" None].

(** A gateway whose download of ["a/x"] fails and whose other calls
    succeed. *)
Definition flaky : S3.S3FilesLoader :=
  S3.mkLoader "bucket" false
    (fun t => match t with
              | Download "a/x" _ => Some boom
              | _ => None
              end)
    (fun _ _ _ => Ok 200)
    (fun _ => None).

(** SDK objects all of whose calls succeed, and a gateway over them. *)
Definition transfers_ok : transfer -> option exn := fun _ => None.
Definition copies_ok : string -> string -> string -> result Z := fun _ _ _ => Ok 200.
Definition deletes_ok : string -> option exn := fun _ => None.

Definition sound : S3.S3FilesLoader :=
  S3.mkLoader "bucket" false transfers_ok copies_ok deletes_ok.

Definition bucket_a : State := mkState ["a/w"; "a/x"; "a/y"; "c"] [] [] [].

(** An API and decoders that always answer. *)
Definition api : ClientExt.APIClient :=
  ClientExt.mkClient "https://ce"
    (fun _ _ => Ok "tsv") (fun _ => Ok "xml") (fun _ _ => Ok "fcs").

Definition decoders : ClientExt.Decoders :=
  ClientExt.mkDecoders (fun s => Ok (PStr s)) (fun s => Ok s) (fun v => Ok v).

(** Experiment ["E1"] with one raw file ["A.fcs"] and one population. *)
Definition A_fcs : Main.FcsFile := Main.mkFcsFile "f1" "A.fcs".

Definition E1 : Main.Experiment :=
  Main.mkExperiment "e1" "E1" [A_fcs] [Main.mkPopulation "p1"].

Definition export_E1 : M unit :=
  Main._download_experiment_files api decoders
    transfers_ok copies_ok deletes_ok E1.

Definition empty_store : State := mkState [] [] [] [].

(** The state a first export of ["E1"] leaves. *)
Definition after_first_run : State := snd (export_E1 empty_store).

(** The same store on a fresh machine: no local files, an empty trace. *)
Definition retained_store : State := mkState (objects after_first_run) [] [] [].

(** A statistics call whose [other_params] overrides the computed
    [layout] and blanks the computed [percentOf]. *)
Definition overriding_args : ClientExt.StatsArgs :=
  {| ClientExt.statistics := PList [PStr "mean"];
     ClientExt.channels := PList [PStr "FSC-A"];
     ClientExt.q := PNone;
     ClientExt.annotations := PBool false;
     ClientExt.compensation_id := ClientExt.UNCOMPENSATED;
     ClientExt.fcs_file_ids := PNone;
     ClientExt.format := "pandas";
     ClientExt.layout := PStr "medium";
     ClientExt.percent_of := PStr "PARENT";
     ClientExt.population_ids := PNone;
     ClientExt.other_params :=
       list_to_map [("layout", PStr "tall-skinny"); ("percentOf", PNone);
                    ("ids", PBool true)] |}.

(** A gateway in dry-run mode. *)
Definition rehearsal : S3.S3FilesLoader :=
  S3.mkLoader "bucket" true transfers_ok copies_ok deletes_ok.

(** A gateway whose [copy_object] answers 500. *)
Definition copy_refused : S3.S3FilesLoader :=
  S3.mkLoader "bucket" false transfers_ok (fun _ _ _ => Ok 500) deletes_ok.

(** A bucket with an object right under the prefix ["a"], no slash
    after it. *)
Definition bucket_flat : State := mkState ["a/w"; "ab"] [] [] [].

(** Two raw files named ["A.fcs"] and ["A"], and the state after the
    gating step of the first on an empty store. *)
Definition twin_with_suffix : Main.FcsFile := Main.mkFcsFile "f1" ("A" +:+ ".fcs").
Definition twin_without : Main.FcsFile := Main.mkFcsFile "f2" "A".

Definition after_twin_gating : State :=
  snd (artifact_step api decoders transfers_ok copies_ok deletes_ok
         FcsGating E1 "data/E1" twin_with_suffix empty_store).

(** The runtime, pandas and the experiment lookup, all answering; the
    lookup knows ["E1"] only. *)
Definition update_ok : PyObj.pydict -> pyval -> result PyObj.pydict :=
  fun d _ => Ok d.
Definition excel_ok : list PyObj.pydict -> string -> option exn :=
  fun _ _ => None.
Definition lookup : string -> result Main.Experiment :=
  fun name => if String.eqb name "E1" then Ok E1
              else Raise (ClientError "no such experiment").

(** An API that answers the statistics request with one record. *)
Definition api_json : ClientExt.APIClient :=
  ClientExt.mkClient "https://ce"
    (fun _ _ => Ok "json") (fun _ => Ok "xml") (fun _ _ => Ok "fcs").

Definition decoders_json : ClientExt.Decoders :=
  ClientExt.mkDecoders
    (fun _ => Ok (PList [PDict [ ("filename", PStr "A.fcs");
                                 ("annotations", PDict [("dose", PInt 5)]) ]]))
    (fun s => Ok s) (fun v => Ok v).

(** A whole run over ["E1"] from an empty store, and the state it leaves. *)
Definition whole_run : M unit :=
  Main.process_experiments api_json decoders_json transfers_ok copies_ok
    deletes_ok update_ok excel_ok [E1].

Definition after_whole_run : State := snd (whole_run empty_store).


(** The store of [after_whole_run] on a fresh machine. *)
Definition retained_after_whole_run : State :=
  mkState (objects after_whole_run) [] [] [].

End Scenario.

(* ===================================================================== *)
(** * Properties *)
(* ===================================================================== *)

(** ** The string and path functions on the inputs of the sources' comments *)

Example removeprefix_ex : PyStr.removeprefix "data" "data/a/b.fcs" = "/a/b.fcs".
Proof. reflexivity. Qed.
Example removeprefix_miss : PyStr.removeprefix "./data" "data/b.fcs" = "data/b.fcs".
Proof. reflexivity. Qed.
Example removesuffix_ex : PyStr.removesuffix ".fcs" "A.fcs" = "A".
Proof. reflexivity. Qed.
Example removesuffix_miss : PyStr.removesuffix ".fcs" "A.txt" = "A.txt".
Proof. reflexivity. Qed.
Example replace_ex : PyStr.replace "a" "b" "a/a.txt" = "b/b.txt".
Proof. reflexivity. Qed.
Example replace_overlap : PyStr.replace "aa" "x" "aaaa_a" = "xx_a".
Proof. reflexivity. Qed.
Example replace_empty : PyStr.replace "" "X" "abc" = "XaXbXcX".
Proof. reflexivity. Qed.
Example replace_first_ex : PyStr.replace_first "a" "b" "a/a.txt" = "b/a.txt".
Proof. reflexivity. Qed.
Example lower_ex : PyStr.lower "TSV (with header)" = "tsv (with header)".
Proof. reflexivity. Qed.
Example contains_ex : PyStr.contains "sv" "tsv (with header)" = true.
Proof. reflexivity. Qed.
Example basename_ex : PyStr.basename "a/b/c" = "c" /\ PyStr.basename "a/b/" = "".
Proof. split; reflexivity. Qed.
Example dirname_ex :
  PyStr.dirname "b/b.txt" = "b" /\ PyStr.dirname "b.txt" = "" /\
  PyStr.dirname "/b.txt" = "/" /\ PyStr.dirname "a//b" = "a".
Proof. repeat split; reflexivity. Qed.
Example join_posix_ex :
  PyPath.join_posix "data/E1" "A.fcs" = "data/E1/A.fcs" /\
  PyPath.join_posix "data/" "A.fcs" = "data/A.fcs" /\
  PyPath.join_posix "./data" "A.fcs" = "data/A.fcs" /\
  PyPath.join_posix "/srv//x/." "A.fcs" = "/srv/x/A.fcs".
Proof. repeat split; reflexivity. Qed.

(* ===================================================================== *)
(** ** The monad *)
(* ===================================================================== *)

Lemma bind_Ok_inv {A B} (m : M A) (k : A -> M B) (st st' : State) (b : B) :
  bind m k st = (Ok b, st') ->
  exists a st1, m st = (Ok a, st1) /\ k a st1 = (Ok b, st').
Proof.
  unfold bind. destruct (m st) as [[a|e] st1]; intros H.
  - exists a, st1. split; [reflexivity | exact H].
  - discriminate H.
Qed.

Lemma bind_Ok_eq {A B} (m : M A) (k : A -> M B) (st st1 : State) (a : A) :
  m st = (Ok a, st1) -> bind m k st = k a st1.
Proof. unfold bind. intros ->. reflexivity. Qed.

Lemma bind_Raise_eq {A B} (m : M A) (k : A -> M B) (st st1 : State) (e : exn) :
  m st = (Raise e, st1) -> bind m k st = (Raise e, st1).
Proof. unfold bind. intros ->. reflexivity. Qed.

Lemma bind_assoc {A B C} (m : M A) (k : A -> M B) (h : B -> M C) (st : State) :
  bind (bind m k) h st = bind m (fun a => bind (k a) h) st.
Proof. unfold bind. destruct (m st) as [[a|e] st1]; reflexivity. Qed.

Lemma bind_ret {A B} (a : A) (k : A -> M B) (st : State) :
  bind (ret a) k st = k a st.
Proof. reflexivity. Qed.

(* ===================================================================== *)
(** ** The pending-transfer queue *)
(* ===================================================================== *)

Lemma future_result_trace (fut : future) (st : State) :
  trace (snd (S3.future_result fut st)) = (trace st ++ [resolved fut])%list.
Proof.
  destruct fut as [t err].
  unfold resolved, S3.future_result, bind, log, raise, S3.transfer_done. simpl.
  destruct err; [reflexivity|]. destruct t; reflexivity.
Qed.

Lemma future_result_queue (fut : future) (st : State) :
  future_queue (snd (S3.future_result fut st)) = future_queue st.
Proof.
  destruct fut as [t err].
  unfold resolved, S3.future_result, bind, log, raise, S3.transfer_done. simpl.
  destruct err; [reflexivity|]. destruct t; reflexivity.
Qed.

Lemma future_result_succeeds (fut : future) (st : State) :
  succeeds fut -> fst (S3.future_result fut st) = Ok tt.
Proof.
  unfold succeeds, S3.future_result, bind, log, S3.transfer_done. simpl.
  intros ->. destruct (fut_transfer fut); reflexivity.
Qed.

Lemma future_result_fails (fut : future) (st : State) (e : exn) :
  fut_error fut = Some e -> fst (S3.future_result fut st) = Raise e.
Proof.
  unfold S3.future_result, bind, log, raise. simpl. intros ->. reflexivity.
Qed.

(** Resolving a run of successful futures at the head of [pending]: the
    loop goes on with the rest, the count advanced, the queue holding what
    is still pending. *)
Lemma result_loop_succeeding (oks rest : list future) :
  Forall succeeds oks ->
  forall (n : nat) (st : State),
  exists st1,
    S3.result_loop n (oks ++ rest)%list st
      = S3.result_loop (n + length oks) rest st1 /\
    trace st1 = (trace st ++ map resolved oks)%list /\
    future_queue st1 = match oks with
                       | [] => future_queue st
                       | _ => rev rest
                       end.
Proof.
  induction 1 as [|fut oks Hfut Hoks IH]; intros n st.
  - exists st. simpl. rewrite Nat.add_0_r, app_nil_r. auto.
  - simpl S3.result_loop.
    set (st0 := set_queue (rev (oks ++ rest)) st).
    pose proof (future_result_succeeds fut st0 Hfut) as Hok.
    pose proof (future_result_trace fut st0) as Htr.
    pose proof (future_result_queue fut st0) as Hq.
    destruct (S3.future_result fut st0) as [r st2] eqn:E. simpl in Hok, Htr, Hq.
    subst r.
    destruct (IH (S n) st2) as (st1 & Hrun & Htr1 & Hq1).
    exists st1. split; [|split].
    + unfold bind at 1. simpl. unfold bind at 1. fold st0. rewrite E.
      rewrite Hrun. f_equal. simpl. lia.
    + rewrite Htr1, Htr. simpl. rewrite <- app_assoc. reflexivity.
    + rewrite Hq1, Hq. destruct oks; [|reflexivity].
      reflexivity.
Qed.



(** The loop of [result_all_futures] against the [while] of the source:
    on the empty queue it returns 0; otherwise it takes out the last
    future, blocks on it, and goes on with one more on the count. *)
Lemma result_loop_shift (pending : list future) :
  forall (n : nat) (st : State),
    S3.result_loop (S n) pending st
    = match S3.result_loop n pending st with
      | (Ok m, st') => (Ok (S m), st')
      | (Raise e, st') => (Raise e, st')
      end.
Proof.
  induction pending as [|fut pending IH]; intros n st; [reflexivity|].
  cbn [S3.result_loop]. unfold bind at 1 3. unfold bind at 1 2.
  destruct (S3.future_result fut _) as [[[]|e] st1]; [|reflexivity].
  apply IH.
Qed.

Lemma result_all_futures_empty (st : State) :
  future_queue st = [] -> S3.result_all_futures st = (Ok 0%nat, st).
Proof. unfold S3.result_all_futures. intros ->. reflexivity. Qed.

Lemma result_all_futures_pop (q : list future) (fut : future) (st : State) :
  future_queue st = (q ++ [fut])%list ->
  S3.result_all_futures st
  = (S3.future_result fut ;;
     n_futures <- S3.result_all_futures ;;
     ret (S n_futures)) (set_queue q st).
Proof.
  intros Hq. unfold S3.result_all_futures at 1.
  rewrite Hq, rev_app_distr. cbn [rev app S3.result_loop].
  rewrite rev_involutive.
  rewrite (bind_Ok_eq _ _ st (set_queue q st) tt eq_refl).
  pose proof (future_result_queue fut (set_queue q st)) as Hq'.
  destruct (S3.future_result fut (set_queue q st)) as [[[]|e] st1] eqn:E.
  - rewrite !(bind_Ok_eq _ _ _ _ _ E).
    simpl in Hq'. unfold bind, S3.result_all_futures, ret. rewrite Hq'.
    rewrite result_loop_shift.
    destruct (S3.result_loop 0 (rev q) st1) as [[m|e] st2]; reflexivity.
  - rewrite !(bind_Raise_eq _ _ _ _ _ E). reflexivity.
Qed.

Lemma queue_append_all (futs : list future) :
  forall st : State,
    for_each futs S3.queue_append st
      = (Ok tt, set_queue (future_queue st ++ futs)%list st).
Proof.
  induction futs as [|fut futs IH]; intros st.
  - simpl. unfold ret, set_queue. rewrite app_nil_r. destruct st; reflexivity.
  - simpl. unfold bind at 1. unfold S3.queue_append at 1. rewrite IH.
    unfold set_queue. simpl. rewrite <- app_assoc. reflexivity.
Qed.

(** C10: transfers are resolved last-in-first-out, and when all of them
    succeed the drain returns their number: after [futs] are enqueued in
    order behind what the queue holds, [result_all_futures] blocks on
    them in the reverse order, returns how many were queued and leaves
    the queue empty. *)
Theorem result_all_futures_lifo_count (futs : list future) (st : State) :
  Forall succeeds (future_queue st ++ futs)%list ->
  exists st',
    (for_each futs S3.queue_append ;; S3.result_all_futures) st
      = (Ok (length (future_queue st ++ futs)%list), st') /\
    future_queue st' = [] /\
    events_of (for_each futs S3.queue_append ;; S3.result_all_futures) st
      = (map resolved (rev futs) ++ map resolved (rev (future_queue st)))%list.
Proof.
  intros Hall.
  unfold events_of.
  rewrite (bind_Ok_eq _ _ st _ tt (queue_append_all futs st)).
  set (st0 := set_queue (future_queue st ++ futs) st).
  assert (Hrev : Forall succeeds (rev (future_queue st0))).
  { apply Forall_rev. exact Hall. }
  destruct (result_loop_succeeding (rev (future_queue st0)) [] Hrev 0 st0)
    as (st1 & Hrun & Htr & Hq).
  rewrite app_nil_r in Hrun. cbn [S3.result_loop Nat.add] in Hrun.
  unfold S3.result_all_futures. rewrite Hrun. unfold ret.
  exists st1. split; [|split].
  - f_equal. f_equal. rewrite length_rev. reflexivity.
  - rewrite Hq. destruct (rev (future_queue st0)) eqn:E; [|reflexivity].
    apply (f_equal (@rev future)) in E. rewrite rev_involutive in E. exact E.
  - simpl. rewrite Htr. simpl.
    rewrite drop_app_length. simpl. rewrite rev_app_distr, map_app. reflexivity.
Qed.

Lemma result_all_futures_lifo_count_witness :
  exists st',
    (for_each Scenario.three_good S3.queue_append ;; S3.result_all_futures)
      (mkState [] [] [] [])
      = (Ok 3%nat, st') /\
    future_queue st' = [] /\
    events_of (for_each Scenario.three_good S3.queue_append ;; S3.result_all_futures)
      (mkState [] [] [] [])
      = [ EvResult (Upload "data/3" "K/3");
          EvResult (Upload "data/2" "K/2");
          EvResult (Upload "data/1" "K/1") ].
Proof.
  apply (result_all_futures_lifo_count Scenario.three_good (mkState [] [] [] [])).
  simpl. repeat constructor.
Defined.

(** The drain when the queue holds a failing transfer behind which (later
    in enqueue order) all succeed. *)
Lemma result_all_futures_failure (q1 q2 : list future) (fut : future)
    (e : exn) (st : State) :
  future_queue st = (q1 ++ fut :: q2)%list ->
  Forall succeeds q2 ->
  fut_error fut = Some e ->
  exists st',
    S3.result_all_futures st = (Raise e, st') /\
    future_queue st' = q1 /\
    trace st' = (trace st ++ map resolved (rev q2) ++ [resolved fut])%list.
Proof.
  intros Hq Hok Herr.
  unfold S3.result_all_futures. rewrite Hq, rev_app_distr. simpl rev.
  rewrite <- app_assoc. simpl app.
  assert (Hrev : Forall succeeds (rev q2)) by (apply Forall_rev; exact Hok).
  destruct (result_loop_succeeding (rev q2) (fut :: rev q1) Hrev 0 st)
    as (st1 & Hrun & Htr & _).
  rewrite Hrun. cbn [S3.result_loop].
  unfold bind at 1. unfold bind at 1.
  set (st0 := set_queue (rev (rev q1)) st1).
  pose proof (future_result_fails fut st0 e Herr) as Hf.
  pose proof (future_result_trace fut st0) as Ht.
  pose proof (future_result_queue fut st0) as Hqq.
  destruct (S3.future_result fut st0) as [r st2]. simpl in Hf, Ht, Hqq. subst r.
  exists st2. split; [reflexivity|]. split.
  - rewrite Hqq. simpl. apply rev_involutive.
  - rewrite Ht. simpl. rewrite Htr, <- app_assoc. reflexivity.
Qed.

(** C3, as stated, fails: with three uploads queued of which the second
    fails, the drain raises without having blocked on the first. *)
Lemma result_all_futures_leaves_earlier_handles :
  ~ blocks_on_all_before_raising Scenario.three_pending.
Proof.
  intros H.
  specialize (H Scenario.boom (snd (S3.result_all_futures Scenario.three_pending))
                eq_refl (Scenario.pending "1" None)).
  assert (Hin : Scenario.pending "1" None ∈ future_queue Scenario.three_pending)
    by (simpl; left).
  apply H in Hin. vm_compute in Hin.
  apply list_elem_of_In in Hin. simpl in Hin.
  destruct Hin as [Hin|[Hin|[]]]; discriminate Hin.
Qed.

(** C3, amended: the drain blocks on the queued transfers from the last
    enqueued backwards and raises as soon as one of them fails; the
    exception surfaces when the failing handle itself is resolved, and the
    handles enqueued before it stay in the queue and are not blocked on. *)
Theorem result_all_futures_raises_at_first_failure (q1 q2 : list future)
    (fut : future) (e : exn) (st : State) :
  future_queue st = (q1 ++ fut :: q2)%list ->
  Forall succeeds q2 ->
  fut_error fut = Some e ->
  exists st',
    S3.result_all_futures st = (Raise e, st') /\
    events_of S3.result_all_futures st
      = (map resolved (rev q2) ++ [resolved fut])%list /\
    future_queue st' = q1.
Proof.
  intros Hq Hok Herr.
  destruct (result_all_futures_failure q1 q2 fut e st Hq Hok Herr)
    as (st' & Hrun & Hq' & Htr).
  exists st'. split; [exact Hrun|]. split; [|exact Hq'].
  unfold events_of. rewrite Hrun. simpl. rewrite Htr.
  apply drop_app_length.
Qed.

Lemma result_all_futures_raises_at_first_failure_witness :
  exists st',
    S3.result_all_futures Scenario.three_pending = (Raise Scenario.boom, st') /\
    events_of S3.result_all_futures Scenario.three_pending
      = [EvResult (Upload "data/3" "K/3"); EvResult (Upload "data/2" "K/2")] /\
    future_queue st' = [Scenario.pending "1" None].
Proof.
  apply (result_all_futures_raises_at_first_failure
           [Scenario.pending "1" None] [Scenario.pending "3" None]
           (Scenario.pending "2" (Some Scenario.boom)) Scenario.boom
           Scenario.three_pending).
  - reflexivity.
  - repeat constructor.
  - reflexivity.
Defined.




(* ===================================================================== *)
(** ** Safety caps of the directory operations *)
(* ===================================================================== *)

(** C7: [move_dir] raises before it touches any object when more objects
    are listed under the source prefix than the cap (100 when left out)
    allows, and the state is left as it was; [delete_dir] does the same
    with its cap (30 when left out), and refuses the key ["/"] whatever
    the cap. *)
Theorem dir_caps_fail_closed (self : S3.S3FilesLoader) (st : State) :
  (forall from_dir_key to_dir_key to_bucket max_obj_count,
      default 100 max_obj_count < Z.of_nat (length (listed from_dir_key st)) ->
      exists msg,
        S3.move_dir self from_dir_key to_dir_key to_bucket max_obj_count st
          = (Raise (PyException msg), st)) /\
  (forall dir_key max_obj_count,
      default 30 max_obj_count < Z.of_nat (length (listed dir_key st)) ->
      exists msg,
        S3.delete_dir self dir_key max_obj_count st
          = (Raise (PyException msg), st)) /\
  (forall max_obj_count,
      exists msg,
        S3.delete_dir self "/" max_obj_count st = (Raise (PyException msg), st)).
Proof.
  split; [|split].
  - intros from_dir_key to_dir_key to_bucket max_obj_count Hcap.
    unfold S3.move_dir, S3.move_dir_max_obj_count, bind, S3.bucket_filter.
    fold (listed from_dir_key st).
    apply Z.ltb_lt in Hcap. rewrite Hcap. eexists. reflexivity.
  - intros dir_key max_obj_count Hcap.
    unfold S3.delete_dir, S3.delete_dir_max_obj_count.
    destruct (String.eqb dir_key "/"); [eexists; reflexivity|].
    unfold bind, S3.bucket_filter. fold (listed dir_key st).
    apply Z.ltb_lt in Hcap. rewrite Hcap. eexists. reflexivity.
  - intros max_obj_count. unfold S3.delete_dir. simpl. eexists. reflexivity.
Qed.

Lemma dir_caps_fail_closed_witness :
  (exists msg,
     S3.move_dir Scenario.sound "a" "z" None (Some 2) Scenario.bucket_a
       = (Raise (PyException msg), Scenario.bucket_a)) /\
  (exists msg,
     S3.delete_dir Scenario.sound "a" (Some 2) Scenario.bucket_a
       = (Raise (PyException msg), Scenario.bucket_a)).
Proof.
  split.
  - apply (proj1 (dir_caps_fail_closed Scenario.sound Scenario.bucket_a)
             "a" "z" None (Some 2)).
    vm_compute. reflexivity.
  - apply (proj1 (proj2 (dir_caps_fail_closed Scenario.sound Scenario.bucket_a))
             "a" (Some 2)).
    vm_compute. reflexivity.
Defined.

(** [move_file] onto the same key of the same bucket does nothing. *)
Lemma move_file_same_key (self : S3.S3FilesLoader) (f_key : string) (st : State) :
  S3.move_file self f_key f_key None st = (Ok tt, st).
Proof.
  unfold S3.move_file, S3.bucket_or_own. rewrite String.eqb_refl. reflexivity.
Qed.

(* ===================================================================== *)
(** ** Destination keys of the directory operations *)
(* ===================================================================== *)

Lemma prefix_app (p r : string) : String.prefix p (p +:+ r) = true.
Proof.
  induction p as [|c p IH]; simpl.
  - destruct r; reflexivity.
  - destruct (ascii_dec c c) as [_|Hne]; [exact IH | contradiction].
Qed.

Lemma drop_chars_app (p r : string) :
  PyStr.drop_chars (String.length p) (p +:+ r) = r.
Proof. induction p as [|c p IH]; simpl; [reflexivity | exact IH]. Qed.

(** [upload_dir]: when the local path starts with [from_dir], the key is
    [to_dir_key] followed by the remainder. *)
Lemma removeprefix_app (p r : string) : PyStr.removeprefix p (p +:+ r) = r.
Proof.
  unfold PyStr.removeprefix, PyStr.startswith.
  rewrite prefix_app. apply drop_chars_app.
Qed.

(** [copy_dir] and [move_dir]: [replace(..., 1)] on a key that starts with
    the source prefix replaces that prefix and keeps the remainder. *)
Lemma replace_first_app (p new r : string) :
  PyStr.replace_first p new (p +:+ r) = new +:+ r.
Proof.
  assert (Hunfold : forall s,
             PyStr.replace_first p new s
             = if String.prefix p s
               then new +:+ PyStr.drop_chars (String.length p) s
               else match s with
                    | EmptyString => EmptyString
                    | String c t => String c (PyStr.replace_first p new t)
                    end)
    by (intros []; reflexivity).
  rewrite Hunfold, prefix_app, drop_chars_app. reflexivity.
Qed.

(** C8 at its failing input: [download_dir] from the prefix ["data"] to
    ["out"] sends the object ["data/metadata.csv"] to ["out/metaout.csv"],
    not to ["out/metadata.csv"]: [replace] without a count rewrites every
    occurrence of the prefix, also those in the remainder. *)
Theorem download_dir_rewrites_remainder :
  events_of (S3.download_dir Scenario.sound "data" (Some "out"))
            (mkState ["data/metadata.csv"] [] [] [])
    = [ EvMakedirs "out";
        EvSubmit (Download "data/metadata.csv" "out/metaout.csv");
        EvResult (Download "data/metadata.csv" "out/metaout.csv") ] /\
  "out/metaout.csv" <> "out" +:+ PyStr.removeprefix "data" "data/metadata.csv" /\
  PyStr.replace_first "data" "out" "data/metadata.csv" = "out/metadata.csv".
Proof.
  split; [vm_compute; reflexivity|]. split; [vm_compute; discriminate|].
  reflexivity.
Qed.

(* ===================================================================== *)
(** ** The statistics request *)
(* ===================================================================== *)

Lemma is_none_false (v : pyval) : ClientExt.is_none v = false <-> v <> PNone.
Proof. destruct v; simpl; split; intros H; try congruence; try reflexivity. Qed.



(** When the guard does not hold, exactly one request goes out, with
    [req_params] as its body, whatever comes back; nothing else changes. *)
Lemma get_statistics_posts (lib : ClientExt.Decoders)
    (client : ClientExt.APIClient) (experiment_id : string)
    (a : ClientExt.StatsArgs) (st : State) :
  ClientExt.quantile_without_q a = false ->
  snd (ClientExt.get_statistics lib client experiment_id a st)
    = logged (EvPost (ClientExt.bulkstatistics_url client experiment_id)
                     (ClientExt.req_params a)) st.
Proof.
  intros H. unfold ClientExt.get_statistics. rewrite H.
  unfold ClientExt._post, ClientExt.lift, bind, log, ret, raise. simpl.
  destruct (ClientExt.client_post client _ _) as [raw|e]; simpl; [|auto].
  destruct (String.eqb _ "json").
  { destruct (ClientExt.json_loads lib raw); reflexivity. }
  destruct (PyStr.contains "sv" _).
  { destruct (ClientExt.bytes_decode lib raw); reflexivity. }
  destruct (String.eqb _ "pandas"); [|reflexivity].
  destruct (ClientExt.json_loads lib raw) as [v|]; [|reflexivity].
  destruct (ClientExt.frame_from_dict lib v); reflexivity.
Qed.

(** C1 at its failing input: with [statistics = ["quantile"]] and no [q],
    [get_statistics] does not raise before the network call: the bulk
    statistics request is sent. *)
Theorem get_statistics_quantile_list_is_sent (lib : ClientExt.Decoders)
    (client : ClientExt.APIClient) (experiment_id : string) (st : State) :
  let a := ClientExt.default_args (PList [PStr "quantile"]) (PList [PStr "FSC-A"]) in
  events_of (ClientExt.get_statistics lib client experiment_id a) st
    = [EvPost (ClientExt.bulkstatistics_url client experiment_id)
              (ClientExt.req_params a)].
Proof.
  intros a. unfold events_of.
  rewrite (get_statistics_posts lib client experiment_id a st eq_refl).
  apply drop_app_length.
Qed.

(** The dict literal [params] holds the ten modifier fields, each under
    its name, and nothing else. *)
Lemma computed_params_fields (a : ClientExt.StatsArgs) (k : string) (v : pyval) :
  ClientExt.computed_params a !! k = Some v <->
  (k, v) ∈ [ ("statistics", ClientExt.statistics a);
             ("q", ClientExt.q a);
             ("channels", ClientExt.channels a);
             ("annotations", ClientExt.annotations a);
             ("compensationId", ClientExt.compensation_id a);
             ("fcsFileIds", ClientExt.fcs_file_ids a);
             ("format",
              PStr (if String.eqb (ClientExt.format a) "pandas" then "json"
                    else ClientExt.format a));
             ("layout", ClientExt.layout a);
             ("percentOf", ClientExt.percent_of a);
             ("populationIds", ClientExt.population_ids a) ].
Proof.
  unfold ClientExt.computed_params. symmetry.
  apply elem_of_list_to_map.
  cbn [fmap list_fmap fst].
  apply (bool_decide_unpack _). vm_compute. reflexivity.
Qed.

(** C9: the body of the request holds exactly the fields whose value is
    not [None]: a field is in the body, with value [v], exactly when [v]
    is not [None] and either [other_params] gives [v] for it, or
    [other_params] does not have it and it is one of the ten modifier
    fields (statistics, q, channels, annotations, compensationId,
    fcsFileIds, format, layout, percentOf, populationIds) with [v] the
    value the call computed for it.  So a key of [other_params] carries
    the caller's value in place of the computed one. *)
Theorem get_statistics_payload (lib : ClientExt.Decoders)
    (client : ClientExt.APIClient) (experiment_id : string)
    (a : ClientExt.StatsArgs) (st : State) :
  (ClientExt.quantile_without_q a = false ->
   events_of (ClientExt.get_statistics lib client experiment_id a) st
     = [EvPost (ClientExt.bulkstatistics_url client experiment_id)
               (ClientExt.req_params a)]) /\
  (forall (k : string) (v : pyval),
      ClientExt.req_params a !! k = Some v <->
      v <> PNone /\
      (ClientExt.other_params a !! k = Some v \/
       (ClientExt.other_params a !! k = None /\
        (k, v) ∈ [ ("statistics", ClientExt.statistics a);
                   ("q", ClientExt.q a);
                   ("channels", ClientExt.channels a);
                   ("annotations", ClientExt.annotations a);
                   ("compensationId", ClientExt.compensation_id a);
                   ("fcsFileIds", ClientExt.fcs_file_ids a);
                   ("format",
                    PStr (if String.eqb (ClientExt.format a) "pandas"
                          then "json" else ClientExt.format a));
                   ("layout", ClientExt.layout a);
                   ("percentOf", ClientExt.percent_of a);
                   ("populationIds", ClientExt.population_ids a) ]))).
Proof.
  split.
  - intros H. unfold events_of.
    rewrite (get_statistics_posts lib client experiment_id a st H).
    apply drop_app_length.
  - intros k v. rewrite <- computed_params_fields.
    unfold ClientExt.req_params, ClientExt.merged_params.
    rewrite map_lookup_filter_Some, lookup_union_Some_raw. simpl.
    rewrite is_none_false. tauto.
Qed.

(* ===================================================================== *)
(** ** The bucket as the existence check sees it *)
(* ===================================================================== *)

Lemma has_key_true (prefix : string) (objs : list string) :
  has_key prefix objs = true <->
  exists k, In k objs /\ PyStr.startswith prefix k = true.
Proof.
  unfold has_key. split.
  - destruct (List.filter _ objs) as [|k l] eqn:E; [discriminate|].
    intros _. exists k. apply filter_In. rewrite E. left. reflexivity.
  - intros (k & Hin & Hk).
    assert (Hf : In k (List.filter (PyStr.startswith prefix) objs))
      by (apply filter_In; auto).
    destruct (List.filter _ objs); [destruct Hf | reflexivity].
Qed.

Lemma In_put (k x : string) (l : list string) :
  In x (put k l) <-> x = k \/ In x l.
Proof.
  unfold put. destruct (decide (k ∈ l)) as [Hk|Hk].
  - split; [auto|]. intros [->|H]; [|exact H].
    apply list_elem_of_In. exact Hk.
  - rewrite in_app_iff. simpl. intuition auto.
Qed.

Lemma has_key_put (prefix k : string) (objs : list string) :
  has_key prefix objs = true -> has_key prefix (put k objs) = true.
Proof.
  rewrite !has_key_true. intros (x & Hin & Hx).
  exists x. split; [apply In_put; auto | exact Hx].
Qed.

Lemma prefix_refl (s : string) : String.prefix s s = true.
Proof.
  induction s as [|c s IH]; simpl; [reflexivity|].
  destruct (ascii_dec c c); [exact IH | contradiction].
Qed.

Lemma has_key_put_self (k : string) (objs : list string) :
  has_key k (put k objs) = true.
Proof.
  apply has_key_true. exists k. split; [apply In_put; auto|].
  apply prefix_refl.
Qed.

Lemma elem_of_put_self (k : string) (l : list string) : k ∈ put k l.
Proof. apply list_elem_of_In, In_put. auto. Qed.

Lemma not_elem_of_del (k : string) (l : list string) : k ∉ del k l.
Proof.
  unfold del. intros H. apply list_elem_of_filter in H as [H _].
  apply H. reflexivity.
Qed.

(* ===================================================================== *)
(** ** The steps of the orchestrator, as equations *)
(* ===================================================================== *)
Section OrchestratorSteps.

Variable client : ClientExt.APIClient.
Variable lib : ClientExt.Decoders.
Variable transfer_manager : transfer -> option exn.
Variable sdk_copy_object : string -> string -> string -> result Z.
Variable sdk_delete_object : string -> option exn.

Local Abbreviation upload_to_s3 :=
  (Main._upload_to_s3 transfer_manager sdk_copy_object sdk_delete_object).

Lemma check_s3_exists_eq (f_path : string) (st : State) :
  Main._check_s3_exists f_path st = (Ok (on_s3 f_path st), st).
Proof.
  unfold Main._check_s3_exists, S3.check_exists, S3.list_objects_v2, bind, ret,
    on_s3, has_key, mirror_key.
  destruct (List.filter _ (objects st)); reflexivity.
Qed.

Lemma write_file_eq (f_path : string) (st : State) :
  Os.write_file f_path st = (Ok tt, written f_path st).
Proof. reflexivity. Qed.

Lemma remove_eq (f_path : string) (st : State) :
  f_path ∈ files st -> Os.remove f_path st = (Ok tt, removed f_path st).
Proof.
  intros H. unfold Os.remove. destruct (decide (f_path ∈ files st)); [|contradiction].
  reflexivity.
Qed.

Lemma upload_to_s3_None (remove_local : bool) (st : State) :
  upload_to_s3 None remove_local st = (Ok tt, st).
Proof. reflexivity. Qed.

Lemma upload_to_s3_Some (f_path : string) (remove_local : bool) (st : State) :
  upload_to_s3 (Some f_path) remove_local st
  = match transfer_manager (mirror_upload f_path) with
    | Some e => (Raise e, upload_failed f_path st)
    | None => if remove_local then Os.remove f_path (uploaded f_path st)
              else (Ok tt, uploaded f_path st)
    end.
Proof.
  unfold Main._upload_to_s3, S3.upload_file, Main.s3_files_loader,
    S3.is_not_dry_run, S3.submit, S3.future_result, mirror_upload, mirror_key.
  cbn [S3.dry_run negb S3.s3_transfer_manager].
  unfold bind, log, ret, raise. cbn [fut_error fut_transfer].
  destruct (transfer_manager _) as [e|].
  - unfold upload_failed, mirror_upload, mirror_key. cbn.
    rewrite <- app_assoc. reflexivity.
  - unfold S3.transfer_done, uploaded, mirror_upload, mirror_key, set_objects. cbn.
    rewrite <- app_assoc. cbn.
    destruct remove_local; reflexivity.
Qed.

Lemma upload_written (f_path : string) (st : State) :
  upload_to_s3 (Some f_path) true (written f_path st)
  = match transfer_manager (mirror_upload f_path) with
    | Some e => (Raise e, upload_failed f_path (written f_path st))
    | None => (Ok tt, removed f_path (uploaded f_path (written f_path st)))
    end.
Proof.
  rewrite upload_to_s3_Some.
  destruct (transfer_manager _); [reflexivity|].
  apply remove_eq. simpl. apply elem_of_put_self.
Qed.

Lemma statistics_args_unguarded (exp : Main.Experiment) (fcs_file : Main.FcsFile) :
  ClientExt.quantile_without_q (Main.statistics_args exp fcs_file) = false.
Proof. reflexivity. Qed.

(** The statistics call of [_download_statistics] gives text or raises. *)
Lemma get_statistics_tsv (exp : Main.Experiment) (fcs_file : Main.FcsFile)
    (st : State) :
  let request := artifact_request client Statistics exp fcs_file in
  (exists e,
      ClientExt.get_statistics lib client (Main.exp_id exp)
        (Main.statistics_args exp fcs_file) st = (Raise e, logged request st)) \/
  (exists s,
      ClientExt.get_statistics lib client (Main.exp_id exp)
        (Main.statistics_args exp fcs_file) st
      = (Ok (ClientExt.StatsText s), logged request st)).
Proof.
  unfold ClientExt.get_statistics. rewrite statistics_args_unguarded.
  unfold ClientExt._post, ClientExt.lift, bind, log, ret, raise. cbn.
  destruct (ClientExt.client_post client _ _) as [raw|e]; [|left; eexists; reflexivity].
  destruct (ClientExt.bytes_decode lib raw) as [s|e].
  - right. exists s. reflexivity.
  - left. eexists. reflexivity.
Qed.

(** Every step of the loop body has one shape: nothing when the artifact
    is on the store; else the request, and on its success the write, the
    upload and the removal. *)
Lemma artifact_step_shape (a : artifact) (exp : Main.Experiment)
    (exp_root : string) (fcs_file : Main.FcsFile) (st : State) :
  let step := artifact_step client lib transfer_manager sdk_copy_object
                sdk_delete_object a exp exp_root fcs_file in
  let f_path := artifact_path a exp_root fcs_file in
  let request := artifact_request client a exp fcs_file in
  if on_s3 f_path st then step st = (Ok tt, st)
  else (exists e, step st = (Raise e, logged request st)) \/
       step st = upload_to_s3 (Some f_path) true (written f_path (logged request st)).
Proof.
  destruct a; cbn zeta; cbn [artifact_step artifact_path artifact_request].
  - unfold Main.raw_file_step, Main._download_file.
    rewrite bind_assoc, (bind_Ok_eq _ _ _ _ _ (check_s3_exists_eq _ st)).
    destruct (on_s3 _ st); [reflexivity|].
    rewrite !bind_assoc.
    unfold ClientExt.download_fcs_file.
    rewrite bind_assoc, (bind_Ok_eq _ _ _ _ _ (eq_refl : log _ st = (Ok tt, logged _ st))).
    destruct (ClientExt.client_download_fcs_file client _ _) as [raw|e].
    + right. reflexivity.
    + left. exists e. reflexivity.
  - unfold Main.fcs_gating_step, Main._download_fcs_gating_ml.
    rewrite bind_assoc, (bind_Ok_eq _ _ _ _ _ (check_s3_exists_eq _ st)).
    destruct (on_s3 _ st); [reflexivity|].
    rewrite !bind_assoc.
    unfold ClientExt._get.
    rewrite bind_assoc, (bind_Ok_eq _ _ _ _ _ (eq_refl : log _ st = (Ok tt, logged _ st))).
    destruct (ClientExt.client_get client _) as [raw|e].
    + right. reflexivity.
    + left. exists e. reflexivity.
  - unfold Main.statistics_step, Main._download_statistics.
    rewrite bind_assoc, (bind_Ok_eq _ _ _ _ _ (check_s3_exists_eq _ st)).
    destruct (on_s3 _ st); [reflexivity|].
    rewrite !bind_assoc.
    destruct (get_statistics_tsv exp fcs_file st) as [[e H]|[s H]].
    + left. exists e. apply bind_Raise_eq. exact H.
    + right. rewrite (bind_Ok_eq _ _ _ _ _ H). reflexivity.
Qed.

(** A step that returns normally either skipped or mirrored its artifact. *)
Lemma artifact_step_Ok (a : artifact) (exp : Main.Experiment)
    (exp_root : string) (fcs_file : Main.FcsFile) (st st' : State) :
  artifact_step client lib transfer_manager sdk_copy_object sdk_delete_object
    a exp exp_root fcs_file st = (Ok tt, st') ->
  (on_s3 (artifact_path a exp_root fcs_file) st = true /\ st' = st) \/
  (on_s3 (artifact_path a exp_root fcs_file) st = false /\
   st' = mirrored (artifact_request client a exp fcs_file)
                  (artifact_path a exp_root fcs_file) st).
Proof.
  intros H. pose proof (artifact_step_shape a exp exp_root fcs_file st) as S.
  cbn zeta in S. destruct (on_s3 _ st).
  - left. rewrite S in H. injection H as <-. auto.
  - right. split; [reflexivity|].
    destruct S as [[e S]|S]; rewrite S in H; [discriminate H|].
    rewrite upload_written in H.
    destruct (transfer_manager _); [discriminate H|].
    injection H as <-. reflexivity.
Qed.

Lemma global_gating_step_eq (exp : Main.Experiment) (root : string) (st : State) :
  let f_path := Main.global_gatingml_path exp root in
  let st1 := logged (EvGet (Main.global_gatingml_url client exp)) st in
  Main.global_gating_step client transfer_manager sdk_copy_object
    sdk_delete_object exp root st
  = match ClientExt.client_get client (Main.global_gatingml_url client exp) with
    | Raise e => (Raise e, st1)
    | Ok _ =>
        match transfer_manager (mirror_upload f_path) with
        | Some e => (Raise e, upload_failed f_path (written f_path st1))
        | None => (Ok tt, uploaded f_path (written f_path st1))
        end
    end.
Proof.
  cbn zeta. unfold Main.global_gating_step, Main._download_global_gating_ml.
  rewrite !bind_assoc. unfold ClientExt._get.
  rewrite bind_assoc, (bind_Ok_eq _ _ _ _ _ (eq_refl : log _ st = (Ok tt, logged _ st))).
  destruct (ClientExt.client_get client _) as [raw|e]; [|reflexivity].
  cbn [ClientExt.lift]. rewrite bind_ret, bind_assoc.
  rewrite (bind_Ok_eq _ _ _ _ _ (write_file_eq _ _)), bind_ret.
  rewrite upload_to_s3_Some. reflexivity.
Qed.

Lemma retains_refl (st : State) : retains st st.
Proof. intros prefix H. exact H. Qed.

Lemma retains_trans (st1 st2 st3 : State) :
  retains st1 st2 -> retains st2 st3 -> retains st1 st3.
Proof. intros H12 H23 prefix H. apply H23, H12, H. Qed.

Lemma retains_mirrored (request : event) (f_path : string) (st : State) :
  retains st (mirrored request f_path st).
Proof. intros prefix H. simpl. apply has_key_put. exact H. Qed.

Lemma artifact_step_retains (a : artifact) (exp : Main.Experiment)
    (root : string) (fcs_file : Main.FcsFile) (st st' : State) :
  artifact_step client lib transfer_manager sdk_copy_object sdk_delete_object
    a exp root fcs_file st = (Ok tt, st') ->
  retains st st' /\ on_s3 (artifact_path a root fcs_file) st' = true.
Proof.
  intros H. apply artifact_step_Ok in H as [[Hon ->]|[_ ->]].
  - split; [apply retains_refl | exact Hon].
  - split; [apply retains_mirrored|]. apply has_key_put_self.
Qed.

Local Abbreviation step :=
  (artifact_step client lib transfer_manager sdk_copy_object sdk_delete_object).
Local Abbreviation body :=
  (loop_body client lib transfer_manager sdk_copy_object sdk_delete_object).

Lemma loop_body_steps (exp : Main.Experiment) (root : string)
    (fcs_file : Main.FcsFile) :
  body exp root fcs_file
  = (step RawFile exp root fcs_file ;;
     step FcsGating exp root fcs_file ;;
     step Statistics exp root fcs_file).
Proof. reflexivity. Qed.

Lemma loop_body_Ok (exp : Main.Experiment) (root : string)
    (fcs_file : Main.FcsFile) (st st' : State) :
  body exp root fcs_file st = (Ok tt, st') ->
  retains st st' /\
  forall a, on_s3 (artifact_path a root fcs_file) st' = true.
Proof.
  rewrite loop_body_steps. intros H.
  apply bind_Ok_inv in H as ([] & s1 & H1 & H).
  apply bind_Ok_inv in H as ([] & s2 & H2 & H3).
  apply artifact_step_retains in H1 as [R1 O1].
  apply artifact_step_retains in H2 as [R2 O2].
  apply artifact_step_retains in H3 as [R3 O3].
  split.
  - eapply retains_trans; [exact R1|]. eapply retains_trans; eassumption.
  - intros []; [apply R3, R2, O1 | apply R3, O2 | exact O3].
Qed.

Lemma loop_body_skips (exp : Main.Experiment) (root : string)
    (fcs_file : Main.FcsFile) (st : State) :
  (forall a, on_s3 (artifact_path a root fcs_file) st = true) ->
  body exp root fcs_file st = (Ok tt, st).
Proof.
  intros Hon. rewrite loop_body_steps.
  assert (Hstep : forall a, step a exp root fcs_file st = (Ok tt, st)).
  { intros a. pose proof (artifact_step_shape a exp root fcs_file st) as S.
    cbn zeta in S. rewrite (Hon a) in S. exact S. }
  rewrite (bind_Ok_eq _ _ _ _ _ (Hstep RawFile)).
  rewrite (bind_Ok_eq _ _ _ _ _ (Hstep FcsGating)).
  apply Hstep.
Qed.

Lemma loop_Ok (exp : Main.Experiment) (root : string)
    (fcs_files : list Main.FcsFile) :
  forall st st' : State,
    for_each fcs_files (body exp root) st = (Ok tt, st') ->
    retains st st' /\
    Forall (fun fcs_file =>
              forall a, on_s3 (artifact_path a root fcs_file) st' = true)
           fcs_files.
Proof.
  induction fcs_files as [|f fs IH]; intros st st' H.
  - injection H as <-. split; [apply retains_refl | constructor].
  - cbn [for_each] in H.
    apply bind_Ok_inv in H as ([] & s1 & H1 & H).
    apply loop_body_Ok in H1 as [R1 O1].
    apply IH in H as [R O].
    split; [eapply retains_trans; eassumption|].
    constructor; [|exact O].
    intros a. apply R, O1.
Qed.

Lemma loop_skips (exp : Main.Experiment) (root : string)
    (fcs_files : list Main.FcsFile) (st : State) :
  Forall (fun fcs_file =>
            forall a, on_s3 (artifact_path a root fcs_file) st = true)
         fcs_files ->
  for_each fcs_files (body exp root) st = (Ok tt, st).
Proof.
  induction 1 as [|f fs Hf _ IH]; [reflexivity|].
  cbn [for_each]. rewrite (bind_Ok_eq _ _ _ _ _ (loop_body_skips _ _ _ _ Hf)).
  exact IH.
Qed.

Local Abbreviation export :=
  (Main._download_experiment_files client lib transfer_manager sdk_copy_object
     sdk_delete_object).

Lemma export_unfold (exp : Main.Experiment) :
  export exp
  = (Os.makedirs (exp_root exp) ;;
     Main.global_gating_step client transfer_manager sdk_copy_object
       sdk_delete_object exp (exp_root exp) ;;
     for_each (Main.exp_fcs_files exp) (body exp (exp_root exp))).
Proof. reflexivity. Qed.

Lemma makedirs_root (exp : Main.Experiment) (st : State) :
  Os.makedirs (exp_root exp) st = (Ok tt, logged (EvMakedirs (exp_root exp)) st).
Proof. reflexivity. Qed.

Lemma all_mirrored_retains (exp : Main.Experiment) (st st' : State) :
  retains st st' -> all_mirrored exp st -> all_mirrored exp st'.
Proof.
  unfold all_mirrored. intros R H.
  eapply Forall_impl; [exact H|]. intros f Hf a. apply R, Hf.
Qed.

(** An export that returns normally had its global gating definition
    fetched and uploaded without error, kept what was on the store and
    left every artifact of every raw file on the store. *)
Lemma export_Ok (exp : Main.Experiment) (st st' : State) :
  export exp st = (Ok tt, st') ->
  (exists raw, ClientExt.client_get client (Main.global_gatingml_url client exp)
               = Ok raw) /\
  transfer_manager (mirror_upload (Main.global_gatingml_path exp (exp_root exp)))
    = None /\
  retains st st' /\
  all_mirrored exp st'.
Proof.
  rewrite export_unfold. intros H.
  rewrite (bind_Ok_eq _ _ _ _ _ (makedirs_root exp st)) in H.
  apply bind_Ok_inv in H as ([] & s1 & H1 & H).
  rewrite global_gating_step_eq in H1. cbn zeta in H1.
  destruct (ClientExt.client_get client _) as [raw|e]; [|discriminate H1].
  destruct (transfer_manager _); [discriminate H1|].
  injection H1 as <-.
  apply loop_Ok in H as [R O].
  split; [exists raw; reflexivity|]. split; [reflexivity|]. split; [|exact O].
  intros prefix Hp. apply R. simpl. apply has_key_put. exact Hp.
Qed.

(** An export over a store that holds every artifact of every raw file
    only handles the global gating definition. *)
Lemma export_all_mirrored (exp : Main.Experiment) (raw : string) (st : State) :
  ClientExt.client_get client (Main.global_gatingml_url client exp) = Ok raw ->
  transfer_manager (mirror_upload (Main.global_gatingml_path exp (exp_root exp)))
    = None ->
  all_mirrored exp st ->
  let f_path := Main.global_gatingml_path exp (exp_root exp) in
  export exp st
  = (Ok tt,
     uploaded f_path
       (written f_path
          (logged (EvGet (Main.global_gatingml_url client exp))
             (logged (EvMakedirs (exp_root exp)) st)))).
Proof.
  intros Hget Htm Hall. cbn zeta. rewrite export_unfold.
  rewrite (bind_Ok_eq _ _ _ _ _ (makedirs_root exp st)).
  erewrite bind_Ok_eq;
    [|rewrite global_gating_step_eq; cbn zeta; rewrite Hget, Htm; reflexivity].
  apply loop_skips.
  eapply Forall_impl; [exact Hall|]. intros f Hf a.
  unfold on_s3. simpl. apply has_key_put. apply Hf.
Qed.

Lemma events_of_eq {A} (m : M A) (st st' : State) (r : result A)
    (evs : list event) :
  m st = (r, st') -> trace st' = (trace st ++ evs)%list -> events_of m st = evs.
Proof.
  intros Hm Ht. unfold events_of. rewrite Hm. simpl. rewrite Ht.
  apply drop_app_length.
Qed.



(** C6, amended: each of the three artifacts of a raw-data file (the raw
    file, its gating definition, its statistics) is skipped when it is at
    its mirrored destination, and is otherwise uploaded right after its
    download and its local copy removed; the global gating definition is
    downloaded and uploaded on every run, and its local copy is kept. *)
Theorem artifacts_skipped_or_mirrored (exp : Main.Experiment) (root : string)
    (fcs_file : Main.FcsFile) (st : State) :
  (forall a,
      let f_path := artifact_path a root fcs_file in
      (on_s3 f_path st = true -> step a exp root fcs_file st = (Ok tt, st)) /\
      (on_s3 f_path st = false ->
       forall st',
         step a exp root fcs_file st = (Ok tt, st') ->
         events_of (step a exp root fcs_file) st
           = [ artifact_request client a exp fcs_file; EvWrite f_path;
               EvSubmit (mirror_upload f_path); EvResult (mirror_upload f_path);
               EvRemove f_path ] /\
         mirror_key f_path ∈ objects st' /\
         f_path ∉ files st')) /\
  (forall st',
      let f_path := Main.global_gatingml_path exp root in
      let global_gating_step :=
        Main.global_gating_step client transfer_manager sdk_copy_object
          sdk_delete_object exp root in
      global_gating_step st = (Ok tt, st') ->
      events_of global_gating_step st
        = [ EvGet (Main.global_gatingml_url client exp); EvWrite f_path;
            EvSubmit (mirror_upload f_path); EvResult (mirror_upload f_path) ] /\
      mirror_key f_path ∈ objects st' /\
      f_path ∈ files st').
Proof.
  split.
  - intros a. cbn zeta. split.
    + intros Hon.
      pose proof (artifact_step_shape a exp root fcs_file st) as S.
      cbn zeta in S. rewrite Hon in S. exact S.
    + intros Hoff st' H.
      pose proof H as H'.
      apply artifact_step_Ok in H' as [[Hon _]|[_ ->]]; [congruence|].
      split; [|split].
      * eapply events_of_eq; [exact H|]. simpl. rewrite <- !app_assoc. reflexivity.
      * simpl. apply elem_of_put_self.
      * simpl. apply not_elem_of_del.
  - intros st'. cbn zeta. intros H. pose proof H as H'.
    rewrite global_gating_step_eq in H'. cbn zeta in H'.
    destruct (ClientExt.client_get client _) as [raw|e]; [|discriminate H'].
    destruct (transfer_manager _); [discriminate H'|].
    injection H' as <-. split; [|split].
    + eapply events_of_eq; [exact H|]. simpl. rewrite <- !app_assoc. reflexivity.
    + simpl. apply elem_of_put_self.
    + simpl. apply elem_of_put_self.
Qed.

(** C5: a second export over a store that kept what the first one left
    transfers no raw-data file and no per-file gating definition.  A raw
    file or per-file gating definition found at its mirrored destination
    is not downloaded and, the path being [None], not uploaded; and after
    an export of [exp] that returned normally, an export over any store
    that retains its objects consists of the directory creation and the
    global gating definition alone. *)
Theorem second_export_skips_raw_files_and_gating (exp : Main.Experiment)
    (st0 st1 st : State) :
  export exp st0 = (Ok tt, st1) ->
  retains st1 st ->
  (forall (s : State) (root : string) (fcs_file : Main.FcsFile),
      (on_s3 (Main.fcs_file_path root fcs_file) s = true ->
       Main._download_file client exp root fcs_file s = (Ok None, s)) /\
      (on_s3 (Main.fcs_gatingml_path root fcs_file) s = true ->
       Main._download_fcs_gating_ml client exp root fcs_file s = (Ok None, s)) /\
      Main._upload_to_s3 transfer_manager sdk_copy_object sdk_delete_object
        None true s = (Ok tt, s)) /\
  all_mirrored exp st /\
  (exists st2, export exp st = (Ok tt, st2)) /\
  events_of (export exp) st
    = EvMakedirs (exp_root exp) :: global_gating_events client exp.
Proof.
  intros Hfirst Hret. split; [|split].
  - intros s root fcs_file. split; [|split].
    + intros Hon. unfold Main._download_file.
      rewrite (bind_Ok_eq _ _ _ _ _ (check_s3_exists_eq _ s)), Hon. reflexivity.
    + intros Hon. unfold Main._download_fcs_gating_ml.
      rewrite (bind_Ok_eq _ _ _ _ _ (check_s3_exists_eq _ s)), Hon. reflexivity.
    + reflexivity.
  - apply export_Ok in Hfirst as (_ & _ & _ & Hall).
    eapply all_mirrored_retains; eassumption.
  - apply export_Ok in Hfirst as ((raw & Hget) & Htm & _ & Hall).
    pose proof (export_all_mirrored exp raw st Hget Htm
                  (all_mirrored_retains exp st1 st Hret Hall)) as Hrun.
    cbn zeta in Hrun. split; [eexists; exact Hrun|].
    eapply events_of_eq; [exact Hrun|].
    simpl. rewrite <- !app_assoc. reflexivity.
Qed.

End OrchestratorSteps.

(* ===================================================================== *)
(** ** The claims on concrete runs *)
(* ===================================================================== *)

Example overriding_args_payload :
  ClientExt.req_params Scenario.overriding_args
  = list_to_map
      [ ("statistics", PList [PStr "mean"]);
        ("channels", PList [PStr "FSC-A"]);
        ("annotations", PBool false);
        ("compensationId", PInt 0);
        ("format", PStr "json");
        ("layout", PStr "tall-skinny");
        ("ids", PBool true) ].
Proof. vm_compute. reflexivity. Qed.

Lemma get_statistics_payload_witness :
  events_of (ClientExt.get_statistics Scenario.decoders Scenario.api "e1"
               Scenario.overriding_args) Scenario.empty_store
    = [EvPost (ClientExt.bulkstatistics_url Scenario.api "e1")
              (ClientExt.req_params Scenario.overriding_args)] /\
  ClientExt.req_params Scenario.overriding_args !! "layout"
    = Some (PStr "tall-skinny") /\
  ClientExt.req_params Scenario.overriding_args !! "statistics"
    = Some (PList [PStr "mean"]) /\
  ClientExt.req_params Scenario.overriding_args !! "format"
    = Some (PStr "json").
Proof.
  split; [|split; [|split]].
  - apply (proj1 (get_statistics_payload Scenario.decoders Scenario.api "e1"
                    Scenario.overriding_args Scenario.empty_store)).
    reflexivity.
  - apply (proj2 (get_statistics_payload Scenario.decoders Scenario.api "e1"
                    Scenario.overriding_args Scenario.empty_store)).
    split; [discriminate|]. left. vm_compute. reflexivity.
  - apply (proj2 (get_statistics_payload Scenario.decoders Scenario.api "e1"
                    Scenario.overriding_args Scenario.empty_store)).
    split; [discriminate|]. right. split; [vm_compute; reflexivity|].
    apply list_elem_of_here.
  - apply (proj2 (get_statistics_payload Scenario.decoders Scenario.api "e1"
                    Scenario.overriding_args Scenario.empty_store)).
    split; [discriminate|]. right. split; [vm_compute; reflexivity|].
    do 6 apply list_elem_of_further. apply list_elem_of_here.
Defined.



(** C6, as stated, fails: the global gating definition is not skipped
    when it is at its mirrored destination. *)
Lemma global_gating_is_not_skipped :
  ~ skipped_when_mirrored
      (Main.global_gating_step Scenario.api Scenario.transfers_ok
         Scenario.copies_ok Scenario.deletes_ok Scenario.E1 "data/E1")
      (Main.global_gatingml_path Scenario.E1 "data/E1")
      Scenario.after_first_run.
Proof.
  intros H.
  assert (Hon : on_s3 (Main.global_gatingml_path Scenario.E1 "data/E1")
                  Scenario.after_first_run = true) by (vm_compute; reflexivity).
  apply H in Hon. vm_compute in Hon. discriminate Hon.
Qed.

Lemma artifacts_skipped_or_mirrored_witness :
  artifact_step Scenario.api Scenario.decoders Scenario.transfers_ok
    Scenario.copies_ok Scenario.deletes_ok RawFile Scenario.E1 "data/E1"
    Scenario.A_fcs Scenario.after_first_run
  = (Ok tt, Scenario.after_first_run) /\
  (events_of
     (artifact_step Scenario.api Scenario.decoders Scenario.transfers_ok
        Scenario.copies_ok Scenario.deletes_ok FcsGating Scenario.E1 "data/E1"
        Scenario.A_fcs) Scenario.empty_store
   = [ EvGet "https://ce/api/v1/experiments/e1.gatingml?fcsFileId=f1";
       EvWrite "data/E1/A.gatingml";
       EvSubmit (Upload "data/E1/A.gatingml" "CellEngine/data/E1/A.gatingml");
       EvResult (Upload "data/E1/A.gatingml" "CellEngine/data/E1/A.gatingml");
       EvRemove "data/E1/A.gatingml" ] /\
   "CellEngine/data/E1/A.gatingml"
     ∈ objects (snd (artifact_step Scenario.api Scenario.decoders
                       Scenario.transfers_ok Scenario.copies_ok
                       Scenario.deletes_ok FcsGating Scenario.E1 "data/E1"
                       Scenario.A_fcs Scenario.empty_store)) /\
   "data/E1/A.gatingml"
     ∉ files (snd (artifact_step Scenario.api Scenario.decoders
                     Scenario.transfers_ok Scenario.copies_ok
                     Scenario.deletes_ok FcsGating Scenario.E1 "data/E1"
                     Scenario.A_fcs Scenario.empty_store))) /\
  (events_of
     (Main.global_gating_step Scenario.api Scenario.transfers_ok
        Scenario.copies_ok Scenario.deletes_ok Scenario.E1 "data/E1")
     Scenario.after_first_run
   = [ EvGet "https://ce/api/v1/experiments/e1.gatingml";
       EvWrite "data/E1/E1_global.gatingml";
       EvSubmit (mirror_upload "data/E1/E1_global.gatingml");
       EvResult (mirror_upload "data/E1/E1_global.gatingml") ] /\
   "CellEngine/data/E1/E1_global.gatingml"
     ∈ objects (snd (Main.global_gating_step Scenario.api Scenario.transfers_ok
                       Scenario.copies_ok Scenario.deletes_ok Scenario.E1
                       "data/E1" Scenario.after_first_run)) /\
   "data/E1/E1_global.gatingml"
     ∈ files (snd (Main.global_gating_step Scenario.api Scenario.transfers_ok
                     Scenario.copies_ok Scenario.deletes_ok Scenario.E1
                     "data/E1" Scenario.after_first_run))).
Proof.
  split; [|split].
  - apply (proj1 (proj1 (artifacts_skipped_or_mirrored Scenario.api
                           Scenario.decoders Scenario.transfers_ok
                           Scenario.copies_ok Scenario.deletes_ok Scenario.E1
                           "data/E1" Scenario.A_fcs Scenario.after_first_run)
                    RawFile)).
    vm_compute. reflexivity.
  - apply (proj2 (proj1 (artifacts_skipped_or_mirrored Scenario.api
                           Scenario.decoders Scenario.transfers_ok
                           Scenario.copies_ok Scenario.deletes_ok Scenario.E1
                           "data/E1" Scenario.A_fcs Scenario.empty_store)
                    FcsGating)).
    + reflexivity.
    + vm_compute. reflexivity.
  - apply (proj2 (artifacts_skipped_or_mirrored Scenario.api
                    Scenario.decoders Scenario.transfers_ok
                    Scenario.copies_ok Scenario.deletes_ok Scenario.E1
                    "data/E1" Scenario.A_fcs Scenario.after_first_run)).
    vm_compute. reflexivity.
Defined.

Lemma second_export_skips_raw_files_and_gating_witness :
  all_mirrored Scenario.E1 Scenario.retained_store /\
  (exists st2, Scenario.export_E1 Scenario.retained_store = (Ok tt, st2)) /\
  events_of Scenario.export_E1 Scenario.retained_store
    = [ EvMakedirs "data/E1";
        EvGet "https://ce/api/v1/experiments/e1.gatingml";
        EvWrite "data/E1/E1_global.gatingml";
        EvSubmit (mirror_upload "data/E1/E1_global.gatingml");
        EvResult (mirror_upload "data/E1/E1_global.gatingml") ].
Proof.
  apply (second_export_skips_raw_files_and_gating Scenario.api Scenario.decoders
           Scenario.transfers_ok Scenario.copies_ok Scenario.deletes_ok
           Scenario.E1 Scenario.empty_store Scenario.after_first_run
           Scenario.retained_store).
  - vm_compute. reflexivity.
  - intros prefix H. exact H.
Defined.

(* ===================================================================== *)
(** ** Further properties of the gateway *)
(* ===================================================================== *)

Lemma for_each_skip {A} (body : A -> M unit) (l : list A) (st : State) :
  (forall x, body x st = (Ok tt, st)) -> for_each l body st = (Ok tt, st).
Proof.
  intros Hbody. induction l as [|x l IH]; [reflexivity|].
  cbn [for_each]. rewrite (bind_Ok_eq _ _ _ _ _ (Hbody x)). exact IH.
Qed.

(** X1: in dry-run mode no upload, copy, move or delete reaches the
    store: the single-object and the directory operations return with
    the state as it was.  Downloads are not gated by the mode. *)
Theorem dry_run_reaches_no_store (self : S3.S3FilesLoader) (st : State) :
  S3.dry_run self = true ->
  (forall from_filename to_f_key,
      S3.upload_file self from_filename to_f_key st = (Ok tt, st)) /\
  (forall from_filename to_f_key,
      S3.add_to_upload_future self from_filename to_f_key st = (Ok tt, st)) /\
  (forall from_f_key to_f_key to_bucket,
      S3.copy_file self from_f_key to_f_key to_bucket st = (Ok tt, st)) /\
  (forall from_f_key to_f_key to_bucket,
      S3.move_file self from_f_key to_f_key to_bucket st = (Ok tt, st)) /\
  (forall f_key, S3.delete_file self f_key st = (Ok tt, st)) /\
  (forall from_dir_key to_dir_key to_bucket,
      S3.copy_dir self from_dir_key to_dir_key to_bucket st = (Ok tt, st)) /\
  (forall from_dir_key to_dir_key to_bucket max_obj_count,
      snd (S3.move_dir self from_dir_key to_dir_key to_bucket max_obj_count st)
      = st) /\
  (forall dir_key max_obj_count,
      snd (S3.delete_dir self dir_key max_obj_count st) = st) /\
  (forall from_f_key to_filename,
      events_of (S3.download_file self from_f_key to_filename) st
      = [ EvSubmit (Download from_f_key to_filename);
          EvResult (Download from_f_key to_filename) ]).
Proof.
  intros Hdry.
  assert (Hnot : S3.is_not_dry_run self = false)
    by (unfold S3.is_not_dry_run; rewrite Hdry; reflexivity).
  assert (Hcopy : forall f t b, S3.copy_file self f t b st = (Ok tt, st))
    by (intros; unfold S3.copy_file; rewrite Hnot; reflexivity).
  assert (Hmove : forall f t b, S3.move_file self f t b st = (Ok tt, st)).
  { intros. unfold S3.move_file. rewrite Hnot.
    destruct (String.eqb _ _); reflexivity. }
  assert (Hdel : forall k, S3.delete_file self k st = (Ok tt, st))
    by (intros; unfold S3.delete_file; rewrite Hnot; reflexivity).
  repeat split.
  - intros. unfold S3.upload_file. rewrite Hnot. reflexivity.
  - intros. unfold S3.add_to_upload_future. rewrite Hnot. reflexivity.
  - exact Hcopy.
  - exact Hmove.
  - exact Hdel.
  - intros. unfold S3.copy_dir.
    rewrite (bind_Ok_eq _ _ _ _ _ (eq_refl : S3.bucket_filter _ st = (Ok _, st))).
    apply for_each_skip. intros key. apply Hcopy.
  - intros. unfold S3.move_dir.
    rewrite (bind_Ok_eq _ _ _ _ _ (eq_refl : S3.bucket_filter _ st = (Ok _, st))).
    destruct (_ <? _); [reflexivity|].
    rewrite for_each_skip; [reflexivity|]. intros key. apply Hmove.
  - intros. unfold S3.delete_dir.
    destruct (String.eqb dir_key "/"); [reflexivity|].
    rewrite (bind_Ok_eq _ _ _ _ _ (eq_refl : S3.bucket_filter _ st = (Ok _, st))).
    destruct (_ <? _); [reflexivity|].
    rewrite for_each_skip; [reflexivity|]. intros key. apply Hdel.
  - intros. unfold events_of, S3.download_file, S3.submit, S3.future_result,
      bind, log, ret, raise, S3.transfer_done. cbn.
    destruct (S3.s3_transfer_manager self _); cbn;
      rewrite <- app_assoc; apply drop_app_length.
Qed.

Lemma dry_run_reaches_no_store_witness :
  S3.delete_dir Scenario.rehearsal "a" None Scenario.bucket_a
    = (Ok tt, Scenario.bucket_a) /\
  S3.move_dir Scenario.rehearsal "a" "z" None None Scenario.bucket_a
    = (Ok tt, Scenario.bucket_a).
Proof.
  pose proof (dry_run_reaches_no_store Scenario.rehearsal Scenario.bucket_a
                eq_refl) as (_ & _ & _ & _ & _ & _ & Hmove & Hdel & _).
  split.
  - specialize (Hdel "a" None). revert Hdel. vm_compute. intros _. reflexivity.
  - specialize (Hmove "a" "z" None None). revert Hmove. vm_compute.
    intros _. reflexivity.
Defined.

(** X2: [check_exists] answers by prefix and leaves the state alone: it
    is true exactly when some key of the bucket starts with [f_key],
    which need not be [f_key] itself. *)
Theorem check_exists_is_a_prefix_test (f_key : string) (st : State) :
  exists found : bool,
    S3.check_exists f_key st = (Ok found, st) /\
    (found = true <->
     exists key, key ∈ objects st /\ PyStr.startswith f_key key = true).
Proof.
  exists (has_key f_key (objects st)). split.
  - unfold S3.check_exists, S3.list_objects_v2, bind, ret, has_key.
    destruct (List.filter _ (objects st)); reflexivity.
  - rewrite has_key_true. split; intros (key & Hin & Hk); exists key;
      (split; [apply list_elem_of_In; exact Hin | exact Hk]).
Qed.

(** X3: [move_file] between different paths, outside dry-run mode: when
    [copy_object] raises or answers another status than 200, the move
    fails and the bucket is as it was (the source is kept); when it
    answers 200 and the delete succeeds, the source key is gone and,
    within the same bucket, the destination key is there. *)
Theorem move_file_keeps_source_unless_copied (self : S3.S3FilesLoader)
    (from_f_key to_f_key : string) (to_bucket : option string) (st : State) :
  let bucket := S3.bucket_or_own self to_bucket in
  let copy := EvCopyObject from_f_key bucket to_f_key in
  S3.dry_run self = false ->
  String.eqb (S3.bucket_name self +:+ "/" +:+ from_f_key)
             (bucket +:+ "/" +:+ to_f_key) = false ->
  (forall e,
      S3.s3_client_copy_object self from_f_key bucket to_f_key = Raise e ->
      S3.move_file self from_f_key to_f_key to_bucket st
      = (Raise e, logged copy st)) /\
  (forall status,
      S3.s3_client_copy_object self from_f_key bucket to_f_key = Ok status ->
      status <> 200 ->
      exists msg,
        S3.move_file self from_f_key to_f_key to_bucket st
        = (Raise (PyException msg), logged copy st)) /\
  (S3.s3_client_copy_object self from_f_key bucket to_f_key = Ok 200 ->
   S3.s3_client_delete_object self from_f_key = None ->
   exists st',
     S3.move_file self from_f_key to_f_key to_bucket st = (Ok tt, st') /\
     trace st' = (trace st ++ [copy; EvDeleteObject from_f_key])%list /\
     (from_f_key ∉ objects st') /\
     (bucket = S3.bucket_name self -> to_f_key ∈ objects st')).
Proof.
  cbn zeta. intros Hdry Hpaths.
  assert (Hnot : S3.is_not_dry_run self = true)
    by (unfold S3.is_not_dry_run; rewrite Hdry; reflexivity).
  unfold S3.move_file. rewrite Hpaths, Hnot.
  unfold S3.copy_object.
  split; [|split].
  - intros e He. rewrite bind_assoc.
    rewrite (bind_Ok_eq _ _ _ _ _ (eq_refl : log _ st = (Ok tt, logged _ st))).
    rewrite He. reflexivity.
  - intros status Hs Hne. rewrite bind_assoc.
    rewrite (bind_Ok_eq _ _ _ _ _ (eq_refl : log _ st = (Ok tt, logged _ st))).
    rewrite Hs. apply Z.eqb_neq in Hne. unfold bind. rewrite Hne. cbn.
    rewrite Hne. eexists. reflexivity.
  - intros Hs Hd. rewrite bind_assoc.
    rewrite (bind_Ok_eq _ _ _ _ _ (eq_refl : log _ st = (Ok tt, logged _ st))).
    rewrite Hs. unfold bind, S3.delete_object, bind, log, raise. cbn.
    rewrite Hd.
    destruct (String.eqb (S3.bucket_or_own self to_bucket) (S3.bucket_name self))
      eqn:Hb; cbn.
    + eexists. split; [reflexivity|]. cbn. split; [|split].
      * rewrite <- app_assoc. reflexivity.
      * apply not_elem_of_del.
      * intros _. unfold del. apply list_elem_of_filter. split.
        -- intros ->. apply String.eqb_eq in Hb. rewrite Hb in Hpaths.
           rewrite String.eqb_refl in Hpaths. discriminate Hpaths.
        -- apply elem_of_put_self.
    + eexists. split; [reflexivity|]. cbn. split; [|split].
      * rewrite <- app_assoc. reflexivity.
      * apply not_elem_of_del.
      * intros Hb'. rewrite Hb', String.eqb_refl in Hb. discriminate Hb.
Qed.

Lemma move_file_keeps_source_unless_copied_witness :
  (exists msg,
     S3.move_file Scenario.copy_refused "a/x" "z/x" None Scenario.bucket_a
     = (Raise (PyException msg),
        logged (EvCopyObject "a/x" "bucket" "z/x") Scenario.bucket_a)) /\
  (exists st',
     S3.move_file Scenario.sound "a/x" "z/x" None Scenario.bucket_a = (Ok tt, st') /\
     trace st' = [EvCopyObject "a/x" "bucket" "z/x"; EvDeleteObject "a/x"] /\
     ("a/x" ∉ objects st') /\
     ("bucket" = "bucket" -> "z/x" ∈ objects st')).
Proof.
  split.
  - apply (proj1 (proj2 (move_file_keeps_source_unless_copied
                           Scenario.copy_refused "a/x" "z/x" None
                           Scenario.bucket_a eq_refl eq_refl)) 500).
    + reflexivity.
    + lia.
  - apply (proj2 (proj2 (move_file_keeps_source_unless_copied
                           Scenario.sound "a/x" "z/x" None
                           Scenario.bucket_a eq_refl eq_refl))).
    + reflexivity.
    + reflexivity.
Defined.

Lemma replace_scan_skip (old new t r : string) :
  PyStr.replace_scan old new (String.length t) (t +:+ r)
  = PyStr.replace_scan old new O r.
Proof.
  induction t as [|c t IH]; [destruct r; reflexivity|].
  cbn. exact IH.
Qed.

Lemma replace_scan_absent (old new r : string) :
  PyStr.contains old r = false -> PyStr.replace_scan old new O r = r.
Proof.
  induction r as [|c r IH]; intros H; [reflexivity|].
  cbn [PyStr.contains] in H. apply orb_false_iff in H as [Hp Hc].
  cbn [PyStr.replace_scan]. rewrite Hp, (IH Hc). reflexivity.
Qed.

(** X4: [str.replace] on a key that starts with a non-empty prefix
    replaces that prefix and goes on in the remainder; so the path
    [download_dir] builds is the target directory followed by the
    remainder exactly when the prefix does not occur again in it. *)
Theorem replace_substitutes_prefix_then_remainder (old new r : string) :
  old <> "" ->
  PyStr.replace old new (old +:+ r) = new +:+ PyStr.replace old new r /\
  (PyStr.contains old r = false ->
   PyStr.replace old new (old +:+ r) = new +:+ r).
Proof.
  intros Hne. destruct old as [|a o]; [contradiction|].
  assert (Hhead : PyStr.replace (String a o) new (String a o +:+ r)
                  = new +:+ PyStr.replace (String a o) new r).
  { unfold PyStr.replace.
    change (String a o +:+ r) with (String a (o +:+ r)).
    cbn [PyStr.replace_scan].
    change (String a (o +:+ r)) with (String a o +:+ r).
    rewrite prefix_app. cbn [String.length Nat.pred].
    rewrite replace_scan_skip. reflexivity. }
  split; [exact Hhead|].
  intros Habs. rewrite Hhead. unfold PyStr.replace.
  rewrite (replace_scan_absent _ _ _ Habs). reflexivity.
Qed.

Lemma replace_substitutes_prefix_then_remainder_witness :
  PyStr.replace "a/" "b/" ("a/" +:+ "x/a.txt") = "b/" +:+ "x/a.txt".
Proof.
  apply (proj2 (replace_substitutes_prefix_then_remainder "a/" "b/" "x/a.txt"
                  ltac:(discriminate))).
  reflexivity.
Defined.

(* ===================================================================== *)
(** ** Relations every run of an operation keeps *)
(* ===================================================================== *)
Section Keeps.

Variable R : State -> State -> Prop.
Hypothesis R_refl : forall st, R st st.
Hypothesis R_trans : forall st1 st2 st3, R st1 st2 -> R st2 st3 -> R st1 st3.

Lemma keeps_ret {A} (a : A) : keeps R (ret a).
Proof. intros st. apply R_refl. Qed.

Lemma keeps_raise {A} (e : exn) : keeps R (@raise A e).
Proof. intros st. apply R_refl. Qed.

Lemma keeps_bind {A B} (m : M A) (k : A -> M B) :
  keeps R m -> (forall a, keeps R (k a)) -> keeps R (bind m k).
Proof.
  intros Hm Hk st. unfold bind. specialize (Hm st).
  destruct (m st) as [[a|e] st1]; simpl in Hm |- *; [|exact Hm].
  eapply R_trans; [exact Hm | apply Hk].
Qed.

Lemma keeps_for_each {A} (body : A -> M unit) (l : list A) :
  (forall x, keeps R (body x)) -> keeps R (for_each l body).
Proof.
  intros Hbody. induction l as [|x l IH]; [apply keeps_ret|].
  cbn [for_each]. apply keeps_bind; [apply Hbody | intros _; exact IH].
Qed.

Lemma keeps_lift {A} (r : result A) : keeps R (ClientExt.lift r).
Proof. destruct r; [apply keeps_ret | apply keeps_raise]. Qed.

End Keeps.

Lemma grows_by_refl (P : event -> Prop) (st : State) : grows_by P st st.
Proof.
  split; [auto|]. split; [reflexivity|].
  exists []. rewrite app_nil_r. split; [reflexivity | constructor].
Qed.

Lemma grows_by_trans (P : event -> Prop) (st1 st2 st3 : State) :
  grows_by P st1 st2 -> grows_by P st2 st3 -> grows_by P st1 st3.
Proof.
  intros (O1 & Q1 & evs1 & T1 & F1) (O2 & Q2 & evs2 & T2 & F2).
  split; [auto|]. split; [congruence|].
  exists (evs1 ++ evs2)%list. split.
  - rewrite T2, T1, <- app_assoc. reflexivity.
  - apply Forall_app. split; assumption.
Qed.

Lemma grows_by_log (P : event -> Prop) (e : event) :
  P e -> keeps (grows_by P) (log e).
Proof.
  intros He st. split; [auto|]. split; [reflexivity|].
  exists [e]. split; [reflexivity | repeat constructor; exact He].
Qed.

Lemma grows_by_events {A} (P : event -> Prop) (m : M A) (st : State) :
  grows_by P st (snd (m st)) -> Forall P (events_of m st).
Proof.
  intros (_ & _ & evs & Ht & HP). unfold events_of.
  rewrite Ht, drop_app_length. exact HP.
Qed.

Lemma elem_of_put (k x : string) (l : list string) : x ∈ l -> x ∈ put k l.
Proof. intros H. apply list_elem_of_In, In_put. right. apply list_elem_of_In, H. Qed.

Lemma copy_object_grows (self : S3.S3FilesLoader) (to_bucket from_f_key to_f_key : string) :
  keeps (grows_by is_copy) (S3.copy_object self to_bucket from_f_key to_f_key).
Proof.
  unfold S3.copy_object.
  apply keeps_bind;
    [apply grows_by_trans | apply grows_by_log; exact I |].
  intros _. destruct (S3.s3_client_copy_object self _ _ _) as [status|e];
    [|apply keeps_raise; apply grows_by_refl].
  intros st. destruct (_ && _); [|apply grows_by_refl]. cbn.
  split; [intros k; apply elem_of_put|]. split; [reflexivity|].
  exists []. rewrite app_nil_r. split; [reflexivity | constructor].
Qed.

(** X5: [copy_dir] never removes an object and calls nothing but
    [copy_object]: however a run ends, every key the bucket held is still
    there, and the calls made are server-side copies only. *)
Theorem copy_dir_only_copies (self : S3.S3FilesLoader)
    (from_dir_key to_dir_key : string) (to_bucket : option string) (st : State) :
  let run := S3.copy_dir self from_dir_key to_dir_key to_bucket in
  (forall k, k ∈ objects st -> k ∈ objects (snd (run st))) /\
  Forall is_copy (events_of run st).
Proof.
  cbn zeta.
  assert (H : keeps (grows_by is_copy)
                (S3.copy_dir self from_dir_key to_dir_key to_bucket)).
  { unfold S3.copy_dir.
    apply keeps_bind; [apply grows_by_trans | |].
    - intros s. apply grows_by_refl.
    - intros objs. apply keeps_for_each;
        [apply grows_by_refl | apply grows_by_trans |].
      intros key. unfold S3.copy_file.
      destruct (S3.is_not_dry_run self);
        [|apply keeps_ret; apply grows_by_refl].
      apply keeps_bind; [apply grows_by_trans | apply copy_object_grows |].
      intros _. apply keeps_ret. apply grows_by_refl. }
  split.
  - exact (proj1 (H st)).
  - apply grows_by_events. apply H.
Qed.

Lemma elem_of_del (k x : string) (l : list string) :
  x ∈ del k l <-> x ∈ l /\ x <> k.
Proof. unfold del. rewrite list_elem_of_filter. tauto. Qed.

(** Deleting the keys [keys] one by one, all deletes succeeding. *)
Lemma delete_each (self : S3.S3FilesLoader) (keys : list string) :
  S3.dry_run self = false ->
  (forall k, k ∈ keys -> S3.s3_client_delete_object self k = None) ->
  forall st : State,
  exists st',
    for_each keys (S3.delete_file self) st = (Ok tt, st') /\
    (forall x, x ∈ objects st' <-> x ∈ objects st /\ x ∉ keys) /\
    trace st' = (trace st ++ map EvDeleteObject keys)%list.
Proof.
  intros Hdry. induction keys as [|k keys IH]; intros Hok st.
  - exists st. split; [reflexivity|]. split.
    + intros x. split; [intros H; split; [exact H | apply not_elem_of_nil]|tauto].
    + simpl. rewrite app_nil_r. reflexivity.
  - assert (Hk : S3.delete_file self k st
                 = (Ok tt, set_objects (del k (objects st))
                             (logged (EvDeleteObject k) st))).
    { unfold S3.delete_file, S3.is_not_dry_run. rewrite Hdry. cbn [negb].
      unfold S3.delete_object.
      rewrite (bind_Ok_eq _ _ _ _ _ (eq_refl : log _ st = (Ok tt, logged _ st))).
      rewrite (Hok k (list_elem_of_here _ _)). reflexivity. }
    destruct (IH (fun x Hx => Hok x (list_elem_of_further _ _ _ Hx))
                 (set_objects (del k (objects st)) (logged (EvDeleteObject k) st)))
      as (st' & Hrun & Hobj & Htr).
    exists st'. split; [|split].
    + cbn [for_each]. rewrite (bind_Ok_eq _ _ _ _ _ Hk). exact Hrun.
    + intros x. rewrite Hobj. cbn. rewrite elem_of_del, elem_of_cons. tauto.
    + rewrite Htr. cbn. rewrite <- app_assoc. reflexivity.
Qed.

(** X6: a [delete_dir] that is let through (not dry-run, a key other than
    ["/"], no more objects than the cap) and whose deletes all succeed
    returns normally, after one [delete_object] per listed key; then no
    key under the prefix is left and every other key is still there. *)
Theorem delete_dir_empties_the_prefix (self : S3.S3FilesLoader)
    (dir_key : string) (max_obj_count : option Z) (st : State) :
  S3.dry_run self = false ->
  String.eqb dir_key "/" = false ->
  Z.of_nat (length (listed dir_key st)) <= default 30 max_obj_count ->
  (forall k, k ∈ listed dir_key st -> S3.s3_client_delete_object self k = None) ->
  exists st',
    S3.delete_dir self dir_key max_obj_count st = (Ok tt, st') /\
    listed dir_key st' = [] /\
    (forall k, k ∈ objects st -> PyStr.startswith dir_key k = false ->
               k ∈ objects st') /\
    trace st' = (trace st ++ map EvDeleteObject (listed dir_key st))%list.
Proof.
  intros Hdry Hroot Hcap Hok.
  destruct (delete_each self (listed dir_key st) Hdry Hok st)
    as (st' & Hrun & Hobj & Htr).
  exists st'. split; [|split; [|split]].
  - unfold S3.delete_dir, S3.delete_dir_max_obj_count. rewrite Hroot.
    rewrite (bind_Ok_eq _ _ _ _ _ (eq_refl : S3.bucket_filter _ st = (Ok _, st))).
    fold (listed dir_key st).
    destruct (_ <? _) eqn:E; [apply Z.ltb_lt in E; lia|]. exact Hrun.
  - unfold listed at 1.
    destruct (List.filter _ (objects st')) as [|x l] eqn:E; [reflexivity|].
    assert (Hx : In x (List.filter (PyStr.startswith dir_key) (objects st')))
      by (rewrite E; left; reflexivity).
    apply filter_In in Hx as [Hin Hpre].
    apply list_elem_of_In, Hobj in Hin as [Hin Hnot].
    exfalso. apply Hnot. apply list_elem_of_In, filter_In.
    split; [apply list_elem_of_In; exact Hin | exact Hpre].
  - intros k Hin Hpre. apply Hobj. split; [exact Hin|].
    intros Hl. apply list_elem_of_In, filter_In in Hl as [_ Hl]. congruence.
  - exact Htr.
Qed.

Lemma delete_dir_empties_the_prefix_witness :
  exists st',
    S3.delete_dir Scenario.sound "a" None Scenario.bucket_a = (Ok tt, st') /\
    listed "a" st' = [] /\
    (forall k, k ∈ objects Scenario.bucket_a -> PyStr.startswith "a" k = false ->
               k ∈ objects st') /\
    trace st' = [EvDeleteObject "a/w"; EvDeleteObject "a/x"; EvDeleteObject "a/y"].
Proof.
  apply (delete_dir_empties_the_prefix Scenario.sound "a" None Scenario.bucket_a).
  - reflexivity.
  - reflexivity.
  - vm_compute. discriminate.
  - intros k _. reflexivity.
Defined.

(* ===================================================================== *)
(** ** Directory transfers: what is asked for, and in which order *)
(* ===================================================================== *)

Lemma enqueued_nil (self : S3.S3FilesLoader) (st : State) :
  enqueued self [] st = st.
Proof.
  unfold enqueued. simpl. rewrite !app_nil_r. destruct st; reflexivity.
Qed.

Lemma enqueued_app (self : S3.S3FilesLoader) (ts1 ts2 : list transfer) (st : State) :
  enqueued self (ts1 ++ ts2) st = enqueued self ts2 (enqueued self ts1 st).
Proof.
  unfold enqueued. simpl. rewrite !map_app, !app_assoc. reflexivity.
Qed.

Lemma add_to_upload_future_eq (self : S3.S3FilesLoader)
    (from_filename to_f_key : string) (st : State) :
  S3.dry_run self = false ->
  S3.add_to_upload_future self from_filename to_f_key st
  = (Ok tt, enqueued self [Upload from_filename to_f_key] st).
Proof.
  intros Hdry. unfold S3.add_to_upload_future, S3.is_not_dry_run.
  rewrite Hdry. reflexivity.
Qed.

Lemma add_to_download_future_eq (self : S3.S3FilesLoader)
    (from_f_key to_filename : string) (st : State) :
  S3.add_to_download_future self from_f_key to_filename st
  = (Ok tt, enqueued self [Download from_f_key to_filename] st).
Proof. reflexivity. Qed.

(** The two loops of [upload_dir] hand over the plan, in order. *)
Lemma upload_dir_enqueues (self : S3.S3FilesLoader)
    (from_dir to_dir_key : string) (walk : list (string * list string)) :
  S3.dry_run self = false ->
  forall st : State,
    for_each walk (fun '(path, files) =>
      for_each files (fun f_name =>
        let loca_path := PyPath.join_posix path f_name in
        let relative_loca_path := PyStr.removeprefix from_dir loca_path in
        let to_f_key := to_dir_key +:+ relative_loca_path in
        S3.add_to_upload_future self loca_path to_f_key)) st
    = (Ok tt, enqueued self (upload_plan walk from_dir to_dir_key) st).
Proof.
  intros Hdry. induction walk as [|[path files] walk IH]; intros st.
  - cbn. rewrite enqueued_nil. reflexivity.
  - cbn [for_each upload_plan flat_map]. rewrite enqueued_app.
    erewrite bind_Ok_eq; [apply IH|].
    clear IH. revert st. induction files as [|f_name files IHf]; intros st.
    + cbn. rewrite enqueued_nil. reflexivity.
    + cbn [for_each map]. cbn zeta.
      rewrite (bind_Ok_eq _ _ _ _ _ (add_to_upload_future_eq _ _ _ _ Hdry)).
      rewrite IHf.
      change (?x :: map ?f files) with ([x] ++ map f files)%list.
      rewrite enqueued_app. reflexivity.
Qed.

(** Draining futures that all succeed loses no object and leaves the key
    of every upload among them in the bucket. *)
Lemma result_loop_uploads (oks : list future) :
  Forall succeeds oks ->
  forall (n : nat) (st : State),
    (forall k, k ∈ objects st ->
               k ∈ objects (snd (S3.result_loop n oks st))) /\
    (forall fut fileobj key,
        fut ∈ oks -> fut_transfer fut = Upload fileobj key ->
        key ∈ objects (snd (S3.result_loop n oks st))).
Proof.
  induction 1 as [|fut oks Hfut Hoks IH]; intros n st.
  - split; [auto|]. intros fut fileobj key Hin. inversion Hin.
  - cbn [S3.result_loop].
    rewrite (bind_Ok_eq _ _ st (set_queue (rev oks) st) tt eq_refl).
    set (st0 := set_queue (rev oks) st).
    assert (Hres : exists st1,
               S3.future_result fut st0 = (Ok tt, st1) /\
               (forall k, k ∈ objects st -> k ∈ objects st1) /\
               (forall fileobj key, fut_transfer fut = Upload fileobj key ->
                                    key ∈ objects st1)).
    { unfold S3.future_result.
      rewrite (bind_Ok_eq _ _ _ _ _ (eq_refl : log _ st0 = (Ok tt, logged _ st0))).
      rewrite Hfut. unfold S3.transfer_done.
      destruct (fut_transfer fut) as [f k|k f]; eexists; (split; [reflexivity|]).
      - cbn. split; [intros x; apply elem_of_put|].
        intros fileobj key [= _ <-]. apply elem_of_put_self.
      - cbn. split; [auto|]. intros fileobj key [=]. }
    destruct Hres as (st1 & Hrun & Hkeep & Hnew).
    rewrite (bind_Ok_eq _ _ _ _ _ Hrun).
    destruct (IH (S n) st1) as [IHkeep IHnew].
    split.
    + intros k Hk. apply IHkeep, Hkeep, Hk.
    + intros fut' fileobj key Hin Ht.
      apply elem_of_cons in Hin as [->|Hin].
      * apply IHkeep. eapply Hnew. exact Ht.
      * eapply IHnew; eassumption.
Qed.

(** X7: an [upload_dir] outside dry-run mode, entered with an empty queue
    and all of whose transfers succeed, hands over one upload per file of
    the walk, keyed by [to_dir_key] followed by the local path less the
    prefix [from_dir]; it then blocks on them in reverse order and
    returns with the queue empty and every key in the bucket. *)
Theorem upload_dir_uploads_the_walk (self : S3.S3FilesLoader)
    (walk : list (string * list string)) (from_dir to_dir_key : string)
    (st : State) :
  let plan := upload_plan walk from_dir to_dir_key in
  S3.dry_run self = false ->
  future_queue st = [] ->
  (forall t, t ∈ plan -> S3.s3_transfer_manager self t = None) ->
  exists st',
    S3.upload_dir self walk from_dir to_dir_key st = (Ok tt, st') /\
    future_queue st' = [] /\
    trace st' = (trace st ++ map EvSubmit plan ++ map EvResult (rev plan))%list /\
    (forall fileobj key, Upload fileobj key ∈ plan -> key ∈ objects st') /\
    (forall k, k ∈ objects st -> k ∈ objects st').
Proof.
  cbn zeta. intros Hdry Hq Hok.
  set (plan := upload_plan walk from_dir to_dir_key) in *.
  set (st1 := enqueued self plan st).
  assert (Hq1 : future_queue st1 = map (queued self) plan)
    by (unfold st1; cbn; rewrite Hq; reflexivity).
  assert (Hall : Forall succeeds (rev (future_queue st1))).
  { rewrite Hq1. apply Forall_rev, Forall_forall.
    intros fut Hin. apply list_elem_of_fmap in Hin as (t & -> & Hin).
    apply Hok. exact Hin. }
  destruct (result_loop_succeeding (rev (future_queue st1)) [] Hall 0 st1)
    as (st2 & Hrun & Htr & Hq2).
  rewrite app_nil_r in Hrun. cbn [S3.result_loop Nat.add] in Hrun.
  destruct (result_loop_uploads (rev (future_queue st1)) Hall 0%nat st1)
    as [Hkeep Hnew].
  rewrite Hrun in Hkeep, Hnew. cbn [snd ret] in Hkeep, Hnew.
  exists st2. split; [|split; [|split; [|split]]].
  - unfold S3.upload_dir.
    rewrite (bind_Ok_eq _ _ _ _ _
               (upload_dir_enqueues self from_dir to_dir_key walk Hdry st)).
    fold plan. fold st1.
    rewrite (bind_Ok_eq S3.result_all_futures _ st1 st2 _ Hrun). reflexivity.
  - rewrite Hq2. destruct (rev (future_queue st1)) eqn:E; [|reflexivity].
    apply (f_equal (@rev future)) in E. rewrite rev_involutive in E.
    exact E.
  - rewrite Htr, Hq1. unfold st1. cbn. rewrite <- app_assoc. f_equal. f_equal.
    rewrite <- map_rev, !map_map. reflexivity.
  - intros fileobj key Hin.
    apply (Hnew (queued self (Upload fileobj key)) fileobj key); [|reflexivity].
    rewrite Hq1. apply list_elem_of_In, in_rev. rewrite rev_involutive.
    apply list_elem_of_In, list_elem_of_fmap. eexists. split; [reflexivity|exact Hin].
  - intros k Hk. apply Hkeep. exact Hk.
Qed.

Lemma upload_dir_uploads_the_walk_witness :
  exists st',
    S3.upload_dir Scenario.sound [("data", ["f"]); ("data/sub", ["g"])]
      "data" "K" Scenario.empty_store = (Ok tt, st') /\
    future_queue st' = [] /\
    trace st' = [ EvSubmit (Upload "data/f" "K/f");
                  EvSubmit (Upload "data/sub/g" "K/sub/g");
                  EvResult (Upload "data/sub/g" "K/sub/g");
                  EvResult (Upload "data/f" "K/f") ] /\
    (forall fileobj key,
        Upload fileobj key
          ∈ upload_plan [("data", ["f"]); ("data/sub", ["g"])] "data" "K" ->
        key ∈ objects st') /\
    (forall k, k ∈ objects Scenario.empty_store -> k ∈ objects st').
Proof.
  apply (upload_dir_uploads_the_walk Scenario.sound
           [("data", ["f"]); ("data/sub", ["g"])] "data" "K"
           Scenario.empty_store).
  - reflexivity.
  - reflexivity.
  - intros t _. reflexivity.
Defined.

Lemma makedirs_some (path : string) (st : State) :
  path <> "" -> Os.makedirs path st = (Ok tt, logged (EvMakedirs path) st).
Proof. destruct path; [contradiction | reflexivity]. Qed.

(** The loop of [download_dir] over keys whose targets all have a
    directory part. *)
Lemma download_dir_requests (self : S3.S3FilesLoader) (from_dir_key : string)
    (to_dir : option string) (keys : list string) :
  (forall k, k ∈ keys ->
             PyStr.dirname (download_target from_dir_key to_dir k) <> "") ->
  forall st : State,
  exists st',
    for_each keys (fun key =>
      let to_filename := download_target from_dir_key to_dir key in
      Os.makedirs (PyStr.dirname to_filename) ;;
      S3.add_to_download_future self key to_filename) st = (Ok tt, st') /\
    objects st' = objects st /\
    future_queue st'
      = (future_queue st
         ++ map (fun k => queued self
                            (Download k (download_target from_dir_key to_dir k)))
                keys)%list /\
    trace st'
      = (trace st ++ flat_map (download_request from_dir_key to_dir) keys)%list.
Proof.
  induction keys as [|k keys IH]; intros Hdirs st.
  - exists st. cbn. rewrite !app_nil_r. auto.
  - cbn [for_each]. cbn zeta.
    rewrite bind_assoc.
    rewrite (bind_Ok_eq _ _ _ _ _
               (makedirs_some _ st (Hdirs k (list_elem_of_here _ _)))).
    rewrite (bind_Ok_eq _ _ _ _ _ (add_to_download_future_eq _ _ _ _)).
    destruct (IH (fun x Hx => Hdirs x (list_elem_of_further _ _ _ Hx))
                 (enqueued self [Download k (download_target from_dir_key to_dir k)]
                    (logged (EvMakedirs
                               (PyStr.dirname (download_target from_dir_key to_dir k)))
                            st)))
      as (st' & Hrun & Hobj & Hq & Htr).
    exists st'. split; [exact Hrun|]. split; [exact Hobj|].
    split.
    + rewrite Hq. cbn. rewrite <- app_assoc. reflexivity.
    + rewrite Htr. cbn. rewrite <- !app_assoc. reflexivity.
Qed.

(** X8: [download_dir] raises [FileNotFoundError] at the first listed
    object whose local path has no directory part ([os.makedirs] of the
    empty path).  It raises before the drain: the downloads handed over
    for the objects listed before it stay in the queue, none of them
    blocked on. *)
Theorem download_dir_needs_a_directory_part (self : S3.S3FilesLoader)
    (from_dir_key : string) (to_dir : option string) (st : State)
    (before after : list string) (key : string) :
  listed from_dir_key st = (before ++ key :: after)%list ->
  (forall k, k ∈ before ->
             PyStr.dirname (download_target from_dir_key to_dir k) <> "") ->
  PyStr.dirname (download_target from_dir_key to_dir key) = "" ->
  exists st',
    S3.download_dir self from_dir_key to_dir st
      = (Raise (FileNotFoundError ""), st') /\
    future_queue st'
      = (future_queue st
         ++ map (fun k => queued self
                            (Download k (download_target from_dir_key to_dir k)))
                before)%list /\
    trace st'
      = (trace st ++ flat_map (download_request from_dir_key to_dir) before)%list.
Proof.
  intros Hlist Hbefore Hkey.
  set (body := fun key0 : string =>
                 let to_filename := download_target from_dir_key to_dir key0 in
                 Os.makedirs (PyStr.dirname to_filename) ;;
                 S3.add_to_download_future self key0 to_filename).
  assert (Hraise : forall (l : list string) (s s1 : State),
             for_each l body s = (Ok tt, s1) ->
             for_each (l ++ key :: after) body s
             = (Raise (FileNotFoundError ""), s1)).
  { induction l as [|k l IH]; intros s s1 Hl.
    - cbn in Hl. injection Hl as <-.
      cbn [app for_each]. unfold body at 1. cbn zeta. rewrite Hkey. reflexivity.
    - cbn [app for_each] in Hl |- *.
      apply bind_Ok_inv in Hl as ([] & s2 & Hk & Hl).
      rewrite (bind_Ok_eq _ _ _ _ _ Hk). apply IH. exact Hl. }
  destruct (download_dir_requests self from_dir_key to_dir before Hbefore st)
    as (st1 & Hrun & _ & Hq & Htr).
  exists st1. split; [|split; [exact Hq | exact Htr]].
  unfold S3.download_dir.
  rewrite (bind_Ok_eq _ _ _ _ _ (eq_refl : S3.bucket_filter _ st = (Ok _, st))).
  fold (listed from_dir_key st). rewrite Hlist.
  apply bind_Raise_eq. apply (Hraise before st st1). exact Hrun.
Qed.

Lemma download_dir_needs_a_directory_part_witness :
  exists st',
    S3.download_dir Scenario.sound "a" (Some "b") Scenario.bucket_flat
      = (Raise (FileNotFoundError ""), st') /\
    future_queue st' = [queued Scenario.sound (Download "a/w" "b/w")] /\
    trace st' = [EvMakedirs "b"; EvSubmit (Download "a/w" "b/w")].
Proof.
  apply (download_dir_needs_a_directory_part Scenario.sound "a" (Some "b")
           Scenario.bucket_flat ["a/w"] [] "ab").
  - reflexivity.
  - intros k Hk. apply list_elem_of_singleton in Hk as ->. vm_compute. discriminate.
  - reflexivity.
Defined.

(* ===================================================================== *)
(** ** Further properties of the statistics request *)
(* ===================================================================== *)



(** X10: a format that is neither ["json"], nor one with ["sv"] in it, nor
    ["pandas"] (case aside) is found out only after the request was sent:
    the request goes out, and when it is answered the call raises
    [ValueError]. *)
Theorem get_statistics_checks_format_after_sending (lib : ClientExt.Decoders)
    (client : ClientExt.APIClient) (experiment_id : string)
    (a : ClientExt.StatsArgs) (st : State) (raw : string) :
  let format := PyStr.lower (ClientExt.format a) in
  let url := ClientExt.bulkstatistics_url client experiment_id in
  ClientExt.quantile_without_q a = false ->
  String.eqb format "json" = false ->
  PyStr.contains "sv" format = false ->
  String.eqb format "pandas" = false ->
  ClientExt.client_post client url (ClientExt.req_params a) = Ok raw ->
  ClientExt.get_statistics lib client experiment_id a st
  = (Raise (ValueError "Invalid data format selected."),
     logged (EvPost url (ClientExt.req_params a)) st).
Proof.
  cbn zeta. intros G Hj Hs Hp Hpost.
  unfold ClientExt.get_statistics. rewrite G.
  unfold ClientExt._post. rewrite bind_assoc.
  rewrite (bind_Ok_eq _ _ _ _ _ (eq_refl : log _ st = (Ok tt, logged _ st))).
  rewrite Hpost. cbn [ClientExt.lift]. rewrite bind_ret.
  rewrite Hj, Hs, Hp. reflexivity.
Qed.

Lemma get_statistics_checks_format_after_sending_witness :
  let a := {| ClientExt.statistics := PList [PStr "mean"];
              ClientExt.channels := PList [PStr "FSC-A"];
              ClientExt.q := PNone;
              ClientExt.annotations := PBool false;
              ClientExt.compensation_id := ClientExt.UNCOMPENSATED;
              ClientExt.fcs_file_ids := PNone;
              ClientExt.format := "XML";
              ClientExt.layout := PNone;
              ClientExt.percent_of := PStr "PARENT";
              ClientExt.population_ids := PNone;
              ClientExt.other_params := ∅ |} in
  ClientExt.get_statistics Scenario.decoders Scenario.api "e1" a
    Scenario.empty_store
  = (Raise (ValueError "Invalid data format selected."),
     logged (EvPost (ClientExt.bulkstatistics_url Scenario.api "e1")
                    (ClientExt.req_params a)) Scenario.empty_store).
Proof.
  intros a.
  apply (get_statistics_checks_format_after_sending Scenario.decoders
           Scenario.api "e1" a Scenario.empty_store "tsv");
    reflexivity.
Defined.

Lemma computed_format (a : ClientExt.StatsArgs) :
  ClientExt.computed_params a !! "format"
  = Some (PStr (if String.eqb (ClientExt.format a) "pandas" then "json"
                else ClientExt.format a)).
Proof. reflexivity. Qed.

(** X11: unless [other_params] sets it, the request names the format as
    the caller wrote it, except that the exact string ["pandas"] is sent
    as ["json"]; the replacement is case-sensitive, so ["Pandas"] is sent
    as ["Pandas"]. *)
Theorem get_statistics_format_field (a : ClientExt.StatsArgs) :
  ClientExt.other_params a !! "format" = None ->
  (ClientExt.format a = "pandas" ->
   ClientExt.req_params a !! "format" = Some (PStr "json")) /\
  (ClientExt.format a <> "pandas" ->
   ClientExt.req_params a !! "format" = Some (PStr (ClientExt.format a))).
Proof.
  intros Hother.
  assert (H : forall v, v <> PNone ->
              ClientExt.computed_params a !! "format" = Some v ->
              ClientExt.req_params a !! "format" = Some v).
  { intros v Hv Hc. unfold ClientExt.req_params, ClientExt.merged_params.
    apply map_lookup_filter_Some. split.
    - apply lookup_union_Some_raw. right. split; assumption.
    - cbn. apply is_none_false. exact Hv. }
  split.
  - intros Hf. apply H; [discriminate|]. rewrite computed_format, Hf. reflexivity.
  - intros Hf. apply H; [discriminate|]. rewrite computed_format.
    apply String.eqb_neq in Hf. rewrite Hf. reflexivity.
Qed.

Lemma get_statistics_format_field_witness :
  ClientExt.req_params Scenario.overriding_args !! "format" = Some (PStr "json").
Proof.
  apply (proj1 (get_statistics_format_field Scenario.overriding_args eq_refl)).
  reflexivity.
Defined.

(* ===================================================================== *)
(** ** Further properties of the orchestrator *)
(* ===================================================================== *)

(** X12: whatever the experiment and the file, the statistics request of
    [_download_statistics] carries these twelve fields and no other: the
    event count, no channels, the one file, the ungated population
    followed by every population of the experiment, tab-separated with
    header, medium layout, and the three extra flags; [q] is left out. *)
Theorem download_statistics_payload (exp : Main.Experiment)
    (fcs_file : Main.FcsFile) :
  ClientExt.req_params (Main.statistics_args exp fcs_file)
  = list_to_map
      [ ("statistics", PList [PStr "eventcount"]);
        ("channels", PList []);
        ("annotations", PBool false);
        ("compensationId", PInt 0);
        ("fcsFileIds", PList [PStr (Main.fcs_id fcs_file)]);
        ("format", PStr "TSV (with header)");
        ("layout", PStr "medium");
        ("percentOf", PStr "PARENT");
        ("populationIds",
         PList (PStr "" :: map (fun pop => PStr (Main.pop_id pop))
                               (Main.exp_populations exp)));
        ("ids", PBool true);
        ("uniqueNames", PBool true);
        ("fullPaths", PBool true) ].
Proof. vm_compute. reflexivity. Qed.

Section OrchestratorFurther.

Variable client : ClientExt.APIClient.
Variable lib : ClientExt.Decoders.
Variable transfer_manager : transfer -> option exn.
Variable sdk_copy_object : string -> string -> string -> result Z.
Variable sdk_delete_object : string -> option exn.

Local Abbreviation upload_to_s3 :=
  (Main._upload_to_s3 transfer_manager sdk_copy_object sdk_delete_object).
Local Abbreviation step :=
  (artifact_step client lib transfer_manager sdk_copy_object sdk_delete_object).
Local Abbreviation body :=
  (loop_body client lib transfer_manager sdk_copy_object sdk_delete_object).
Local Abbreviation global_step :=
  (Main.global_gating_step client transfer_manager sdk_copy_object
     sdk_delete_object).
Local Abbreviation export :=
  (Main._download_experiment_files client lib transfer_manager sdk_copy_object
     sdk_delete_object).

(** X13: [_upload_to_s3] takes a local file away only after its upload
    succeeded: when the file was there before the call and is gone after
    it, the call returned normally and the object is in the bucket. *)
Theorem upload_to_s3_removes_only_what_is_stored (f_path : string)
    (remove_local : bool) (st : State) :
  let outcome := upload_to_s3 (Some f_path) remove_local st in
  f_path ∈ files st ->
  f_path ∉ files (snd outcome) ->
  fst outcome = Ok tt /\ mirror_key f_path ∈ objects (snd outcome).
Proof.
  cbn zeta. intros Hin Hout.
  rewrite (upload_to_s3_Some transfer_manager sdk_copy_object sdk_delete_object)
    in Hout |- *.
  destruct (transfer_manager _) as [e|]; [contradiction|].
  destruct remove_local; [|contradiction].
  rewrite remove_eq by exact Hin. cbn.
  split; [reflexivity | apply elem_of_put_self].
Qed.

Lemma grows_by_intro (P : event -> Prop) (st st' : State) (evs : list event) :
  (forall k, k ∈ objects st -> k ∈ objects st') ->
  future_queue st' = future_queue st ->
  trace st' = (trace st ++ evs)%list ->
  Forall P evs ->
  grows_by P st st'.
Proof. intros Ho Hq Ht HP. split; [exact Ho|]. split; [exact Hq|]. eauto. Qed.

Lemma upload_written_grows (f_path : string) (st : State) :
  grows_by leaves_objects st
    (snd (upload_to_s3 (Some f_path) true (written f_path st))).
Proof.
  rewrite (upload_written transfer_manager sdk_copy_object sdk_delete_object).
  destruct (transfer_manager _) as [e|]; cbn [snd].
  - eapply grows_by_intro; [auto | reflexivity | |].
    + cbn. rewrite <- !app_assoc. reflexivity.
    + repeat constructor.
  - eapply grows_by_intro; [| reflexivity | |].
    + intros k. cbn. apply elem_of_put.
    + cbn. rewrite <- !app_assoc. reflexivity.
    + repeat constructor.
Qed.

Lemma artifact_step_grows (a : artifact) (exp : Main.Experiment)
    (root : string) (fcs_file : Main.FcsFile) :
  keeps (grows_by leaves_objects) (step a exp root fcs_file).
Proof.
  intros st.
  pose proof (artifact_step_shape client lib transfer_manager sdk_copy_object
                sdk_delete_object a exp root fcs_file st) as S.
  cbn zeta in S. destruct (on_s3 _ st).
  - rewrite S. apply grows_by_refl.
  - destruct S as [[e S]|S]; rewrite S.
    + apply (grows_by_log leaves_objects).
      destruct a; exact I.
    + eapply grows_by_trans; [|apply upload_written_grows].
      apply (grows_by_log leaves_objects). destruct a; exact I.
Qed.

Lemma global_gating_step_grows (exp : Main.Experiment) (root : string) :
  keeps (grows_by leaves_objects) (global_step exp root).
Proof.
  intros st.
  rewrite (global_gating_step_eq client transfer_manager sdk_copy_object
             sdk_delete_object).
  cbn zeta.
  destruct (ClientExt.client_get client _) as [raw|e];
    [|apply (grows_by_log leaves_objects); exact I].
  destruct (transfer_manager _) as [e|]; cbn [snd].
  - eapply grows_by_intro; [auto | reflexivity | |].
    + cbn. rewrite <- !app_assoc. reflexivity.
    + repeat constructor.
  - eapply grows_by_intro; [| reflexivity | |].
    + intros k. cbn. apply elem_of_put.
    + cbn. rewrite <- !app_assoc. reflexivity.
    + repeat constructor.
Qed.

Lemma export_grows (exp : Main.Experiment) :
  keeps (grows_by leaves_objects) (export exp).
Proof.
  rewrite (export_unfold client lib transfer_manager sdk_copy_object
             sdk_delete_object).
  apply keeps_bind; [apply grows_by_trans | |].
  { intros st. rewrite makedirs_root.
    apply (grows_by_log leaves_objects). exact I. }
  intros _. apply keeps_bind;
    [apply grows_by_trans | apply global_gating_step_grows |].
  intros _. apply keeps_for_each; [apply grows_by_refl | apply grows_by_trans |].
  intros fcs_file.
  rewrite (loop_body_steps client lib transfer_manager sdk_copy_object
             sdk_delete_object).
  apply keeps_bind; [apply grows_by_trans | apply artifact_step_grows |].
  intros _. apply keeps_bind; [apply grows_by_trans | apply artifact_step_grows |].
  intros _. apply artifact_step_grows.
Qed.

(** X14: however [_download_experiment_files] ends, it has removed no
    object of the bucket: every key that was there is there afterwards,
    no [delete_object] and no [copy_object] was called, and the
    pending-transfer queue holds what it held. *)
Theorem export_never_removes_objects (exp : Main.Experiment) (st : State) :
  (forall k, k ∈ objects st -> k ∈ objects (snd (export exp st))) /\
  future_queue (snd (export exp st)) = future_queue st /\
  Forall leaves_objects (events_of (export exp) st).
Proof.
  pose proof (export_grows exp st) as H.
  split; [exact (proj1 H)|]. split; [exact (proj1 (proj2 H))|].
  apply grows_by_events. exact H.
Qed.

(** X15: after a [_download_experiment_files] that returned normally, the
    global gating definition is in the bucket under its mirrored key, and
    each of the three artifacts of every raw-data file passes the
    existence check. *)
Theorem export_mirrors_every_artifact (exp : Main.Experiment) (st st' : State) :
  export exp st = (Ok tt, st') ->
  mirror_key (Main.global_gatingml_path exp (exp_root exp)) ∈ objects st' /\
  all_mirrored exp st'.
Proof.
  intros H. split.
  - rewrite (export_unfold client lib transfer_manager sdk_copy_object
               sdk_delete_object) in H.
    rewrite (bind_Ok_eq _ _ _ _ _ (makedirs_root exp st)) in H.
    apply bind_Ok_inv in H as ([] & s1 & H1 & H).
    rewrite (global_gating_step_eq client transfer_manager sdk_copy_object
               sdk_delete_object) in H1.
    cbn zeta in H1.
    destruct (ClientExt.client_get client _); [|discriminate H1].
    destruct (transfer_manager _); [discriminate H1|]. injection H1 as <-.
    assert (Hloop : keeps (grows_by leaves_objects)
                      (for_each (Main.exp_fcs_files exp) (body exp (exp_root exp)))).
    { apply keeps_for_each; [apply grows_by_refl | apply grows_by_trans |].
      intros fcs_file.
      rewrite (loop_body_steps client lib transfer_manager sdk_copy_object
                 sdk_delete_object).
      apply keeps_bind; [apply grows_by_trans | apply artifact_step_grows |].
      intros _. apply keeps_bind;
        [apply grows_by_trans | apply artifact_step_grows |].
      intros _. apply artifact_step_grows. }
    specialize (Hloop (uploaded (Main.global_gatingml_path exp (exp_root exp))
                         (written (Main.global_gatingml_path exp (exp_root exp))
                            (logged (EvGet (Main.global_gatingml_url client exp))
                               (logged (EvMakedirs (exp_root exp)) st))))).
    rewrite H in Hloop. apply (proj1 Hloop). cbn. apply elem_of_put_self.
  - apply (export_Ok client lib transfer_manager sdk_copy_object
             sdk_delete_object) in H.
    exact (proj2 (proj2 (proj2 H))).
Qed.

End OrchestratorFurther.

Lemma upload_to_s3_removes_only_what_is_stored_witness :
  fst (Main._upload_to_s3 Scenario.transfers_ok Scenario.copies_ok
         Scenario.deletes_ok (Some "data/x") true
         (mkState [] ["data/x"] [] [])) = Ok tt /\
  mirror_key "data/x"
    ∈ objects (snd (Main._upload_to_s3 Scenario.transfers_ok Scenario.copies_ok
                      Scenario.deletes_ok (Some "data/x") true
                      (mkState [] ["data/x"] [] []))).
Proof.
  apply (upload_to_s3_removes_only_what_is_stored Scenario.transfers_ok
           Scenario.copies_ok Scenario.deletes_ok "data/x" true
           (mkState [] ["data/x"] [] [])).
  - vm_compute. left.
  - vm_compute. intros H. inversion H.
Defined.

Lemma export_mirrors_every_artifact_witness :
  mirror_key "data/E1/E1_global.gatingml" ∈ objects Scenario.after_first_run /\
  all_mirrored Scenario.E1 Scenario.after_first_run.
Proof.
  apply (export_mirrors_every_artifact Scenario.api Scenario.decoders
           Scenario.transfers_ok Scenario.copies_ok Scenario.deletes_ok
           Scenario.E1 Scenario.empty_store Scenario.after_first_run).
  vm_compute. reflexivity.
Defined.

(* ===================================================================== *)
(** ** Local files and file names of an export *)
(* ===================================================================== *)

Lemma str_app_cons (c : ascii) (s t : string) :
  String c s +:+ t = String c (s +:+ t).
Proof. reflexivity. Qed.

Lemma str_app_nil_r (s : string) : s +:+ "" = s.
Proof.
  induction s as [|c s IH]; [reflexivity|].
  rewrite str_app_cons, IH. reflexivity.
Qed.

Lemma str_app_assoc (s t u : string) : (s +:+ t) +:+ u = s +:+ (t +:+ u).
Proof.
  induction s as [|c s IH]; [reflexivity|].
  rewrite !str_app_cons, IH. reflexivity.
Qed.

Lemma str_length_app (s t : string) :
  String.length (s +:+ t) = (String.length s + String.length t)%nat.
Proof.
  induction s as [|c s IH]; [reflexivity|].
  rewrite str_app_cons. cbn [String.length]. rewrite IH. reflexivity.
Qed.

Lemma rev_string_app (s t : string) :
  PyStr.rev_string (s +:+ t) = PyStr.rev_string t +:+ PyStr.rev_string s.
Proof.
  induction s as [|c s IH].
  - cbn [PyStr.rev_string]. rewrite str_app_nil_r. reflexivity.
  - rewrite str_app_cons. cbn [PyStr.rev_string].
    rewrite IH, str_app_assoc. reflexivity.
Qed.

Lemma substring_app (s t : string) :
  String.substring 0 (String.length s) (s +:+ t) = s.
Proof.
  induction s as [|c s IH].
  - destruct t; reflexivity.
  - rewrite str_app_cons. cbn [String.length String.substring].
    rewrite IH. reflexivity.
Qed.

(** [removesuffix] undoes the appending of a non-empty suffix. *)
Lemma removesuffix_app (s x : string) :
  x <> "" -> PyStr.removesuffix x (s +:+ x) = s.
Proof.
  intros Hx. unfold PyStr.removesuffix, PyStr.endswith.
  destruct x as [|c x]; [contradiction|].
  rewrite rev_string_app, prefix_app, str_length_app.
  replace (String.length s + String.length (String c x)
           - String.length (String c x))%nat with (String.length s) by lia.
  apply substring_app.
Qed.

Lemma removesuffix_absent (s x : string) :
  PyStr.endswith x s = false -> PyStr.removesuffix x s = s.
Proof.
  intros H. unfold PyStr.removesuffix. destruct x; [reflexivity|].
  rewrite H. reflexivity.
Qed.

Section ExportFiles.

Variable client : ClientExt.APIClient.
Variable lib : ClientExt.Decoders.
Variable transfer_manager : transfer -> option exn.
Variable sdk_copy_object : string -> string -> string -> result Z.
Variable sdk_delete_object : string -> option exn.

Local Abbreviation step :=
  (artifact_step client lib transfer_manager sdk_copy_object sdk_delete_object).
Local Abbreviation body :=
  (loop_body client lib transfer_manager sdk_copy_object sdk_delete_object).
Local Abbreviation export :=
  (Main._download_experiment_files client lib transfer_manager sdk_copy_object
     sdk_delete_object).

Lemma artifact_step_files (a : artifact) (exp : Main.Experiment)
    (root : string) (fcs_file : Main.FcsFile) (st st' : State) :
  step a exp root fcs_file st = (Ok tt, st') ->
  forall x, x ∈ files st' -> x ∈ files st.
Proof.
  intros H x Hx.
  apply (artifact_step_Ok client lib transfer_manager sdk_copy_object
           sdk_delete_object) in H as [[_ ->]|[_ ->]]; [exact Hx|].
  cbn in Hx. apply elem_of_del in Hx as [Hx Hne].
  apply list_elem_of_In, In_put in Hx as [->|Hx]; [contradiction|].
  apply list_elem_of_In. exact Hx.
Qed.

Lemma loop_files (exp : Main.Experiment) (root : string)
    (fcs_files : list Main.FcsFile) :
  forall st st' : State,
    for_each fcs_files (body exp root) st = (Ok tt, st') ->
    forall x, x ∈ files st' -> x ∈ files st.
Proof.
  induction fcs_files as [|f fs IH]; intros st st' H x Hx.
  - injection H as <-. exact Hx.
  - cbn [for_each] in H.
    apply bind_Ok_inv in H as ([] & s1 & H1 & H).
    rewrite (loop_body_steps client lib transfer_manager sdk_copy_object
               sdk_delete_object) in H1.
    apply bind_Ok_inv in H1 as ([] & s2 & Ha & H1).
    apply bind_Ok_inv in H1 as ([] & s3 & Hb & Hc).
    eapply artifact_step_files; [exact Ha|].
    eapply artifact_step_files; [exact Hb|].
    eapply artifact_step_files; [exact Hc|].
    eapply IH; eassumption.
Qed.

(** X16: a [_download_experiment_files] that returned normally leaves no
    local file behind except the global gating definition: every local
    file there afterwards was there before or is that one. *)
Theorem export_leaves_only_global_gating (exp : Main.Experiment) (st st' : State) :
  export exp st = (Ok tt, st') ->
  forall x, x ∈ files st' ->
            x ∈ files st \/ x = Main.global_gatingml_path exp (exp_root exp).
Proof.
  intros H x Hx.
  rewrite (export_unfold client lib transfer_manager sdk_copy_object
             sdk_delete_object) in H.
  rewrite (bind_Ok_eq _ _ _ _ _ (makedirs_root exp st)) in H.
  apply bind_Ok_inv in H as ([] & s1 & H1 & H).
  rewrite (global_gating_step_eq client transfer_manager sdk_copy_object
             sdk_delete_object) in H1.
  cbn zeta in H1.
  destruct (ClientExt.client_get client _); [|discriminate H1].
  destruct (transfer_manager _); [discriminate H1|]. injection H1 as <-.
  eapply loop_files in Hx; [|exact H].
  cbn in Hx. apply list_elem_of_In, In_put in Hx as [->|Hx]; [right; reflexivity|].
  left. apply list_elem_of_In. exact Hx.
Qed.

(** X17: two raw-data files whose names differ only by a final [".fcs"]
    share the paths of their gating definition and of their statistics;
    so once the gating step of the one returned normally, the gating step
    of the other does nothing: its gating definition is never fetched. *)
Theorem fcs_suffix_twins_share_artifacts (exp : Main.Experiment) (root : string)
    (id1 id2 name : string) (st st' : State) :
  let with_suffix := Main.mkFcsFile id1 (name +:+ ".fcs") in
  let without := Main.mkFcsFile id2 name in
  PyStr.endswith ".fcs" name = false ->
  Main.fcs_gatingml_path root with_suffix = Main.fcs_gatingml_path root without /\
  Main.statistics_path root with_suffix = Main.statistics_path root without /\
  (step FcsGating exp root with_suffix st = (Ok tt, st') ->
   step FcsGating exp root without st' = (Ok tt, st')).
Proof.
  cbn zeta. intros Hname.
  assert (Hg : Main.fcs_gatingml_path root (Main.mkFcsFile id1 (name +:+ ".fcs"))
               = Main.fcs_gatingml_path root (Main.mkFcsFile id2 name)).
  { unfold Main.fcs_gatingml_path. cbn [Main.fcs_name].
    rewrite removesuffix_app by discriminate.
    rewrite (removesuffix_absent _ _ Hname). reflexivity. }
  split; [exact Hg|]. split.
  - unfold Main.statistics_path. cbn [Main.fcs_name].
    rewrite removesuffix_app by discriminate.
    rewrite (removesuffix_absent _ _ Hname). reflexivity.
  - intros H.
    apply (artifact_step_retains client lib transfer_manager sdk_copy_object
             sdk_delete_object) in H as [_ Hon].
    cbn [artifact_path] in Hon. rewrite Hg in Hon.
    pose proof (artifact_step_shape client lib transfer_manager sdk_copy_object
                  sdk_delete_object FcsGating exp root
                  (Main.mkFcsFile id2 name) st') as S.
    cbn zeta in S. cbn [artifact_path] in S. rewrite Hon in S. exact S.
Qed.

End ExportFiles.

Lemma export_leaves_only_global_gating_witness :
  Forall (fun x => x ∈ files Scenario.empty_store
                   \/ x = "data/E1/E1_global.gatingml")
         (files Scenario.after_first_run).
Proof.
  apply Forall_forall.
  apply (export_leaves_only_global_gating Scenario.api Scenario.decoders
           Scenario.transfers_ok Scenario.copies_ok Scenario.deletes_ok
           Scenario.E1 Scenario.empty_store Scenario.after_first_run).
  vm_compute. reflexivity.
Defined.

Lemma fcs_suffix_twins_share_artifacts_witness :
  Main.fcs_gatingml_path "data/E1" Scenario.twin_with_suffix
    = Main.fcs_gatingml_path "data/E1" Scenario.twin_without /\
  Main.statistics_path "data/E1" Scenario.twin_with_suffix
    = Main.statistics_path "data/E1" Scenario.twin_without /\
  artifact_step Scenario.api Scenario.decoders Scenario.transfers_ok
    Scenario.copies_ok Scenario.deletes_ok FcsGating Scenario.E1 "data/E1"
    Scenario.twin_without Scenario.after_twin_gating
  = (Ok tt, Scenario.after_twin_gating).
Proof.
  destruct (fcs_suffix_twins_share_artifacts Scenario.api Scenario.decoders
              Scenario.transfers_ok Scenario.copies_ok Scenario.deletes_ok
              Scenario.E1 "data/E1" "f1" "f2" "A" Scenario.empty_store
              Scenario.after_twin_gating eq_refl) as (Hg & Hs & Hstep).
  split; [exact Hg|]. split; [exact Hs|].
  apply Hstep. vm_compute. reflexivity.
Defined.

(* ===================================================================== *)
(** ** The annotation rows *)
(* ===================================================================== *)

Lemma row_get_set (key key' : string) (v : pyval) (d : PyObj.pydict) :
  PyObj.row_get key (PyObj.row_set key' v d)
  = if String.eqb key key' then Some v else PyObj.row_get key d.
Proof.
  induction d as [|[k x] d IH]; cbn.
  - destruct (String.eqb key key'); reflexivity.
  - destruct (PyObj.is_key key' k) eqn:Ek'; cbn.
    + destruct k; try discriminate Ek'. cbn in Ek' |- *.
      apply String.eqb_eq in Ek' as ->.
      destruct (String.eqb key s); reflexivity.
    + destruct (PyObj.is_key key k) eqn:Ek; [|exact IH].
      destruct (String.eqb key key') eqn:E; [|reflexivity].
      apply String.eqb_eq in E as ->. congruence.
Qed.

Lemma dict_get_snoc (key k : string) (v : pyval) (d : list (string * pyval)) :
  PyObj.dict_get key (d ++ [(k, v)])
  = match PyObj.dict_get key d with
    | Some x => Some x
    | None => if String.eqb key k then Some v else None
    end.
Proof.
  induction d as [|[k0 v0] d IH]; cbn; [reflexivity|].
  destruct (String.eqb key k0); [reflexivity | exact IH].
Qed.

(** After [update] with the items of a [dict], a key holds the last value
    the items give it, and what it held before when they give none. *)
Lemma row_get_update (key : string) (items : list (string * pyval)) :
  forall d : PyObj.pydict,
    PyObj.row_get key
      (fold_left (fun acc kv => PyObj.row_set (fst kv) (snd kv) acc) items d)
    = match PyObj.dict_get key (rev items) with
      | Some v => Some v
      | None => PyObj.row_get key d
      end.
Proof.
  induction items as [|[k v] items IH]; intros d; [reflexivity|].
  cbn [fold_left rev fst snd]. rewrite IH, dict_get_snoc, row_get_set.
  destruct (PyObj.dict_get key (rev items)); [reflexivity|].
  destruct (String.eqb key k); reflexivity.
Qed.

(** X18: in a row of the annotation table the annotations win over the
    two tags: for a statistic with a ["filename"] and a dict of
    ["annotations"], the row holds under each key the annotation of that
    name if there is one, and otherwise the experiment's name under
    ["experiment"], the file name under ["filename"] and nothing else. *)
Theorem annotations_override_tags
    (dict_update_runtime : PyObj.pydict -> pyval -> result PyObj.pydict)
    (exp : Main.Experiment) (d annotations : list (string * pyval))
    (filename : pyval) :
  PyObj.dict_get "filename" d = Some filename ->
  PyObj.dict_get "annotations" d = Some (PDict annotations) ->
  exists row,
    Main.fcs_annotations dict_update_runtime exp (PDict d) = Ok row /\
    forall key,
      PyObj.row_get key row
      = match PyObj.dict_get key (rev annotations) with
        | Some v => Some v
        | None =>
            if String.eqb key "experiment" then Some (PStr (Main.exp_name exp))
            else if String.eqb key "filename" then Some filename
            else None
        end.
Proof.
  intros Hf Ha. unfold Main.fcs_annotations, PyObj.getitem.
  rewrite Hf, Ha. cbn [PyObj.update]. eexists. split; [reflexivity|].
  intros key. rewrite row_get_update. cbn.
  destruct (PyObj.dict_get key (rev annotations)); [reflexivity|].
  rewrite (String.eqb_sym key "experiment"), (String.eqb_sym key "filename").
  reflexivity.
Qed.

Lemma annotations_override_tags_witness :
  exists row,
    Main.fcs_annotations (fun d _ => Ok d) Scenario.E1
      (PDict [ ("filename", PStr "A.fcs");
               ("annotations", PDict [("dose", PInt 5); ("filename", PStr "renamed")]) ])
    = Ok row /\
    forall key,
      PyObj.row_get key row
      = match PyObj.dict_get key
                (rev [("dose", PInt 5); ("filename", PStr "renamed")]) with
        | Some v => Some v
        | None =>
            if String.eqb key "experiment" then Some (PStr "E1")
            else if String.eqb key "filename" then Some (PStr "A.fcs")
            else None
        end.
Proof.
  apply (annotations_override_tags (fun d _ => Ok d) Scenario.E1
           [ ("filename", PStr "A.fcs");
             ("annotations", PDict [("dose", PInt 5); ("filename", PStr "renamed")]) ]
           [("dose", PInt 5); ("filename", PStr "renamed")] (PStr "A.fcs"));
    reflexivity.
Defined.

(** X19: one statistic without a ["filename"] fails the extraction of the
    whole experiment: when the statistics before it give their rows, the
    loop raises [KeyError] for that key and no row comes back. *)
Theorem missing_filename_fails_extraction
    (dict_update_runtime : PyObj.pydict -> pyval -> result PyObj.pydict)
    (exp : Main.Experiment) (before after : list pyval)
    (d : list (string * pyval)) :
  Forall (fun statistic =>
            exists row,
              Main.fcs_annotations dict_update_runtime exp statistic = Ok row)
         before ->
  PyObj.dict_get "filename" d = None ->
  Main.exp_annotations dict_update_runtime exp (before ++ PDict d :: after)
  = Raise (KeyError "filename").
Proof.
  intros Hbefore Hd. induction Hbefore as [|s before [row Hrow] _ IH].
  - cbn [app Main.exp_annotations]. unfold Main.fcs_annotations, PyObj.getitem.
    rewrite Hd. reflexivity.
  - cbn [app Main.exp_annotations]. rewrite Hrow, IH. reflexivity.
Qed.

Lemma missing_filename_fails_extraction_witness :
  Main.exp_annotations (fun d _ => Ok d) Scenario.E1
    ([PDict [("filename", PStr "A.fcs"); ("annotations", PDict [])]]
     ++ PDict [("annotations", PDict [])] :: [])
  = Raise (KeyError "filename").
Proof.
  apply (missing_filename_fails_extraction (fun d _ => Ok d) Scenario.E1
           [PDict [("filename", PStr "A.fcs"); ("annotations", PDict [])]] []
           [("annotations", PDict [])]).
  - constructor; [|constructor]. eexists. reflexivity.
  - reflexivity.
Defined.

(* ===================================================================== *)
(** ** The whole run: [process_experiments] *)
(* ===================================================================== *)
Section WholeRun.

Variable client : ClientExt.APIClient.
Variable lib : ClientExt.Decoders.
Variable transfer_manager : transfer -> option exn.
Variable sdk_copy_object : string -> string -> string -> result Z.
Variable sdk_delete_object : string -> option exn.
Variable dict_update_runtime : PyObj.pydict -> pyval -> result PyObj.pydict.
Variable to_excel_error : list PyObj.pydict -> string -> option exn.
Variable get_experiment : string -> result Main.Experiment.

Local Abbreviation upload_to_s3 :=
  (Main._upload_to_s3 transfer_manager sdk_copy_object sdk_delete_object).
Local Abbreviation export :=
  (Main._download_experiment_files client lib transfer_manager sdk_copy_object
     sdk_delete_object).
Local Abbreviation extract :=
  (Main._extract_experiment_annotations client lib dict_update_runtime).
Local Abbreviation rows_of := (annotation_rows lib client dict_update_runtime).
Local Abbreviation process_loop :=
  (Main.process_loop client lib transfer_manager sdk_copy_object
     sdk_delete_object dict_update_runtime).
Local Abbreviation process_experiments :=
  (Main.process_experiments client lib transfer_manager sdk_copy_object
     sdk_delete_object dict_update_runtime to_excel_error).
Local Abbreviation process_experiments_by_names :=
  (Main.process_experiments_by_names client lib transfer_manager
     sdk_copy_object sdk_delete_object dict_update_runtime to_excel_error
     get_experiment).

(** The extraction is one request; its rows are read off the answer. *)
Lemma extract_eq (exp : Main.Experiment) (st : State) :
  extract exp st = (rows_of exp, logged (annotations_request client exp) st).
Proof.
  unfold Main._extract_experiment_annotations, ClientExt.get_statistics,
    annotation_rows, annotations_request.
  change (ClientExt.quantile_without_q Main.annotations_args) with false.
  cbv iota. unfold ClientExt._post.
  rewrite !bind_assoc.
  rewrite (bind_Ok_eq _ _ _ _ _ (eq_refl : log _ st = (Ok tt, logged _ st))).
  destruct (ClientExt.client_post client _ _) as [raw|e]; [|reflexivity].
  cbn [ClientExt.lift]. rewrite bind_ret.
  change (String.eqb (PyStr.lower (ClientExt.format Main.annotations_args)) "json")
    with true.
  cbv iota. rewrite bind_assoc.
  destruct (ClientExt.json_loads lib raw) as [v|e]; [|reflexivity].
  cbn [ClientExt.lift]. rewrite !bind_ret.
  destruct (PyObj.iterate v) as [statistics|e]; [|reflexivity].
  cbn [ClientExt.lift]. rewrite bind_ret.
  destruct (Main.exp_annotations dict_update_runtime exp statistics); reflexivity.
Qed.

(** X20: [_extract_experiment_annotations] sends one bulk-statistics
    request and touches nothing else, whatever comes back; the body asks
    for no statistic and no channel, with the annotations, as JSON. *)
Theorem extract_annotations_sends_one_request (exp : Main.Experiment)
    (st : State) :
  snd (extract exp st)
    = logged (EvPost (ClientExt.bulkstatistics_url client (Main.exp_id exp))
                     (ClientExt.req_params Main.annotations_args)) st /\
  ClientExt.req_params Main.annotations_args
    = list_to_map
        [ ("statistics", PList []);
          ("channels", PList []);
          ("annotations", PBool true);
          ("compensationId", PInt 0);
          ("format", PStr "json");
          ("percentOf", PStr "PARENT") ].
Proof.
  split.
  - rewrite extract_eq. reflexivity.
  - vm_compute. reflexivity.
Qed.

Lemma upload_to_s3_grows (f_path : option string) (remove_local : bool) :
  keeps (grows_by leaves_objects) (upload_to_s3 f_path remove_local).
Proof.
  intros st. destruct f_path as [f_path|]; [|apply grows_by_refl].
  rewrite (upload_to_s3_Some transfer_manager sdk_copy_object sdk_delete_object).
  destruct (transfer_manager _) as [e|].
  - eapply grows_by_intro; [auto | reflexivity | reflexivity |].
    repeat constructor.
  - assert (Hup : grows_by leaves_objects st (uploaded f_path st)).
    { eapply grows_by_intro; [| reflexivity | reflexivity |].
      - intros k. cbn. apply elem_of_put.
      - repeat constructor. }
    destruct remove_local; [|exact Hup].
    eapply grows_by_trans; [exact Hup|].
    unfold Os.remove. destruct (decide _); [|apply grows_by_refl].
    eapply grows_by_intro; [auto | reflexivity | reflexivity |].
    repeat constructor.
Qed.

Lemma process_loop_grows (experiments : list Main.Experiment) :
  forall annotations_df,
    keeps (grows_by leaves_objects) (process_loop experiments annotations_df).
Proof.
  induction experiments as [|exp rest IH]; intros annotations_df.
  - apply keeps_ret. apply grows_by_refl.
  - cbn [Main.process_loop].
    apply keeps_bind; [apply grows_by_trans | apply export_grows |].
    intros _. apply keeps_bind; [apply grows_by_trans | |].
    + intros st. rewrite extract_eq.
      apply (grows_by_log leaves_objects). exact I.
    + intros rows. apply IH.
Qed.

Lemma process_experiments_grows (experiments : list Main.Experiment) :
  keeps (grows_by leaves_objects) (process_experiments experiments).
Proof.
  unfold Main.process_experiments.
  apply keeps_bind; [apply grows_by_trans | apply process_loop_grows |].
  intros annotations_df.
  apply keeps_bind; [apply grows_by_trans | |].
  - unfold Main.to_excel. destruct (to_excel_error _ _).
    + apply keeps_raise. apply grows_by_refl.
    + intros st. eapply grows_by_intro; [auto | reflexivity | reflexivity |].
      repeat constructor.
  - intros _. apply upload_to_s3_grows.
Qed.

(** X21: however [process_experiments] and
    [process_experiments_by_names] end, they have removed nothing from
    the bucket: every key that was there is still there, neither
    [delete_object] nor [copy_object] was called, and the
    pending-transfer queue holds what it held. *)
Theorem whole_run_never_removes_objects (st : State) :
  (forall experiments,
      let run := process_experiments experiments in
      (forall k, k ∈ objects st -> k ∈ objects (snd (run st))) /\
      future_queue (snd (run st)) = future_queue st /\
      Forall leaves_objects (events_of run st)) /\
  (forall experiment_names,
      let run := process_experiments_by_names experiment_names in
      (forall k, k ∈ objects st -> k ∈ objects (snd (run st))) /\
      future_queue (snd (run st)) = future_queue st /\
      Forall leaves_objects (events_of run st)).
Proof.
  assert (Hsplit : forall run : M unit,
             keeps (grows_by leaves_objects) run ->
             (forall k, k ∈ objects st -> k ∈ objects (snd (run st))) /\
             future_queue (snd (run st)) = future_queue st /\
             Forall leaves_objects (events_of run st)).
  { intros run H. pose proof (H st) as Hst.
    split; [exact (proj1 Hst)|]. split; [exact (proj1 (proj2 Hst))|].
    apply grows_by_events. exact Hst. }
  split.
  - intros experiments. cbn zeta. apply Hsplit, process_experiments_grows.
  - intros experiment_names. cbn zeta. apply Hsplit.
    unfold Main.process_experiments_by_names.
    apply keeps_bind; [apply grows_by_trans | |].
    + apply keeps_lift. apply grows_by_refl.
    + intros experiments. apply process_experiments_grows.
Qed.

(** A loop that returned normally collected, behind what it started with,
    the rows of the experiments in their order. *)
Lemma process_loop_Ok (experiments : list Main.Experiment) :
  forall (annotations_df table : list PyObj.pydict) (st st' : State),
    process_loop experiments annotations_df st = (Ok table, st') ->
    exists per_experiment,
      Forall2 (fun exp rows => rows_of exp = Ok rows) experiments per_experiment /\
      table = (annotations_df ++ concat per_experiment)%list.
Proof.
  induction experiments as [|exp rest IH]; intros annotations_df table st st' H.
  - injection H as <- _. exists []. split; [constructor|].
    cbn. rewrite app_nil_r. reflexivity.
  - cbn [Main.process_loop] in H.
    apply bind_Ok_inv in H as ([] & s1 & _ & H).
    apply bind_Ok_inv in H as (rows & s2 & Hrows & H).
    rewrite extract_eq in Hrows. injection Hrows as Hrows _.
    apply IH in H as (per & Hper & ->).
    exists (rows :: per). split; [constructor; assumption|].
    cbn. rewrite <- app_assoc. reflexivity.
Qed.

(** X22: a [process_experiments] that returned normally wrote one
    spreadsheet, holding the rows of all experiments in the order of the
    experiments; the spreadsheet was written, uploaded and removed as the
    last four steps of the run, so that afterwards it is in the bucket
    under its mirrored key and not on the local disk. *)
Theorem process_experiments_writes_one_spreadsheet
    (experiments : list Main.Experiment) (st st' : State) :
  process_experiments experiments st = (Ok tt, st') ->
  exists per_experiment earlier,
    Forall2 (fun exp rows => rows_of exp = Ok rows) experiments per_experiment /\
    to_excel_error (concat per_experiment) annotations_xlsx = None /\
    trace st'
      = (trace st ++ earlier
         ++ [ EvWrite annotations_xlsx;
              EvSubmit (mirror_upload annotations_xlsx);
              EvResult (mirror_upload annotations_xlsx);
              EvRemove annotations_xlsx ])%list /\
    mirror_key annotations_xlsx ∈ objects st' /\
    annotations_xlsx ∉ files st'.
Proof.
  unfold Main.process_experiments. intros H.
  apply bind_Ok_inv in H as (table & s1 & Hloop & H).
  pose proof (process_loop_grows experiments [] st) as Hgrow.
  rewrite Hloop in Hgrow. destruct Hgrow as (_ & _ & earlier & Htr & _).
  cbn [snd] in Htr.
  apply process_loop_Ok in Hloop as (per & Hper & ->).
  cbn [app] in H. cbn zeta in H.
  apply bind_Ok_inv in H as ([] & s2 & Hx & H).
  unfold Main.to_excel in Hx.
  fold annotations_xlsx in Hx, H.
  destruct (to_excel_error (concat per) annotations_xlsx) eqn:Hexcel;
    [discriminate Hx|].
  rewrite write_file_eq in Hx. injection Hx as <-.
  rewrite (upload_written transfer_manager sdk_copy_object sdk_delete_object) in H.
  destruct (transfer_manager _); [discriminate H|]. injection H as <-.
  exists per, earlier. split; [exact Hper|]. split; [exact Hexcel|].
  split; [|split].
  - cbn. rewrite Htr, <- !app_assoc. reflexivity.
  - cbn. apply elem_of_put_self.
  - cbn. apply not_elem_of_del.
Qed.

(** X23: [process_experiments_by_names] looks up every name before it
    transfers anything: when a name cannot be resolved (the names before
    it resolving), the run raises what the lookup raised and the state is
    as it was, also for the experiments that were found. *)
Theorem unresolved_name_stops_the_run_before_it_starts
    (before after : list string) (name : string) (e : exn) (st : State) :
  Forall (fun n => exists exp, get_experiment n = Ok exp) before ->
  get_experiment name = Raise e ->
  process_experiments_by_names (before ++ name :: after) st = (Raise e, st).
Proof.
  intros Hbefore Hname. unfold Main.process_experiments_by_names.
  assert (Hget : Main.get_experiments get_experiment (before ++ name :: after)
                 = Raise e).
  { induction Hbefore as [|n before [exp Hn] _ IH].
    - cbn [app Main.get_experiments]. rewrite Hname. reflexivity.
    - cbn [app Main.get_experiments]. rewrite Hn, IH. reflexivity. }
  rewrite Hget. reflexivity.
Qed.

End WholeRun.

Lemma process_experiments_writes_one_spreadsheet_witness :
  exists per_experiment earlier,
    Forall2 (fun exp rows =>
               annotation_rows Scenario.decoders_json Scenario.api_json
                 Scenario.update_ok exp = Ok rows)
            [Scenario.E1] per_experiment /\
    Scenario.excel_ok (concat per_experiment) annotations_xlsx = None /\
    trace Scenario.after_whole_run
      = (trace Scenario.empty_store ++ earlier
         ++ [ EvWrite annotations_xlsx;
              EvSubmit (mirror_upload annotations_xlsx);
              EvResult (mirror_upload annotations_xlsx);
              EvRemove annotations_xlsx ])%list /\
    mirror_key annotations_xlsx ∈ objects Scenario.after_whole_run /\
    annotations_xlsx ∉ files Scenario.after_whole_run.
Proof.
  apply (process_experiments_writes_one_spreadsheet Scenario.api_json
           Scenario.decoders_json Scenario.transfers_ok Scenario.copies_ok
           Scenario.deletes_ok Scenario.update_ok Scenario.excel_ok
           [Scenario.E1] Scenario.empty_store Scenario.after_whole_run).
  vm_compute. reflexivity.
Defined.

Lemma unresolved_name_stops_the_run_before_it_starts_witness :
  Main.process_experiments_by_names Scenario.api_json Scenario.decoders_json
    Scenario.transfers_ok Scenario.copies_ok Scenario.deletes_ok
    Scenario.update_ok Scenario.excel_ok Scenario.lookup
    (["E1"] ++ "E2" :: ["E1"]) Scenario.empty_store
  = (Raise (ClientError "no such experiment"), Scenario.empty_store).
Proof.
  apply (unresolved_name_stops_the_run_before_it_starts Scenario.api_json
           Scenario.decoders_json Scenario.transfers_ok Scenario.copies_ok
           Scenario.deletes_ok Scenario.update_ok Scenario.excel_ok
           Scenario.lookup ["E1"] ["E1"] "E2"
           (ClientError "no such experiment") Scenario.empty_store).
  - constructor; [|constructor]. eexists. reflexivity.
  - reflexivity.
Defined.

Example whole_run_rows :
  annotation_rows Scenario.decoders_json Scenario.api_json Scenario.update_ok
    Scenario.E1
  = Ok [[ (PStr "experiment", PStr "E1"); (PStr "filename", PStr "A.fcs");
          (PStr "dose", PInt 5) ]].
Proof. vm_compute. reflexivity. Qed.

(* ===================================================================== *)
(** ** Directory copies and downloads *)
(* ===================================================================== *)

Lemma startswith_split (p s : string) :
  PyStr.startswith p s = true -> s = p +:+ PyStr.drop_chars (String.length p) s.
Proof.
  unfold PyStr.startswith. revert s.
  induction p as [|c p IH]; intros s H; [reflexivity|].
  destruct s as [|c' s]; [discriminate H|].
  cbn in H. destruct (ascii_dec c c') as [<-|]; [|discriminate H].
  rewrite str_app_cons. cbn [String.length PyStr.drop_chars].
  f_equal. apply IH. exact H.
Qed.

Lemma bucket_or_own_own (self : S3.S3FilesLoader) :
  S3.bucket_or_own self (Some (S3.bucket_name self)) = S3.bucket_name self.
Proof. unfold S3.bucket_or_own. destruct (S3.bucket_name self); reflexivity. Qed.

(** Copying the keys [keys] one by one within the bucket, every copy
    answering 200. *)
Lemma copy_each (self : S3.S3FilesLoader) (from_dir_key to_dir_key : string)
    (keys : list string) :
  S3.dry_run self = false ->
  (forall k, k ∈ keys ->
             S3.s3_client_copy_object self k (S3.bucket_name self)
               (PyStr.replace_first from_dir_key to_dir_key k) = Ok 200) ->
  forall st : State,
  exists st',
    for_each keys (fun key =>
      let new_key := PyStr.replace_first from_dir_key to_dir_key key in
      S3.copy_file self key new_key (Some (S3.bucket_name self))) st
    = (Ok tt, st') /\
    trace st'
      = (trace st
         ++ map (fun key => EvCopyObject key (S3.bucket_name self)
                              (PyStr.replace_first from_dir_key to_dir_key key))
                keys)%list /\
    (forall x, x ∈ objects st -> x ∈ objects st') /\
    (forall k, k ∈ keys ->
               PyStr.replace_first from_dir_key to_dir_key k ∈ objects st').
Proof.
  intros Hdry. induction keys as [|k keys IH]; intros Hok st.
  - exists st. cbn. rewrite app_nil_r. split; [reflexivity|].
    split; [reflexivity|]. split; [auto|]. intros k Hk. inversion Hk.
  - set (new_key := PyStr.replace_first from_dir_key to_dir_key k).
    assert (Hk : S3.copy_file self k new_key (Some (S3.bucket_name self)) st
                 = (Ok tt,
                    set_objects (put new_key (objects st))
                      (logged (EvCopyObject k (S3.bucket_name self) new_key) st))).
    { unfold S3.copy_file, S3.is_not_dry_run. rewrite Hdry. cbn [negb].
      rewrite bucket_or_own_own. unfold S3.copy_object.
      rewrite !bind_assoc.
      rewrite (bind_Ok_eq _ _ _ _ _ (eq_refl : log _ st = (Ok tt, logged _ st))).
      unfold new_key. rewrite (Hok k (list_elem_of_here _ _)).
      unfold bind. cbn. rewrite String.eqb_refl. reflexivity. }
    destruct (IH (fun x Hx => Hok x (list_elem_of_further _ _ _ Hx))
                 (set_objects (put new_key (objects st))
                    (logged (EvCopyObject k (S3.bucket_name self) new_key) st)))
      as (st' & Hrun & Htr & Hkeep & Hnew).
    exists st'. split; [|split; [|split]].
    + cbn [for_each]. cbn zeta. fold new_key.
      rewrite (bind_Ok_eq _ _ _ _ _ Hk). exact Hrun.
    + rewrite Htr. cbn. rewrite <- app_assoc. reflexivity.
    + intros x Hx. apply Hkeep. cbn. apply elem_of_put. exact Hx.
    + intros x Hx. apply elem_of_cons in Hx as [->|Hx]; [|apply Hnew, Hx].
      apply Hkeep. cbn. apply elem_of_put_self.
Qed.

(** X24: a [copy_dir] within the bucket, outside dry-run mode and with
    every copy answering 200, returns normally after one [copy_object]
    per listed key, in listing order; each object [from_dir_key + r] is
    copied to [to_dir_key + r], the remainder untouched, and is in the
    bucket afterwards beside everything that was there. *)
Theorem copy_dir_copies_under_the_new_prefix (self : S3.S3FilesLoader)
    (from_dir_key to_dir_key : string) (to_bucket : option string) (st : State) :
  S3.dry_run self = false ->
  S3.bucket_or_own self to_bucket = S3.bucket_name self ->
  (forall r, from_dir_key +:+ r ∈ objects st ->
             S3.s3_client_copy_object self (from_dir_key +:+ r)
               (S3.bucket_name self) (to_dir_key +:+ r) = Ok 200) ->
  exists st',
    S3.copy_dir self from_dir_key to_dir_key to_bucket st = (Ok tt, st') /\
    trace st'
      = (trace st
         ++ map (fun key =>
                   EvCopyObject key (S3.bucket_name self)
                     (to_dir_key
                      +:+ PyStr.drop_chars (String.length from_dir_key) key))
                (listed from_dir_key st))%list /\
    (forall x, x ∈ objects st -> x ∈ objects st') /\
    (forall r, from_dir_key +:+ r ∈ objects st -> to_dir_key +:+ r ∈ objects st').
Proof.
  intros Hdry Hown Hok.
  assert (Hnew : forall k, k ∈ listed from_dir_key st ->
                   k ∈ objects st /\
                   k = from_dir_key
                       +:+ PyStr.drop_chars (String.length from_dir_key) k /\
                   PyStr.replace_first from_dir_key to_dir_key k
                   = to_dir_key
                     +:+ PyStr.drop_chars (String.length from_dir_key) k).
  { intros k Hk. apply list_elem_of_In, filter_In in Hk as [Hin Hpre].
    apply list_elem_of_In in Hin. apply startswith_split in Hpre.
    split; [exact Hin|]. split; [exact Hpre|].
    rewrite Hpre at 1. apply replace_first_app. }
  destruct (copy_each self from_dir_key to_dir_key (listed from_dir_key st) Hdry)
    with (st := st) as (st' & Hrun & Htr & Hkeep & Hthere).
  { intros k Hk. destruct (Hnew k Hk) as (Hin & Hsplit & ->).
    rewrite Hsplit in Hin |- * at 1. apply Hok. exact Hin. }
  exists st'. split; [|split; [|split]].
  - unfold S3.copy_dir. rewrite Hown.
    rewrite (bind_Ok_eq _ _ _ _ _ (eq_refl : S3.bucket_filter _ st = (Ok _, st))).
    exact Hrun.
  - rewrite Htr. f_equal. apply map_ext_in. intros k Hk.
    apply list_elem_of_In in Hk. destruct (Hnew k Hk) as (_ & _ & ->). reflexivity.
  - exact Hkeep.
  - intros r Hr.
    rewrite <- (replace_first_app from_dir_key to_dir_key r).
    apply Hthere. apply list_elem_of_In, filter_In.
    split; [apply list_elem_of_In; exact Hr|].
    unfold PyStr.startswith. apply prefix_app.
Qed.

Lemma copy_dir_copies_under_the_new_prefix_witness :
  exists st',
    S3.copy_dir Scenario.sound "a" "z" None Scenario.bucket_a = (Ok tt, st') /\
    trace st'
      = (trace Scenario.bucket_a
         ++ map (fun key =>
                   EvCopyObject key "bucket"
                     ("z" +:+ PyStr.drop_chars (String.length "a") key))
                (listed "a" Scenario.bucket_a))%list /\
    (forall x, x ∈ objects Scenario.bucket_a -> x ∈ objects st') /\
    (forall r, "a" +:+ r ∈ objects Scenario.bucket_a -> "z" +:+ r ∈ objects st').
Proof.
  apply (copy_dir_copies_under_the_new_prefix Scenario.sound "a" "z" None
           Scenario.bucket_a).
  - reflexivity.
  - reflexivity.
  - intros r _. reflexivity.
Defined.

Lemma bucket_untouched_refl (st : State) : bucket_untouched st st.
Proof. intros H. split; [reflexivity | exact H]. Qed.

Lemma bucket_untouched_trans (st1 st2 st3 : State) :
  bucket_untouched st1 st2 -> bucket_untouched st2 st3 -> bucket_untouched st1 st3.
Proof.
  intros H12 H23 H1. destruct (H12 H1) as [O2 Q2]. destruct (H23 Q2) as [O3 Q3].
  split; [congruence | exact Q3].
Qed.

Lemma future_result_download (fut : future) (st : State) :
  is_download fut ->
  objects (snd (S3.future_result fut st)) = objects st.
Proof.
  destruct fut as [[f k|k f] err]; intros H; [destruct H|].
  unfold S3.future_result, bind, log, raise, S3.transfer_done. cbn.
  destruct err; reflexivity.
Qed.

Lemma result_loop_downloads (pending : list future) :
  Forall is_download pending ->
  forall (n : nat) (st : State),
    Forall is_download (future_queue st) ->
    objects (snd (S3.result_loop n pending st)) = objects st /\
    Forall is_download (future_queue (snd (S3.result_loop n pending st))).
Proof.
  induction 1 as [|fut pending Hfut Hpending IH]; intros n st Hq.
  - split; [reflexivity | exact Hq].
  - cbn [S3.result_loop].
    rewrite (bind_Ok_eq _ _ st (set_queue (rev pending) st) tt eq_refl).
    set (st0 := set_queue (rev pending) st).
    pose proof (future_result_download fut st0 Hfut) as Hobj.
    pose proof (future_result_queue fut st0) as Hqueue.
    destruct (S3.future_result fut st0) as [[[]|e] st1] eqn:E; cbn [snd] in *.
    + rewrite !(bind_Ok_eq _ _ _ _ _ E).
      assert (Hq1 : Forall is_download (future_queue st1)).
      { rewrite Hqueue. cbn. apply Forall_rev. exact Hpending. }
      destruct (IH (S n) st1 Hq1) as [O Q].
      split; [rewrite O; exact Hobj | exact Q].
    + rewrite !(bind_Raise_eq _ _ _ _ _ E). cbn [snd].
      split; [exact Hobj|]. rewrite Hqueue. cbn. apply Forall_rev. exact Hpending.
Qed.

(** X25: [download_dir], entered with nothing but downloads on the queue
    (an empty queue, for one), never changes the bucket, however it
    ends. *)
Theorem download_dir_leaves_the_bucket (self : S3.S3FilesLoader)
    (from_dir_key : string) (to_dir : option string) (st : State) :
  Forall is_download (future_queue st) ->
  objects (snd (S3.download_dir self from_dir_key to_dir st)) = objects st.
Proof.
  assert (H : keeps bucket_untouched (S3.download_dir self from_dir_key to_dir)).
  { unfold S3.download_dir.
    apply keeps_bind; [apply bucket_untouched_trans | |].
    { intros s. apply bucket_untouched_refl. }
    intros objs.
    apply keeps_bind; [apply bucket_untouched_trans | |].
    - apply keeps_for_each;
        [apply bucket_untouched_refl | apply bucket_untouched_trans |].
      intros key.
      apply keeps_bind; [apply bucket_untouched_trans | |].
      + intros s. unfold Os.makedirs. destruct (PyStr.dirname _).
        * apply bucket_untouched_refl.
        * intros Hq. split; [reflexivity | exact Hq].
      + intros _ s Hq. rewrite add_to_download_future_eq. cbn.
        split; [reflexivity|]. apply Forall_app. split; [exact Hq|].
        repeat constructor.
    - intros _.
      apply keeps_bind; [apply bucket_untouched_trans | |].
      + intros s Hq. unfold S3.result_all_futures.
        apply result_loop_downloads; [apply Forall_rev; exact Hq | exact Hq].
      + intros n. apply keeps_ret. apply bucket_untouched_refl. }
  intros Hq. exact (proj1 (H st Hq)).
Qed.

Lemma download_dir_leaves_the_bucket_witness :
  objects (snd (S3.download_dir Scenario.flaky "a" (Some "b") Scenario.bucket_a))
  = objects Scenario.bucket_a.
Proof.
  apply (download_dir_leaves_the_bucket Scenario.flaky "a" (Some "b")
           Scenario.bucket_a).
  constructor.
Defined.

(* ===================================================================== *)
(** ** Running the whole pipeline again *)
(* ===================================================================== *)
Section WholeRunAgain.

Variable client : ClientExt.APIClient.
Variable lib : ClientExt.Decoders.
Variable transfer_manager : transfer -> option exn.
Variable sdk_copy_object : string -> string -> string -> result Z.
Variable sdk_delete_object : string -> option exn.
Variable dict_update_runtime : PyObj.pydict -> pyval -> result PyObj.pydict.
Variable to_excel_error : list PyObj.pydict -> string -> option exn.

Local Abbreviation export :=
  (Main._download_experiment_files client lib transfer_manager sdk_copy_object
     sdk_delete_object).
Local Abbreviation extract :=
  (Main._extract_experiment_annotations client lib dict_update_runtime).
Local Abbreviation rows_of := (annotation_rows lib client dict_update_runtime).
Local Abbreviation process_loop :=
  (Main.process_loop client lib transfer_manager sdk_copy_object
     sdk_delete_object dict_update_runtime).
Local Abbreviation process_experiments :=
  (Main.process_experiments client lib transfer_manager sdk_copy_object
     sdk_delete_object dict_update_runtime to_excel_error).

Local Abbreviation went_through :=
  (went_through client lib transfer_manager dict_update_runtime).

Lemma went_through_retains (st st' : State) (exp : Main.Experiment) :
  retains st st' -> went_through st exp -> went_through st' exp.
Proof.
  intros R (Hget & Htm & Hrows & Hall).
  repeat split; try assumption.
  eapply all_mirrored_retains; eassumption.
Qed.

Lemma process_loop_first (experiments : list Main.Experiment) :
  forall (annotations_df table : list PyObj.pydict) (st st' : State),
    process_loop experiments annotations_df st = (Ok table, st') ->
    retains st st' /\
    Forall (went_through st') experiments /\
    table = (annotations_df
             ++ flat_map (rows_or_none lib client dict_update_runtime)
                         experiments)%list.
Proof.
  induction experiments as [|exp rest IH]; intros annotations_df table st st' H.
  - injection H as <- <-. split; [apply retains_refl|]. split; [constructor|].
    cbn. rewrite app_nil_r. reflexivity.
  - cbn [Main.process_loop] in H.
    apply bind_Ok_inv in H as ([] & s1 & Hexp & H).
    apply bind_Ok_inv in H as (rows & s2 & Hrows & H).
    rewrite (extract_eq client lib dict_update_runtime) in Hrows.
    injection Hrows as Hrows <-.
    apply (export_Ok client lib transfer_manager sdk_copy_object
             sdk_delete_object) in Hexp as (Hget & Htm & R1 & Hall).
    apply IH in H as (R2 & Hrest & ->).
    assert (R : retains s1 st') by (intros p Hp; apply R2; exact Hp).
    split; [eapply retains_trans; eassumption|]. split.
    + constructor; [|exact Hrest].
      apply (went_through_retains s1 st' exp R).
      repeat split; try assumption. exists rows. exact Hrows.
    + cbn [flat_map]. unfold rows_or_none at 2. rewrite Hrows.
      rewrite <- app_assoc. reflexivity.
Qed.

Lemma process_loop_again (experiments : list Main.Experiment) :
  forall (annotations_df : list PyObj.pydict) (st : State),
    Forall (went_through st) experiments ->
    exists st',
      process_loop experiments annotations_df st
      = (Ok (annotations_df
             ++ flat_map (rows_or_none lib client dict_update_runtime)
                         experiments)%list, st') /\
      trace st' = (trace st ++ flat_map (rerun_events client) experiments)%list.
Proof.
  induction experiments as [|exp rest IH]; intros annotations_df st Hall.
  - exists st. cbn. rewrite !app_nil_r. split; reflexivity.
  - apply Forall_cons in Hall as [((raw & Hget) & Htm & (rows & Hrows) & Hexp) Hrest].
    pose proof (export_all_mirrored client lib transfer_manager sdk_copy_object
                  sdk_delete_object exp raw st Hget Htm Hexp) as Hrun.
    cbn zeta in Hrun.
    set (s1 := uploaded (Main.global_gatingml_path exp (exp_root exp))
                 (written (Main.global_gatingml_path exp (exp_root exp))
                    (logged (EvGet (Main.global_gatingml_url client exp))
                       (logged (EvMakedirs (exp_root exp)) st)))) in Hrun.
    set (s2 := logged (annotations_request client exp) s1).
    assert (R : retains st s2).
    { intros p Hp. cbn. apply has_key_put. exact Hp. }
    destruct (IH (annotations_df ++ rows)%list s2) as (st' & Hloop & Htr).
    { eapply Forall_impl; [exact Hrest|].
      intros e He. apply (went_through_retains st s2 e R He). }
    exists st'. split.
    + cbn [Main.process_loop]. rewrite (bind_Ok_eq _ _ _ _ _ Hrun).
      erewrite bind_Ok_eq;
        [|rewrite (extract_eq client lib dict_update_runtime), Hrows; reflexivity].
      fold s2. rewrite Hloop. cbn [flat_map]. unfold rows_or_none at 2.
      rewrite Hrows, <- app_assoc. reflexivity.
    + rewrite Htr. cbn. unfold rerun_events, global_gating_events. cbn.
      rewrite <- !app_assoc. reflexivity.
Qed.

(** X26: running the whole pipeline again over a store that kept what a
    first, completed run left fetches no raw file, no per-file gating
    definition and no per-file statistics.  The second run returns
    normally, and what it does is, per experiment, the directory, the
    global gating definition (fetched and uploaded again) and the
    annotations request, and at the end the spreadsheet. *)
Theorem whole_run_again_skips_every_file
    (experiments : list Main.Experiment) (st0 st1 st : State) :
  process_experiments experiments st0 = (Ok tt, st1) ->
  retains st1 st ->
  exists st2,
    process_experiments experiments st = (Ok tt, st2) /\
    trace st2
      = (trace st ++ flat_map (rerun_events client) experiments
         ++ spreadsheet_events)%list.
Proof.
  unfold Main.process_experiments. intros Hfirst Hret.
  apply bind_Ok_inv in Hfirst as (table & s1 & Hloop & H).
  apply process_loop_first in Hloop as (R1 & Hall & ->).
  cbn [app] in H. cbn zeta in H.
  apply bind_Ok_inv in H as ([] & s2 & Hx & H).
  unfold Main.to_excel in Hx. fold annotations_xlsx in Hx, H.
  destruct (to_excel_error _ annotations_xlsx) eqn:Hexcel; [discriminate Hx|].
  rewrite write_file_eq in Hx. injection Hx as <-.
  rewrite (upload_written transfer_manager sdk_copy_object sdk_delete_object) in H.
  destruct (transfer_manager (mirror_upload annotations_xlsx)) eqn:Htm;
    [discriminate H|].
  injection H as <-.
  assert (R : retains s1 st).
  { intros p Hp. apply Hret. cbn. apply has_key_put. exact Hp. }
  destruct (process_loop_again experiments [] st) as (st' & Hagain & Htr).
  { eapply Forall_impl; [exact Hall|].
    intros e He. apply (went_through_retains s1 st e R He). }
  cbn [app] in Hagain.
  eexists. split.
  - rewrite (bind_Ok_eq _ _ _ _ _ Hagain). cbn zeta.
    unfold Main.to_excel. fold annotations_xlsx. rewrite Hexcel.
    rewrite (bind_Ok_eq _ _ _ _ _ (write_file_eq _ _)).
    rewrite (upload_written transfer_manager sdk_copy_object sdk_delete_object).
    rewrite Htm. reflexivity.
  - cbn. rewrite Htr. unfold spreadsheet_events. rewrite <- !app_assoc.
    reflexivity.
Qed.

End WholeRunAgain.

Lemma whole_run_again_skips_every_file_witness :
  exists st2,
    Scenario.whole_run Scenario.retained_after_whole_run = (Ok tt, st2) /\
    trace st2
      = [ EvMakedirs "data/E1";
          EvGet "https://ce/api/v1/experiments/e1.gatingml";
          EvWrite "data/E1/E1_global.gatingml";
          EvSubmit (mirror_upload "data/E1/E1_global.gatingml");
          EvResult (mirror_upload "data/E1/E1_global.gatingml");
          annotations_request Scenario.api_json Scenario.E1;
          EvWrite annotations_xlsx;
          EvSubmit (mirror_upload annotations_xlsx);
          EvResult (mirror_upload annotations_xlsx);
          EvRemove annotations_xlsx ].
Proof.
  apply (whole_run_again_skips_every_file Scenario.api_json
           Scenario.decoders_json Scenario.transfers_ok Scenario.copies_ok
           Scenario.deletes_ok Scenario.update_ok Scenario.excel_ok
           [Scenario.E1] Scenario.empty_store Scenario.after_whole_run
           Scenario.retained_after_whole_run).
  - vm_compute. reflexivity.
  - intros prefix H. exact H.
Defined.
